(** * MMapper telnet engine: [src/proxy/AbstractTelnet.cpp]

    A shallow embedding of the telnet protocol engine (byte state machine,
    option negotiator, option handlers, outbound framer and decompression
    shim) and the properties stated about it.

    Conventions.
    - [uint8_t] and [char] values are [Byte.byte] (256 constructors, so no
      range side conditions); [QByteArray] and [AppendBuffer] are
      [list byte].
    - The four [std::array<bool, NUM_OPTS>] option tables are total
      functions [byte -> bool]: the index is always an [unsigned char].
    - The engine object is the record [Engine]; member functions are
      computations in the monad [M], which threads the engine, collects the
      calls to the virtual hooks ([sendRawData], [sendToMapper], ...) in an
      event log, and carries the two ways a call can leave early: a C++
      exception ([Throw]) and [abort()] or a failed [assert] ([Abort]).
    - zlib, [TextCodec], the GMCP message parser and the list of GMCP
      module types are parameters ([Collaborators]).
    - The two loops whose number of rounds depends on zlib (the reader's
      [while] once it inflates, and the [do ... while] around [inflate])
      take fuel; a loop cut off by the fuel ends as [Unfinished].
    - [qDebug]/[qWarning] output is not modelled; the [debug] flag is kept
      because one handler branches on it. [getTextCodec], which reads the
      application's configuration, and the three functions that only name
      commands and options for the debug output are left out. *)

From Stdlib Require Import List Bool ZArith Lia String Ascii.
From Stdlib Require Import Strings.Byte.
Import ListNotations.

Local Open Scope list_scope.

(** ** Bytes and buffers *)

Definition QByteArray := list byte.
Definition AppendBuffer := list byte.

(** [static_cast<uint8_t>(n)] for a non-negative integer. *)
Definition to_uint8 (n : Z) : byte :=
  match Byte.of_N (Z.to_N (n mod 256)) with
  | Some b => b
  | None => x00
  end.

(** [AppendBuffer::unsigned_at(i)] and [QByteArray::operator[]]. The engine
    reads index [size()] in two places ([command.unsigned_at(1)] on a
    one-byte command, [payload[1]] on a one-byte payload); a [QByteArray]
    keeps a terminating NUL there, so the read yields 0. *)
Definition unsigned_at (b : AppendBuffer) (i : nat) : byte := nth i b x00.

(** [QByteArray::mid(pos)] *)
Definition mid (b : QByteArray) (pos : nat) : QByteArray := skipn pos b.

(** [QByteArray::split(sep)]: the pieces between separators, empty pieces
    kept; an empty array gives one empty piece. *)
Fixpoint split (sep : byte) (b : QByteArray) : list QByteArray :=
  match b with
  | [] => [[]]
  | c :: rest =>
      if Byte.eqb c sep then [] :: split sep rest
      else match split sep rest with
           | piece :: pieces => (c :: piece) :: pieces
           | [] => [[c]]
           end
  end.

Definition bytes_of_string (s : string) : QByteArray := list_byte_of_string s.

(** ** Protocol constants

    [AbstractTelnet.h] is not among the sources. *)

(** Modelled from the spec: the command bytes of section 4.1 ([IAC=255],
    [SE=240], [SB=250], [WILL=251], [WONT=252], [DO=253], [DONT=254],
    [GA=249]); [AYT] is the RFC 854 value. *)
Definition TN_SE : byte := xf0.
Definition TN_AYT : byte := xf6.
Definition TN_GA : byte := xf9.
Definition TN_SB : byte := xfa.
Definition TN_WILL : byte := xfb.
Definition TN_WONT : byte := xfc.
Definition TN_DO : byte := xfd.
Definition TN_DONT : byte := xfe.
Definition TN_IAC : byte := xff.

(** Modelled from the spec: the option codes of section 3. *)
Definition OPT_ECHO : byte := x01.
Definition OPT_SUPPRESS_GA : byte := x03.
Definition OPT_STATUS : byte := x05.
Definition OPT_TIMING_MARK : byte := x06.
Definition OPT_TERMINAL_TYPE : byte := x18.
Definition OPT_NAWS : byte := x1f.
Definition OPT_CHARSET : byte := x2a.
Definition OPT_COMPRESS2 : byte := x56.
Definition OPT_GMCP : byte := xc9.

(** Modelled from the spec: the subnegotiation verbs, as scenario 4 of
    section 8 and RFC 1091 / RFC 2066 give them ([SEND] and [REQUEST] share
    the value 1). *)
Definition TNSB_IS : byte := x00.
Definition TNSB_SEND : byte := x01.
Definition TNSB_REQUEST : byte := x01.
Definition TNSB_ACCEPTED : byte := x02.
Definition TNSB_REJECTED : byte := x03.
Definition TNSB_TTABLE_IS : byte := x04.

(** zlib.h return codes. *)
Definition Z_OK : Z := 0.
Definition Z_STREAM_END : Z := 1.
Definition Z_NEED_DICT : Z := 2.
Definition Z_DATA_ERROR : Z := -3.
Definition Z_MEM_ERROR : Z := -4.
Definition Z_BUF_ERROR : Z := -5.

(** [static constexpr const int CHUNK = 1024] in [onReadInternalInflate]. *)
Definition CHUNK : nat := 1024.

(** ** External collaborators

    zlib, the text codec, the GMCP message parser and the GMCP module-type
    enumeration are not part of [AbstractTelnet.cpp]; the engine is
    parametric in them. *)

(** What one call [inflate(&stream, Z_SYNC_FLUSH)] leaves behind: the return
    code, the bytes written to [out], how many input bytes were taken from
    [next_in], the stream afterwards and its [msg]. *)
Record InflateStep (z_stream : Type) : Type := mkInflateStep {
  is_ret : Z;
  is_out : list byte;
  is_consumed : nat;
  is_stream : z_stream;
  is_msg : string
}.
Arguments mkInflateStep {z_stream}.
Arguments is_ret {z_stream}.
Arguments is_out {z_stream}.
Arguments is_consumed {z_stream}.
Arguments is_stream {z_stream}.
Arguments is_msg {z_stream}.

Record Collaborators : Type := mkCollaborators {
  (* build configuration *)
  NO_ZLIB : bool;
  (* zlib *)
  z_stream : Type;
  inflateInit : z_stream -> Z * z_stream;
  inflate : z_stream -> list byte -> InflateStep z_stream;
  inflateEnd : z_stream -> z_stream;
  (* TextCodec *)
  TextCodec : Type;
  supports : TextCodec -> QByteArray -> bool;
  setEncodingForName : TextCodec -> QByteArray -> TextCodec;
  supportedEncodings : TextCodec -> list QByteArray;
  (* GMCP *)
  GmcpModuleTypeEnum : Type;
  GmcpModuleTypeEnum_eqb : GmcpModuleTypeEnum -> GmcpModuleTypeEnum -> bool;
  GmcpMessage : Type;
  GmcpMessage_fromRawBytes : QByteArray -> option GmcpMessage;
  GmcpMessage_toRawBytes : GmcpMessage -> QByteArray
}.

(** ** GMCP modules *)

Definition GmcpModuleVersion := N.
Definition DEFAULT_GMCP_MODULE_VERSION : GmcpModuleVersion := 0%N.

(** Modelled from the spec: [GmcpModule] (declared in a header that is not
    among the sources) is "a dotted name plus optional integer version"; the
    absent version is the default version 0, and a module whose top-level
    name is not one of the recognised module types has no type. *)
Record GmcpModule (T : Type) : Type := mkGmcpModule {
  normalizedName : string;
  version : GmcpModuleVersion;
  moduleType : option T
}.
Arguments mkGmcpModule {T}.
Arguments normalizedName {T}.
Arguments version {T}.
Arguments moduleType {T}.

Definition hasVersion {T} (m : GmcpModule T) : bool :=
  negb (N.eqb (version m) DEFAULT_GMCP_MODULE_VERSION).

Definition isSupported {T} (m : GmcpModule T) : bool :=
  match moduleType m with Some _ => true | None => false end.

Definition getVersion {T} (m : GmcpModule T) : GmcpModuleVersion := version m.

(** Modelled from the spec: "Set equality is on the full name". *)
Definition sameModule {T} (a b : GmcpModule T) : bool :=
  String.eqb (normalizedName a) (normalizedName b).

Definition modules_insert {T} (m : GmcpModule T) (s : list (GmcpModule T)) :=
  if existsb (sameModule m) s then s else s ++ [m].

Definition modules_erase {T} (m : GmcpModule T) (s : list (GmcpModule T)) :=
  filter (fun x => negb (sameModule m x)) s.

(** ** The byte state machine's states *)

Inductive TelnetStateEnum : Type :=
| NORMAL
| IAC
| COMMAND
| SUBNEG
| SUBNEG_IAC
| SUBNEG_COMMAND.

Definition OptionTable := byte -> bool.

(** [table[o] = v] *)
Definition assign (t : OptionTable) (o : byte) (v : bool) : OptionTable :=
  fun x => if Byte.eqb x o then v else t x.

(** [table.fill(false)] *)
Definition all_false : OptionTable := fun _ => false.

(** How a call ends. *)
Inductive Status (A : Type) : Type :=
| Ret (a : A)              (* the call returned *)
| Throw (what : string)    (* std::runtime_error(what) left the call *)
| Abort                    (* abort() or a failed assert *)
| Unfinished.              (* a loop was cut off by the fuel of the model *)
Arguments Ret {A}.
Arguments Throw {A}.
Arguments Abort {A}.
Arguments Unfinished {A}.

Section Telnet.

Variable C : Collaborators.

(** ** Hooks

    The pure virtual members of [AbstractTelnet], implemented by the
    subclasses: each call is recorded. [ProcessTelnetCommand] and
    [ProcessTelnetSubnegotiation] mark the entry into the negotiator (the
    places where the source logs "* Processing Telnet ..."), so that a log
    also shows which protocol units the byte state machine dispatched. *)
Inductive Event : Type :=
| SendRawData (data : QByteArray)
| SendToMapper (data : QByteArray) (goAhead : bool)
| ReceiveEchoMode (toggle : bool)
| ReceiveTerminalType (data : QByteArray)
| ReceiveWindowSize (x y : Z)
| ReceiveGmcpMessage (msg : GmcpMessage C)
| OnGmcpEnabled
| ProcessTelnetCommand (command : AppendBuffer)
| ProcessTelnetSubnegotiation (payload : AppendBuffer).

(** ** The engine object *)

Record GmcpData : Type := mkGmcpData {
  supported : GmcpModuleTypeEnum C -> GmcpModuleVersion;
  modules : list (GmcpModule (GmcpModuleTypeEnum C))
}.

Record WindowSize : Type := mkWindowSize { ws_x : Z; ws_y : Z }.

Record Engine : Type := mkEngine {
  m_defaultTermType : QByteArray;
  textCodec : TextCodec C;
  debug : bool;
  myOptionState : OptionTable;
  hisOptionState : OptionTable;
  announcedState : OptionTable;
  heAnnouncedState : OptionTable;
  termType : QByteArray;
  state : TelnetStateEnum;
  commandBuffer : AppendBuffer;
  subnegBuffer : AppendBuffer;
  sentBytes : Z;
  recvdGA : bool;
  inflateTelnet : bool;
  recvdCompress : bool;
  stream : z_stream C;
  gmcp : GmcpData;
  current : WindowSize
}.

Definition set_textCodec (v : TextCodec C) (e : Engine) : Engine :=
  mkEngine (m_defaultTermType e) v (debug e) (myOptionState e) (hisOptionState e)
    (announcedState e) (heAnnouncedState e) (termType e) (state e) (commandBuffer e)
    (subnegBuffer e) (sentBytes e) (recvdGA e) (inflateTelnet e) (recvdCompress e)
    (stream e) (gmcp e) (current e).

Definition set_myOptionState (v : OptionTable) (e : Engine) : Engine :=
  mkEngine (m_defaultTermType e) (textCodec e) (debug e) v (hisOptionState e)
    (announcedState e) (heAnnouncedState e) (termType e) (state e) (commandBuffer e)
    (subnegBuffer e) (sentBytes e) (recvdGA e) (inflateTelnet e) (recvdCompress e)
    (stream e) (gmcp e) (current e).

Definition set_hisOptionState (v : OptionTable) (e : Engine) : Engine :=
  mkEngine (m_defaultTermType e) (textCodec e) (debug e) (myOptionState e) v
    (announcedState e) (heAnnouncedState e) (termType e) (state e) (commandBuffer e)
    (subnegBuffer e) (sentBytes e) (recvdGA e) (inflateTelnet e) (recvdCompress e)
    (stream e) (gmcp e) (current e).

Definition set_announcedState (v : OptionTable) (e : Engine) : Engine :=
  mkEngine (m_defaultTermType e) (textCodec e) (debug e) (myOptionState e) (hisOptionState e)
    v (heAnnouncedState e) (termType e) (state e) (commandBuffer e)
    (subnegBuffer e) (sentBytes e) (recvdGA e) (inflateTelnet e) (recvdCompress e)
    (stream e) (gmcp e) (current e).

Definition set_heAnnouncedState (v : OptionTable) (e : Engine) : Engine :=
  mkEngine (m_defaultTermType e) (textCodec e) (debug e) (myOptionState e) (hisOptionState e)
    (announcedState e) v (termType e) (state e) (commandBuffer e)
    (subnegBuffer e) (sentBytes e) (recvdGA e) (inflateTelnet e) (recvdCompress e)
    (stream e) (gmcp e) (current e).

Definition set_termType (v : QByteArray) (e : Engine) : Engine :=
  mkEngine (m_defaultTermType e) (textCodec e) (debug e) (myOptionState e) (hisOptionState e)
    (announcedState e) (heAnnouncedState e) v (state e) (commandBuffer e)
    (subnegBuffer e) (sentBytes e) (recvdGA e) (inflateTelnet e) (recvdCompress e)
    (stream e) (gmcp e) (current e).

Definition set_state (v : TelnetStateEnum) (e : Engine) : Engine :=
  mkEngine (m_defaultTermType e) (textCodec e) (debug e) (myOptionState e) (hisOptionState e)
    (announcedState e) (heAnnouncedState e) (termType e) v (commandBuffer e)
    (subnegBuffer e) (sentBytes e) (recvdGA e) (inflateTelnet e) (recvdCompress e)
    (stream e) (gmcp e) (current e).

Definition set_commandBuffer (v : AppendBuffer) (e : Engine) : Engine :=
  mkEngine (m_defaultTermType e) (textCodec e) (debug e) (myOptionState e) (hisOptionState e)
    (announcedState e) (heAnnouncedState e) (termType e) (state e) v
    (subnegBuffer e) (sentBytes e) (recvdGA e) (inflateTelnet e) (recvdCompress e)
    (stream e) (gmcp e) (current e).

Definition set_subnegBuffer (v : AppendBuffer) (e : Engine) : Engine :=
  mkEngine (m_defaultTermType e) (textCodec e) (debug e) (myOptionState e) (hisOptionState e)
    (announcedState e) (heAnnouncedState e) (termType e) (state e) (commandBuffer e)
    v (sentBytes e) (recvdGA e) (inflateTelnet e) (recvdCompress e)
    (stream e) (gmcp e) (current e).

Definition set_sentBytes (v : Z) (e : Engine) : Engine :=
  mkEngine (m_defaultTermType e) (textCodec e) (debug e) (myOptionState e) (hisOptionState e)
    (announcedState e) (heAnnouncedState e) (termType e) (state e) (commandBuffer e)
    (subnegBuffer e) v (recvdGA e) (inflateTelnet e) (recvdCompress e)
    (stream e) (gmcp e) (current e).

Definition set_recvdGA (v : bool) (e : Engine) : Engine :=
  mkEngine (m_defaultTermType e) (textCodec e) (debug e) (myOptionState e) (hisOptionState e)
    (announcedState e) (heAnnouncedState e) (termType e) (state e) (commandBuffer e)
    (subnegBuffer e) (sentBytes e) v (inflateTelnet e) (recvdCompress e)
    (stream e) (gmcp e) (current e).

Definition set_inflateTelnet (v : bool) (e : Engine) : Engine :=
  mkEngine (m_defaultTermType e) (textCodec e) (debug e) (myOptionState e) (hisOptionState e)
    (announcedState e) (heAnnouncedState e) (termType e) (state e) (commandBuffer e)
    (subnegBuffer e) (sentBytes e) (recvdGA e) v (recvdCompress e)
    (stream e) (gmcp e) (current e).

Definition set_recvdCompress (v : bool) (e : Engine) : Engine :=
  mkEngine (m_defaultTermType e) (textCodec e) (debug e) (myOptionState e) (hisOptionState e)
    (announcedState e) (heAnnouncedState e) (termType e) (state e) (commandBuffer e)
    (subnegBuffer e) (sentBytes e) (recvdGA e) (inflateTelnet e) v
    (stream e) (gmcp e) (current e).

Definition set_stream (v : z_stream C) (e : Engine) : Engine :=
  mkEngine (m_defaultTermType e) (textCodec e) (debug e) (myOptionState e) (hisOptionState e)
    (announcedState e) (heAnnouncedState e) (termType e) (state e) (commandBuffer e)
    (subnegBuffer e) (sentBytes e) (recvdGA e) (inflateTelnet e) (recvdCompress e)
    v (gmcp e) (current e).

Definition set_gmcp (v : GmcpData) (e : Engine) : Engine :=
  mkEngine (m_defaultTermType e) (textCodec e) (debug e) (myOptionState e) (hisOptionState e)
    (announcedState e) (heAnnouncedState e) (termType e) (state e) (commandBuffer e)
    (subnegBuffer e) (sentBytes e) (recvdGA e) (inflateTelnet e) (recvdCompress e)
    (stream e) v (current e).

(** ** The monad of member functions *)

Definition M (A : Type) : Type := Engine -> Status A * Engine * list Event.

Definition ret {A} (a : A) : M A := fun e => (Ret a, e, []).

Definition bind {A B} (m : M A) (k : A -> M B) : M B :=
  fun e =>
    match m e with
    | (Ret a, e1, log1) =>
        match k a e1 with
        | (s, e2, log2) => (s, e2, log1 ++ log2)
        end
    | (Throw what, e1, log1) => (Throw what, e1, log1)
    | (Abort, e1, log1) => (Abort, e1, log1)
    | (Unfinished, e1, log1) => (Unfinished, e1, log1)
    end.

Definition get : M Engine := fun e => (Ret e, e, []).
Definition modify (f : Engine -> Engine) : M unit := fun e => (Ret tt, f e, []).
Definition emit (ev : Event) : M unit := fun e => (Ret tt, e, [ev]).
Definition throw {A} (what : string) : M A := fun e => (Throw what, e, []).
Definition abort {A} : M A := fun e => (Abort, e, []).

Notation "x <- m ;; k" := (bind m (fun x => k))
  (at level 61, m at next level, right associativity).
Notation "m ;; k" := (bind m (fun _ => k))
  (at level 61, right associativity).
Local Open Scope byte_scope.

(** ** TelnetFormatter

    [struct TelnetFormatter : AppendBuffer]; each member appends to the
    buffer, here the first argument. *)

Definition containsIAC (arr : QByteArray) : bool :=
  existsb (fun c => c =? TN_IAC) arr.

Definition addRaw (s : AppendBuffer) (b : byte) : AppendBuffer := s ++ [b].

Definition addEscaped (s : AppendBuffer) (b : byte) : AppendBuffer :=
  let s := addRaw s b in
  if b =? TN_IAC then addRaw s b else s.

(** [n] is a [uint16_t]; network order is big-endian. *)
Definition addTwoByteEscaped (s : AppendBuffer) (n : Z) : AppendBuffer :=
  let s := addEscaped s (to_uint8 (Z.shiftr n 8)) in
  addEscaped s (to_uint8 n).

(** [std::clamp(n, lo, hi)] *)
Definition clamp (n lo hi : Z) : Z :=
  if (n <? lo)%Z then lo else if (hi <? n)%Z then hi else n.

Definition addClampedTwoByteEscaped (s : AppendBuffer) (n : Z) : AppendBuffer :=
  addTwoByteEscaped s (clamp n 0 65535).

Definition addEscapedBytes (s : AppendBuffer) (bytes : QByteArray) : AppendBuffer :=
  fold_left addEscaped bytes s.

Definition addCommand (s : AppendBuffer) (cmd : byte) : AppendBuffer :=
  addRaw (addRaw s TN_IAC) cmd.

Definition addSubnegBegin (s : AppendBuffer) (opt : byte) : AppendBuffer :=
  addRaw (addCommand s TN_SB) opt.

Definition addSubnegEnd (s : AppendBuffer) : AppendBuffer := addCommand s TN_SE.

(** ** Hooks as computations *)

(** Modelled from the spec: [sendRawData] is pure virtual in
    [AbstractTelnet]; the spec's connection state has "a sent-bytes counter"
    and the write goes to the raw transport, so the hook is taken to count
    the bytes in [sentBytes] and hand them to the transport. *)
Definition sendRawData (data : QByteArray) : M unit :=
  modify (fun e => set_sentBytes (sentBytes e + Z.of_nat (List.length data)) e) ;;
  emit (SendRawData data).

Definition sendToMapper (data : QByteArray) (goAhead : bool) : M unit :=
  emit (SendToMapper data goAhead).

Definition receiveEchoMode (toggle : bool) : M unit := emit (ReceiveEchoMode toggle).
Definition receiveTerminalType (data : QByteArray) : M unit := emit (ReceiveTerminalType data).
Definition receiveWindowSize (x y : Z) : M unit := emit (ReceiveWindowSize x y).
Definition receiveGmcpMessage (msg : GmcpMessage C) : M unit := emit (ReceiveGmcpMessage msg).
Definition onGmcpEnabled : M unit := emit OnGmcpEnabled.

(** ** Reset *)

Definition resetGmcpModules : M unit :=
  modify (set_gmcp (mkGmcpData (fun _ => DEFAULT_GMCP_MODULE_VERSION) [])).

Definition resetCompress : M unit :=
  modify (set_inflateTelnet false) ;;
  modify (set_recvdCompress false) ;;
  modify (fun e => set_hisOptionState (assign (hisOptionState e) OPT_COMPRESS2 false) e).

Definition reset : M unit :=
  modify (set_myOptionState all_false) ;;
  modify (set_hisOptionState all_false) ;;
  modify (set_announcedState all_false) ;;
  modify (set_heAnnouncedState all_false) ;;
  modify (fun e => set_termType (m_defaultTermType e) e) ;;
  modify (set_state NORMAL) ;;
  modify (set_commandBuffer []) ;;
  resetGmcpModules ;;
  modify (set_subnegBuffer []) ;;
  modify (set_sentBytes 0) ;;
  modify (set_recvdGA false) ;;
  resetCompress.

(** ** GMCP module bookkeeping *)

Definition supported_assign (t : GmcpModuleTypeEnum C -> GmcpModuleVersion)
    (k : GmcpModuleTypeEnum C) (v : GmcpModuleVersion) :=
  fun x => if GmcpModuleTypeEnum_eqb C x k then v else t x.

(** [gmcp.supported[module.getType()] = v], guarded by [isSupported]. *)
Definition set_supported (m : GmcpModule (GmcpModuleTypeEnum C))
    (v : GmcpModuleVersion) : M unit :=
  match moduleType m with
  | Some ty =>
      modify (fun e => set_gmcp (mkGmcpData (supported_assign (supported (gmcp e)) ty v)
                                             (modules (gmcp e))) e)
  | None => ret tt
  end.

Definition receiveGmcpModule (module : GmcpModule (GmcpModuleTypeEnum C))
    (enabled : bool) : M unit :=
  if enabled then
    if negb (hasVersion module) then throw "missing version"%string
    else
      modify (fun e => set_gmcp (mkGmcpData (supported (gmcp e))
                                             (modules_insert module (modules (gmcp e)))) e) ;;
      if isSupported module then set_supported module (getVersion module) else ret tt
  else
    modify (fun e => set_gmcp (mkGmcpData (supported (gmcp e))
                                           (modules_erase module (modules (gmcp e)))) e) ;;
    if isSupported module then set_supported module DEFAULT_GMCP_MODULE_VERSION else ret tt.

Definition isGmcpModuleEnabled (name : GmcpModuleTypeEnum C) (e : Engine) : bool :=
  if negb (myOptionState e OPT_GMCP) then false
  else negb (N.eqb (supported (gmcp e) name) DEFAULT_GMCP_MODULE_VERSION).

(** ** Outbound framer *)

Definition submitOverTelnet (data : QByteArray) (goAhead : bool) : M unit :=
  let outdata := data in
  (* IAC byte must be doubled *)
  let outdata := if containsIAC outdata then addEscapedBytes [] outdata else outdata in
  (* Add IAC GA unless they are suppressed *)
  e <- get ;;
  let outdata :=
    if goAhead && negb (hisOptionState e OPT_SUPPRESS_GA)
    then (outdata ++ [TN_IAC]) ++ [TN_GA] else outdata in
  sendRawData outdata.

Definition sendWindowSizeChanged (x y : Z) : M unit :=
  let s := addSubnegBegin [] OPT_NAWS in
  let s := addClampedTwoByteEscaped s x in
  let s := addClampedTwoByteEscaped s y in
  let s := addSubnegEnd s in
  sendRawData s.

Definition sendTelnetOption (type option : byte) : M unit :=
  sendRawData [TN_IAC; type; option].

Definition requestTelnetOption (type option : byte) : M unit :=
  modify (fun e => set_myOptionState (assign (myOptionState e) option true) e) ;;
  modify (fun e => set_announcedState (assign (announcedState e) option true) e) ;;
  sendTelnetOption type option.

Definition delimeter : QByteArray := bytes_of_string ";".

Definition sendCharsetRequest (myCharacterSets : list QByteArray) : M unit :=
  let s := addSubnegBegin [] OPT_CHARSET in
  let s := addRaw s TNSB_REQUEST in
  let s := fold_left (fun s characterSet =>
                        addEscapedBytes (addEscapedBytes s delimeter) characterSet)
                     myCharacterSets s in
  let s := addSubnegEnd s in
  sendRawData s.

Definition sendGmcpMessage (msg : GmcpMessage C) : M unit :=
  let payload := GmcpMessage_toRawBytes C msg in
  let s := addSubnegBegin [] OPT_GMCP in
  let s := addEscapedBytes s payload in
  let s := addSubnegEnd s in
  sendRawData s.

Definition sendTerminalType (terminalType : QByteArray) : M unit :=
  let s := addSubnegBegin [] OPT_TERMINAL_TYPE in
  let s := addEscaped s TNSB_IS in
  let s := addEscapedBytes s terminalType in
  let s := addSubnegEnd s in
  sendRawData s.

Definition sendCharsetRejected : M unit :=
  let s := addSubnegBegin [] OPT_CHARSET in
  let s := addRaw s TNSB_REJECTED in
  let s := addSubnegEnd s in
  sendRawData s.

Definition sendCharsetAccepted (characterSet : QByteArray) : M unit :=
  let s := addSubnegBegin [] OPT_CHARSET in
  let s := addRaw s TNSB_ACCEPTED in
  let s := addEscapedBytes s characterSet in
  let s := addSubnegEnd s in
  sendRawData s.

(** [NUM_OPTS]: the option tables have one entry per [unsigned char]. *)
Definition NUM_OPTS : nat := 256.

(** The body of the [for] loop of [sendOptionStatus] at index [i]. *)
Definition statusEntry (e : Engine) (s : AppendBuffer) (i : nat) : AppendBuffer :=
  let o := to_uint8 (Z.of_nat i) in
  let s := if myOptionState e o then (s ++ [TN_WILL]) ++ [o] else s in
  if hisOptionState e o then (s ++ [TN_DO]) ++ [o] else s.

Definition sendOptionStatus : M unit :=
  e <- get ;;
  let s := [TN_IAC; TN_SB; OPT_STATUS; TNSB_IS] in
  let s := fold_left (statusEntry e) (seq 0 NUM_OPTS) s in
  let s := (s ++ [TN_IAC]) ++ [TN_SE] in
  sendRawData s.

Definition sendAreYouThere : M unit :=
  sendRawData (bytes_of_string "I'm here! Please be more patient!" ++ [x0d; x0a]).

Definition sendTerminalTypeRequest : M unit :=
  let s := addSubnegBegin [] OPT_TERMINAL_TYPE in
  let s := addEscaped s TNSB_SEND in
  let s := addSubnegEnd s in
  sendRawData s.

(** ** Option negotiator *)

(** The options accepted on [WILL] (the condition of the [if] at
    "these options are supported"). *)
Definition willSupported (option : byte) : bool :=
  (option =? OPT_SUPPRESS_GA) || (option =? OPT_STATUS)
  || (option =? OPT_TERMINAL_TYPE) || (option =? OPT_NAWS)
  || (option =? OPT_ECHO) || (option =? OPT_CHARSET)
  || ((option =? OPT_COMPRESS2) && negb (NO_ZLIB C)) || (option =? OPT_GMCP).

(** The options accepted on [DO]. *)
Definition doSupported (option : byte) : bool :=
  (option =? OPT_SUPPRESS_GA) || (option =? OPT_STATUS)
  || (option =? OPT_TERMINAL_TYPE) || (option =? OPT_NAWS) || (option =? OPT_ECHO)
  || (option =? OPT_CHARSET) || (option =? OPT_GMCP).

Definition processWILL (option : byte) : M unit :=
  modify (fun e => set_heAnnouncedState (assign (heAnnouncedState e) option true) e) ;;
  e <- get ;;
  if negb (hisOptionState e option) then
    if negb (myOptionState e option) then
      if willSupported option then
        sendTelnetOption TN_DO option ;;
        modify (fun e => set_hisOptionState (assign (hisOptionState e) option true) e) ;;
        if option =? OPT_ECHO then receiveEchoMode false else ret tt
      else
        sendTelnetOption TN_DONT option ;;
        modify (fun e => set_hisOptionState (assign (hisOptionState e) option false) e)
    else if myOptionState e option && (option =? OPT_TERMINAL_TYPE) then
      sendTerminalTypeRequest
    else ret tt
  else ret tt.

Definition processWONT (option : byte) : M unit :=
  e <- get ;;
  (if negb (myOptionState e option) then
     if hisOptionState e option || negb (heAnnouncedState e option) then
       sendTelnetOption TN_DONT option ;;
       modify (fun e => set_hisOptionState (assign (hisOptionState e) option false) e) ;;
       if option =? OPT_ECHO then receiveEchoMode true else ret tt
     else ret tt
   else ret tt) ;;
  modify (fun e => set_heAnnouncedState (assign (heAnnouncedState e) option true) e).

Definition processDO (option : byte) : M unit :=
  e <- get ;;
  (if option =? OPT_TIMING_MARK then
     sendTelnetOption TN_WILL option
   else if negb (myOptionState e option) then
     if doSupported option then
       sendTelnetOption TN_WILL option ;;
       modify (fun e => set_myOptionState (assign (myOptionState e) option true) e) ;;
       modify (fun e => set_announcedState (assign (announcedState e) option true) e)
     else
       sendTelnetOption TN_WONT option ;;
       modify (fun e => set_myOptionState (assign (myOptionState e) option false) e) ;;
       modify (fun e => set_announcedState (assign (announcedState e) option true) e)
   else ret tt) ;;
  e <- get ;;
  if myOptionState e OPT_NAWS && (option =? OPT_NAWS) then
    sendWindowSizeChanged (ws_x (current e)) (ws_y (current e))
  else if myOptionState e OPT_CHARSET && (option =? OPT_CHARSET) then
    sendCharsetRequest (supportedEncodings C (textCodec e))
  else if myOptionState e OPT_COMPRESS2 && (option =? OPT_COMPRESS2) && negb (NO_ZLIB C) then
    ret tt
  else if myOptionState e OPT_GMCP && (option =? OPT_GMCP) then
    onGmcpEnabled
  else ret tt.

Definition processDONT (option : byte) : M unit :=
  e <- get ;;
  (if myOptionState e option || negb (announcedState e option) then
     sendTelnetOption TN_WONT option ;;
     modify (fun e => set_announcedState (assign (announcedState e) option true) e)
   else ret tt) ;;
  modify (fun e => set_myOptionState (assign (myOptionState e) option false) e).

(** [processTelnetCommand]; the four [case]s of the length-3 [switch] are
    [processWILL], [processWONT], [processDO] and [processDONT] above. *)
Definition processTelnetCommand (command : AppendBuffer) : M unit :=
  emit (ProcessTelnetCommand command) ;;
  (* assert(!command.isEmpty()) *)
  if Nat.eqb (List.length command) 0 then abort else
  let ch := unsigned_at command 1 in
  match List.length command with
  | 1 => ret tt
  | 2 =>
      if ch =? TN_AYT then sendAreYouThere
      else if ch =? TN_GA then modify (set_recvdGA true)
      else ret tt
  | 3 =>
      if ch =? TN_WILL then processWILL (unsigned_at command 2)
      else if ch =? TN_WONT then processWONT (unsigned_at command 2)
      else if ch =? TN_DO then processDO (unsigned_at command 2)
      else if ch =? TN_DONT then processDONT (unsigned_at command 2)
      else ret tt
  | _ => ret tt
  end.

(** ** Option handlers *)

Definition subnegCHARSET (payload : AppendBuffer) : M unit :=
  e <- get ;;
  if myOptionState e OPT_CHARSET then
    let verb := unsigned_at payload 1 in
    if verb =? TNSB_REQUEST then
      (* MMapper does not support [TTABLE] *)
      if Nat.leb 4 (List.length payload) && negb (unsigned_at payload 2 =? "[") then
        let sep := unsigned_at payload 2 in
        let characterSets := split sep (mid payload 3) in
        (* the first supported character set is accepted and ends the loop *)
        match find (supports C (textCodec e)) characterSets with
        | Some characterSet =>
            modify (fun e => set_textCodec
                               (setEncodingForName C (textCodec e) characterSet) e) ;;
            sendCharsetAccepted characterSet
        | None => sendCharsetRejected
        end
      else sendCharsetRejected
    else if verb =? TNSB_ACCEPTED then
      if Nat.ltb 3 (List.length payload) then
        modify (fun e => set_textCodec
                           (setEncodingForName C (textCodec e) (mid payload 2)) e)
      else ret tt
    else if verb =? TNSB_REJECTED then ret tt
    else if verb =? TNSB_TTABLE_IS then abort
    else ret tt
  else ret tt.

Definition subnegCOMPRESS2 : M unit :=
  (* assert(!NO_ZLIB) *)
  if NO_ZLIB C then abort else
  e <- get ;;
  if hisOptionState e OPT_COMPRESS2 then
    if debug e && inflateTelnet e then ret tt (* "Compression was already enabled" *)
    else modify (set_recvdCompress true)
  else ret tt.

Definition subnegGMCP (payload : AppendBuffer) : M unit :=
  e <- get ;;
  if myOptionState e OPT_GMCP then
    if Nat.leb (List.length payload) 1 then ret tt (* "Invalid GMCP received" *)
    else
      match GmcpMessage_fromRawBytes C (mid payload 1) with
      | Some msg => receiveGmcpMessage msg
      | None => ret tt (* "Corrupted GMCP received" *)
      end
  else ret tt.

Definition subnegNAWS (payload : AppendBuffer) : M unit :=
  e <- get ;;
  if myOptionState e OPT_NAWS then
    if Nat.eqb (List.length payload) 5 then
      let x1 := Z.of_N (Byte.to_N (unsigned_at payload 1)) in
      let x2 := Z.of_N (Byte.to_N (unsigned_at payload 2)) in
      let y1 := Z.of_N (Byte.to_N (unsigned_at payload 3)) in
      let y2 := Z.of_N (Byte.to_N (unsigned_at payload 4)) in
      let x := ((Z.shiftl x1 8 + x2) mod 65536)%Z in
      let y := ((Z.shiftl y1 8 + y2) mod 65536)%Z in
      receiveWindowSize x y
    else ret tt (* "Corrupted NAWS received" *)
  else ret tt.

(** [processTelnetSubnegotiation]; the [case]s of the [switch] on the option
    byte that have more than a few lines are the [subneg...] functions
    above. *)
Definition processTelnetSubnegotiation (payload : AppendBuffer) : M unit :=
  emit (ProcessTelnetSubnegotiation payload) ;;
  let option := unsigned_at payload 0 in
  if option =? OPT_STATUS then
    if unsigned_at payload 1 =? TNSB_SEND then sendOptionStatus else ret tt
  else if option =? OPT_TERMINAL_TYPE then
    e <- get ;;
    if myOptionState e OPT_TERMINAL_TYPE then
      if unsigned_at payload 1 =? TNSB_SEND then sendTerminalType (termType e)
      else if unsigned_at payload 1 =? TNSB_IS then receiveTerminalType (mid payload 2)
      else ret tt
    else ret tt
  else if option =? OPT_CHARSET then subnegCHARSET payload
  else if option =? OPT_COMPRESS2 then subnegCOMPRESS2
  else if option =? OPT_GMCP then subnegGMCP payload
  else if option =? OPT_NAWS then subnegNAWS payload
  else ret tt.

(** ** Byte state machine *)

Definition isNegotiation (c : byte) : bool :=
  (c =? TN_WILL) || (c =? TN_WONT) || (c =? TN_DO) || (c =? TN_DONT).

(** [commandBuffer.append(c)], [commandBuffer.clear()], ... *)
Definition commandBuffer_append (c : byte) : M unit :=
  modify (fun e => set_commandBuffer (commandBuffer e ++ [c]) e).
Definition commandBuffer_clear : M unit := modify (set_commandBuffer []).
Definition subnegBuffer_append (c : byte) : M unit :=
  modify (fun e => set_subnegBuffer (subnegBuffer e ++ [c]) e).
Definition subnegBuffer_clear : M unit := modify (set_subnegBuffer []).
Definition set_state_to (s : TelnetStateEnum) : M unit := modify (set_state s).

(** [onReadInternal2(cleanData, c)]: [cleanData] is passed by reference; the
    updated buffer is the result. *)
Definition onReadInternal2 (cleanData : AppendBuffer) (c : byte) : M AppendBuffer :=
  e <- get ;;
  match state e with
  | NORMAL =>
      if c =? TN_IAC then
        set_state_to IAC ;; commandBuffer_append c ;; ret cleanData
      else ret (cleanData ++ [c])
  | IAC =>
      if c =? TN_IAC then
        set_state_to NORMAL ;; commandBuffer_clear ;; ret (cleanData ++ [c])
      else if isNegotiation c then
        set_state_to COMMAND ;; commandBuffer_append c ;; ret cleanData
      else if c =? TN_SB then
        set_state_to SUBNEG ;; commandBuffer_clear ;; ret cleanData
      else if c =? TN_SE then
        set_state_to NORMAL ;; commandBuffer_clear ;; ret cleanData
      else
        set_state_to NORMAL ;; commandBuffer_append c ;;
        e <- get ;; processTelnetCommand (commandBuffer e) ;;
        commandBuffer_clear ;; ret cleanData
  | COMMAND =>
      set_state_to NORMAL ;; commandBuffer_append c ;;
      e <- get ;; processTelnetCommand (commandBuffer e) ;;
      commandBuffer_clear ;; ret cleanData
  | SUBNEG =>
      if c =? TN_IAC then
        set_state_to SUBNEG_IAC ;; commandBuffer_append c ;; ret cleanData
      else subnegBuffer_append c ;; ret cleanData
  | SUBNEG_IAC =>
      if c =? TN_IAC then
        set_state_to SUBNEG ;; subnegBuffer_append c ;; commandBuffer_clear ;; ret cleanData
      else if isNegotiation c then
        set_state_to SUBNEG_COMMAND ;; commandBuffer_append c ;; ret cleanData
      else if c =? TN_SE then
        set_state_to NORMAL ;;
        e <- get ;; processTelnetSubnegotiation (subnegBuffer e) ;;
        commandBuffer_clear ;; subnegBuffer_clear ;; ret cleanData
      else if c =? TN_SB then
        set_state_to NORMAL ;; commandBuffer_clear ;; subnegBuffer_clear ;; ret cleanData
      else
        set_state_to SUBNEG ;; commandBuffer_append c ;;
        e <- get ;; processTelnetCommand (commandBuffer e) ;;
        commandBuffer_clear ;; ret cleanData
  | SUBNEG_COMMAND =>
      set_state_to SUBNEG ;; commandBuffer_append c ;;
      e <- get ;; processTelnetCommand (commandBuffer e) ;;
      commandBuffer_clear ;; ret cleanData
  end.

(** ** Reader and decompression shim

    The reader owns a local buffer [cleanData]. A computation of the reader
    is a function of that buffer and the engine to an [Exit]: how control
    left, the engine, the hooks called, and the local buffer at that point
    (which C++ destroys when an exception unwinds the reader). *)

Definition Exit (A : Type) : Type := (Status A * Engine * list Event * AppendBuffer)%type.

(** Run [m], then [k] on its result when it returned. *)
Definition andThen {A B} (m : Exit A) (k : A -> AppendBuffer -> Engine -> Exit B) : Exit B :=
  match m with
  | (Ret a, e, log, cleanData) =>
      match k a cleanData e with
      | (s, e', log', cleanData') => (s, e', log ++ log', cleanData')
      end
  | (Throw what, e, log, cleanData) => (Throw what, e, log, cleanData)
  | (Abort, e, log, cleanData) => (Abort, e, log, cleanData)
  | (Unfinished, e, log, cleanData) => (Unfinished, e, log, cleanData)
  end.

(** A member function that may replace the reader's buffer. *)
Definition withBuffer (m : AppendBuffer -> M AppendBuffer)
    (cleanData : AppendBuffer) (e : Engine) : Exit unit :=
  match m cleanData e with
  | (Ret cleanData', e', log) => (Ret tt, e', log, cleanData')
  | (Throw what, e', log) => (Throw what, e', log, cleanData)
  | (Abort, e', log) => (Abort, e', log, cleanData)
  | (Unfinished, e', log) => (Unfinished, e', log, cleanData)
  end.

(** A member function that leaves the reader's buffer alone. *)
Definition keepBuffer {A} (m : M A) (cleanData : AppendBuffer) (e : Engine) : Exit A :=
  match m e with
  | (s, e', log) => (s, e', log, cleanData)
  end.

(** The block
    [if (recvdGA) { sendToMapper(cleanData, recvdGA); cleanData.clear(); recvdGA = false; }]
    that follows every byte. With [detectGA = true] this is the source. With
    [detectGA = false] it is the reference reader of the spec's "GA flush
    ordering" property, in which a received go-ahead is discarded: the flag
    is reset, nothing is flushed. *)
Definition flushOnGA (detectGA : bool) (cleanData : AppendBuffer) : M AppendBuffer :=
  e <- get ;;
  if recvdGA e then
    if detectGA then
      sendToMapper cleanData (recvdGA e) ;;
      modify (set_recvdGA false) ;;
      ret []
    else
      modify (set_recvdGA false) ;;
      ret cleanData
  else ret cleanData.

Definition initCompress : M unit :=
  if NO_ZLIB C then abort else
  modify (set_inflateTelnet true) ;;
  e <- get ;;
  let '(r, strm) := inflateInit C (stream e) in
  modify (set_stream strm) ;;
  if negb (Z.eqb r Z_OK) then throw "Unable to initialize zlib"%string
  else ret tt.

(** The [for] loop over the inflated chunk [out[0 .. outLen)]. *)
Fixpoint feedInflated (detectGA : bool) (out : list byte)
    (cleanData : AppendBuffer) (e : Engine) : Exit unit :=
  match out with
  | [] => (Ret tt, e, [], cleanData)
  | c :: out' =>
      andThen (withBuffer (fun cd => onReadInternal2 cd c) cleanData e) (fun _ cd e =>
      andThen (withBuffer (flushOnGA detectGA) cd e) (fun _ cd e =>
      feedInflated detectGA out' cd e))
  end.

Definition Z_STREAM_ERROR : Z := -2.

Definition endsInflate (r : Z) : bool :=
  Z.eqb r Z_NEED_DICT || Z.eqb r Z_DATA_ERROR || Z.eqb r Z_MEM_ERROR || Z.eqb r Z_STREAM_END.

(** [onReadInternalInflate(data, length, cleanData)] in a build with zlib:
    [input] is [data[0 .. length)], the result is [stream.avail_in]. Each
    unit of [fuel] is one round of the [do ... while (stream.avail_out == 0)]
    loop. *)
Fixpoint inflateRounds (detectGA : bool) (fuel : nat) (input : list byte)
    (cleanData : AppendBuffer) (e : Engine) : Exit nat :=
  match fuel with
  | O => (Unfinished, e, [], cleanData)
  | S fuel' =>
      let r := inflate C (stream e) input in
      let e := set_stream (is_stream r) e in
      (* assert(ret != Z_STREAM_ERROR) *)
      if Z.eqb (is_ret r) Z_STREAM_ERROR then (Abort, e, [], cleanData)
      else if endsInflate (is_ret r) then
        (* inflateEnd(&stream); resetCompress(); throw std::runtime_error(stream.msg); *)
        let e := set_stream (inflateEnd C (stream e)) e in
        andThen (keepBuffer resetCompress cleanData e) (fun _ cd e =>
        (Throw (is_msg r), e, [], cd))
      else
        let avail_out := CHUNK - List.length (is_out r) in
        let outLen := CHUNK - avail_out in
        let input' := skipn (is_consumed r) input in
        andThen (feedInflated detectGA (firstn outLen (is_out r)) cleanData e) (fun _ cd e =>
        if Nat.eqb avail_out 0 then inflateRounds detectGA fuel' input' cd e
        else (Ret (List.length input'), e, [], cd))
  end.

Definition onReadInternalInflate (detectGA : bool) (fuel : nat) (input : list byte)
    (cleanData : AppendBuffer) (e : Engine) : Exit nat :=
  if NO_ZLIB C then (Abort, e, [], cleanData)
  else inflateRounds detectGA fuel input cleanData e.

(** The [while (pos < data.size())] loop of [onReadInternal]; [data] is the
    input from [pos] on, and each unit of [fuel] is one iteration. *)
Fixpoint readLoop (detectGA : bool) (fuel : nat) (data : QByteArray)
    (cleanData : AppendBuffer) (e : Engine) : Exit unit :=
  match data with
  | [] => (Ret tt, e, [], cleanData)
  | c :: data' =>
      match fuel with
      | O => (Unfinished, e, [], cleanData)
      | S fuel' =>
          if inflateTelnet e then
            andThen (onReadInternalInflate detectGA fuel' data cleanData e)
              (fun remaining cd e =>
                 (* pos = data.length() - remaining; continue; *)
                 readLoop detectGA fuel' (skipn (List.length data - remaining) data) cd e)
          else
            andThen (withBuffer (fun cd => onReadInternal2 cd c) cleanData e) (fun _ cd e =>
            if recvdCompress e then
              andThen (keepBuffer (initCompress ;; modify (set_recvdCompress false)) cd e)
                (fun _ cd e => readLoop detectGA fuel' data' cd e)
            else
              andThen (withBuffer (flushOnGA detectGA) cd e) (fun _ cd e =>
              readLoop detectGA fuel' data' cd e))
      end
  end.

(** [onReadInternal(data)], with the flush of what is left at the end. *)
Definition onReadWith (detectGA : bool) (fuel : nat) (data : QByteArray) : M unit :=
  fun e =>
    match data with
    | [] => (Ret tt, e, [])
    | _ =>
        match readLoop detectGA fuel data [] e with
        | (Ret _, e', log, cleanData) =>
            if negb (Nat.eqb (List.length cleanData) 0)
            then (Ret tt, e', log ++ [SendToMapper cleanData (recvdGA e')])
            else (Ret tt, e', log)
        | (s, e', log, _) => (s, e', log)
        end
    end.

Definition onReadInternal (fuel : nat) (data : QByteArray) : M unit :=
  onReadWith true fuel data.

End Telnet.

Arguments SendRawData {C}.
Arguments SendToMapper {C}.
Arguments ReceiveEchoMode {C}.
Arguments ReceiveTerminalType {C}.
Arguments ReceiveWindowSize {C}.
Arguments ReceiveGmcpMessage {C}.
Arguments OnGmcpEnabled {C}.
Arguments ProcessTelnetCommand {C}.
Arguments ProcessTelnetSubnegotiation {C}.
Arguments mkGmcpData {C}.
Arguments supported {C}.
Arguments modules {C}.
Arguments mkEngine {C}.
Arguments m_defaultTermType {C}.
Arguments textCodec {C}.
Arguments debug {C}.
Arguments myOptionState {C}.
Arguments hisOptionState {C}.
Arguments announcedState {C}.
Arguments heAnnouncedState {C}.
Arguments termType {C}.
Arguments state {C}.
Arguments commandBuffer {C}.
Arguments subnegBuffer {C}.
Arguments sentBytes {C}.
Arguments recvdGA {C}.
Arguments inflateTelnet {C}.
Arguments recvdCompress {C}.
Arguments stream {C}.
Arguments gmcp {C}.
Arguments current {C}.
Arguments set_textCodec {C}.
Arguments set_myOptionState {C}.
Arguments set_hisOptionState {C}.
Arguments set_announcedState {C}.
Arguments set_heAnnouncedState {C}.
Arguments set_termType {C}.
Arguments set_state {C}.
Arguments set_commandBuffer {C}.
Arguments set_subnegBuffer {C}.
Arguments set_sentBytes {C}.
Arguments set_recvdGA {C}.
Arguments set_inflateTelnet {C}.
Arguments set_recvdCompress {C}.
Arguments set_stream {C}.
Arguments set_gmcp {C}.
Arguments ret {C A}.
Arguments bind {C A B}.
Arguments get {C}.
Arguments modify {C}.
Arguments emit {C}.
Arguments throw {C A}.
Arguments abort {C A}.
Arguments sendRawData {C}.
Arguments sendToMapper {C}.
Arguments receiveEchoMode {C}.
Arguments receiveTerminalType {C}.
Arguments receiveWindowSize {C}.
Arguments receiveGmcpMessage {C}.
Arguments onGmcpEnabled {C}.
Arguments resetGmcpModules {C}.
Arguments resetCompress {C}.
Arguments reset {C}.
Arguments receiveGmcpModule {C}.
Arguments isGmcpModuleEnabled {C}.
Arguments submitOverTelnet {C}.
Arguments sendWindowSizeChanged {C}.
Arguments sendTelnetOption {C}.
Arguments requestTelnetOption {C}.
Arguments sendCharsetRequest {C}.
Arguments sendGmcpMessage {C}.
Arguments sendTerminalType {C}.
Arguments sendCharsetRejected {C}.
Arguments sendCharsetAccepted {C}.
Arguments statusEntry {C}.
Arguments sendOptionStatus {C}.
Arguments sendAreYouThere {C}.
Arguments sendTerminalTypeRequest {C}.
Arguments processWILL {C}.
Arguments processWONT {C}.
Arguments processDO {C}.
Arguments processDONT {C}.
Arguments processTelnetCommand {C}.
Arguments subnegCHARSET {C}.
Arguments subnegCOMPRESS2 {C}.
Arguments subnegGMCP {C}.
Arguments subnegNAWS {C}.
Arguments processTelnetSubnegotiation {C}.
Arguments onReadInternal2 {C}.
Arguments andThen {C A B}.
Arguments withBuffer {C}.
Arguments keepBuffer {C A}.
Arguments flushOnGA {C}.
Arguments initCompress {C}.
Arguments feedInflated {C}.
Arguments inflateRounds {C}.
Arguments onReadInternalInflate {C}.
Arguments readLoop {C}.
Arguments onReadWith {C}.
Arguments onReadInternal {C}.

(** ** A concrete set of collaborators

    Used to run the engine on concrete inputs. The stand-in for zlib passes
    its input through unchanged in chunks of at most [CHUNK] bytes (the
    stream state is the output still pending); an input whose first byte is
    0 is reported as corrupt and one whose first byte is 1 as the end of the
    compressed stream. *)
Module Mock.

Definition pass_through (pending input : list byte) : InflateStep (list byte) :=
  match input with
  | x00 :: _ => mkInflateStep Z_DATA_ERROR [] 0 pending "invalid block type"
  | x01 :: _ => mkInflateStep Z_STREAM_END [] 1 pending "stream end"
  | _ =>
      let all := pending ++ input in
      mkInflateStep (if Nat.eqb (List.length all) 0 then Z_BUF_ERROR else Z_OK)
                    (firstn CHUNK all) (List.length input) (skipn CHUNK all) ""
  end.

Definition UTF8 : QByteArray := bytes_of_string "UTF-8".
Definition LATIN1 : QByteArray := bytes_of_string "ISO-8859-1".
Definition ASCII : QByteArray := bytes_of_string "US-ASCII".

Definition bytes_eqb (a b : QByteArray) : bool :=
  if list_eq_dec Byte.byte_eq_dec a b then true else false.

Definition encodings : list QByteArray := [LATIN1; UTF8; ASCII].

Definition collaborators : Collaborators :=
  {| NO_ZLIB := false;
     z_stream := list byte;
     inflateInit := fun _ => (Z_OK, []);
     inflate := pass_through;
     inflateEnd := fun _ => [];
     TextCodec := QByteArray;
     supports := fun _ name => existsb (bytes_eqb name) encodings;
     setEncodingForName := fun tc name =>
       if existsb (bytes_eqb name) encodings then name else tc;
     supportedEncodings := fun _ => encodings;
     GmcpModuleTypeEnum := nat;
     GmcpModuleTypeEnum_eqb := Nat.eqb;
     GmcpMessage := QByteArray;
     GmcpMessage_fromRawBytes := fun b => Some b;
     GmcpMessage_toRawBytes := fun m => m |}.

(** The engine as its constructor leaves it: [reset()] on an object with
    terminal type "unknown", codec on Latin-1, no debugging and an 80x24
    window. *)
Definition constructed : Engine collaborators :=
  snd (fst (reset
    (mkEngine (C := collaborators) (bytes_of_string "unknown") LATIN1 false
       all_false all_false all_false all_false [] NORMAL [] [] 0 false false false
       [] (mkGmcpData (C := collaborators) (fun _ => 0%N) []) (mkWindowSize 80 24)))).

End Mock.

(** ** The specification's side

    Definitions that follow the words of the specification, to be compared
    with the engine above. *)

Local Open Scope byte_scope.

Notation "x <- m ;; k" := (bind m (fun x => k))
  (at level 61, m at next level, right associativity).
Notation "m ;; k" := (bind m (fun _ => k))
  (at level 61, right associativity).

(** Section 4.4: "rewrite every 0xFF as 0xFF 0xFF". *)
Definition escapeIAC (payload : QByteArray) : QByteArray :=
  flat_map (fun b => if b =? TN_IAC then [TN_IAC; TN_IAC] else [b]) payload.

(** Section 4.4: "IAC SB <opt> <payload with IAC doubled> IAC SE". *)
Definition framed (opt : byte) (params : QByteArray) : QByteArray :=
  [TN_IAC; TN_SB; opt] ++ escapeIAC params ++ [TN_IAC; TN_SE].

(** *** The transition table of section 4.1 *)

Inductive ByteClass : Type :=
| OnIAC            (* IAC *)
| OnNegotiation    (* WILL / WONT / DO / DONT *)
| OnSB
| OnSE
| OnOther          (* "other": none of the rows above it for the same state *)
| OnAny.           (* "any" *)

Inductive Action : Type :=
| PushCommand              (* push byte to command buffer *)
| ClearCommand             (* clear command buffer *)
| AppendClean              (* append byte to clean buffer *)
| AppendSubneg             (* append byte to subneg buffer *)
| ClearSubneg              (* clear subneg buffer *)
| EmitCommand (len : nat)  (* emit command (length len) *)
| EmitSubneg.              (* emit subnegotiation(subneg buffer) *)

Record Row : Type := mkRow {
  row_from : TelnetStateEnum;
  row_byte : ByteClass;
  row_to : TelnetStateEnum;
  row_actions : list Action
}.

Definition transitionTable : list Row :=
  [ mkRow NORMAL OnIAC IAC [PushCommand];
    mkRow NORMAL OnOther NORMAL [AppendClean];
    mkRow IAC OnIAC NORMAL [AppendClean; ClearCommand];
    mkRow IAC OnNegotiation COMMAND [PushCommand];
    mkRow IAC OnSB SUBNEG [ClearCommand];
    mkRow IAC OnSE NORMAL [ClearCommand];
    mkRow IAC OnOther NORMAL [PushCommand; EmitCommand 2];
    mkRow COMMAND OnAny NORMAL [PushCommand; EmitCommand 3];
    mkRow SUBNEG OnIAC SUBNEG_IAC [PushCommand];
    mkRow SUBNEG OnOther SUBNEG [AppendSubneg];
    mkRow SUBNEG_IAC OnIAC SUBNEG [AppendSubneg; ClearCommand];
    mkRow SUBNEG_IAC OnNegotiation SUBNEG_COMMAND [PushCommand];
    mkRow SUBNEG_IAC OnSE NORMAL [EmitSubneg; ClearCommand; ClearSubneg];
    mkRow SUBNEG_IAC OnSB NORMAL [ClearCommand; ClearSubneg];
    mkRow SUBNEG_IAC OnOther SUBNEG [PushCommand; EmitCommand 2];
    mkRow SUBNEG_COMMAND OnAny SUBNEG [PushCommand; EmitCommand 3] ].

Definition state_eqb (a b : TelnetStateEnum) : bool :=
  match a, b with
  | NORMAL, NORMAL | IAC, IAC | COMMAND, COMMAND
  | SUBNEG, SUBNEG | SUBNEG_IAC, SUBNEG_IAC | SUBNEG_COMMAND, SUBNEG_COMMAND => true
  | _, _ => false
  end.

Definition inClass (k : ByteClass) (c : byte) : bool :=
  match k with
  | OnIAC => c =? TN_IAC
  | OnNegotiation => (c =? TN_WILL) || (c =? TN_WONT) || (c =? TN_DO) || (c =? TN_DONT)
  | OnSB => c =? TN_SB
  | OnSE => c =? TN_SE
  | OnOther => true
  | OnAny => true
  end.

(** The row that applies: the first one, top to bottom, for the state and
    the byte. *)
Definition lookupRow (s : TelnetStateEnum) (c : byte) : option Row :=
  find (fun r => state_eqb (row_from r) s && inClass (row_byte r) c) transitionTable.

(** One action of a row on byte [c]. To emit a command is to hand the
    command buffer to the negotiator, which leaves the buffer empty; the
    length in the table is an annotation. *)
Definition perform {C} (c : byte) (a : Action) (cleanData : AppendBuffer)
  : M C AppendBuffer :=
  match a with
  | PushCommand =>
      modify (fun e => set_commandBuffer (commandBuffer e ++ [c]) e) ;; ret cleanData
  | ClearCommand => modify (set_commandBuffer []) ;; ret cleanData
  | AppendClean => ret (cleanData ++ [c])
  | AppendSubneg =>
      modify (fun e => set_subnegBuffer (subnegBuffer e ++ [c]) e) ;; ret cleanData
  | ClearSubneg => modify (set_subnegBuffer []) ;; ret cleanData
  | EmitCommand _ =>
      e <- get ;; processTelnetCommand (commandBuffer e) ;;
      modify (set_commandBuffer []) ;; ret cleanData
  | EmitSubneg =>
      e <- get ;; processTelnetSubnegotiation (subnegBuffer e) ;; ret cleanData
  end.

Fixpoint performAll {C} (c : byte) (acts : list Action) (cleanData : AppendBuffer)
  : M C AppendBuffer :=
  match acts with
  | [] => ret cleanData
  | a :: acts' => cd <- perform c a cleanData ;; performAll c acts' cd
  end.

(** One step of the table: move to the row's target state and perform its
    actions. *)
Definition tableStep {C} (cleanData : AppendBuffer) (c : byte) : M C AppendBuffer :=
  e <- get ;;
  match lookupRow (state e) c with
  | Some r => modify (set_state (row_to r)) ;; performAll c (row_actions r) cleanData
  | None => ret cleanData
  end.

(** The command buffer a reachable engine holds in each state. *)
Definition bufferShape {C} (e : Engine C) : Prop :=
  match state e with
  | NORMAL | SUBNEG => commandBuffer e = []
  | IAC | SUBNEG_IAC => commandBuffer e = [TN_IAC]
  | COMMAND | SUBNEG_COMMAND =>
      exists verb, isNegotiation verb = true /\ commandBuffer e = [TN_IAC; verb]
  end.

(** The byte state machine on a sequence of bytes, without the reader's
    flushes. *)
Fixpoint runFSM {C} (bytes : list byte) (cleanData : AppendBuffer) : M C AppendBuffer :=
  match bytes with
  | [] => ret cleanData
  | c :: bytes' => cd <- onReadInternal2 cleanData c ;; runFSM bytes' cd
  end.



(** *** The enable side-effects of section 4.2

    "run the enable side-effect for o": for [NAWS] send the current
    [(cols, rows)] as a NAWS subnegotiation, for [CHARSET] send a
    [CHARSET REQUEST] listing the supported encodings, for [GMCP] invoke
    the hook [on_gmcp_enabled()]; the other options have none. *)
Definition enableSideEffect {C} (o : byte) : M C unit :=
  e <- get ;;
  if o =? OPT_NAWS then sendWindowSizeChanged (ws_x (current e)) (ws_y (current e))
  else if o =? OPT_CHARSET then sendCharsetRequest (supportedEncodings C (textCodec e))
  else if o =? OPT_GMCP then onGmcpEnabled
  else ret tt.

(** The reply [IAC WILL o] together with the two table updates. *)
Definition agreeToEnable {C} (o : byte) : M C unit :=
  sendTelnetOption TN_WILL o ;;
  modify (fun e => set_myOptionState (assign (myOptionState e) o true) e) ;;
  modify (fun e => set_announcedState (assign (announcedState e) o true) e).

(** The payloads of the [sendRawData] calls of a log, in order. *)
Fixpoint rawDataOf {C} (log : list (Event C)) : list QByteArray :=
  match log with
  | [] => []
  | SendRawData data :: log' => data :: rawDataOf log'
  | _ :: log' => rawDataOf log'
  end.



(** *** Invariants of member functions *)

(** The engine after a call, however the call ended. *)
Definition engineAfter {C A} (r : Status A * Engine C * list (Event C)) : Engine C :=
  snd (fst r).

Definition logOf {C A} (r : Status A * Engine C * list (Event C)) : list (Event C) :=
  snd r.

Definition statusOf {C A} (r : Status A * Engine C * list (Event C)) : Status A :=
  fst (fst r).

(** [m] keeps [P]: if [P] holds of the engine before the call it holds
    after it. *)
Definition preserves {C A} (P : Engine C -> Prop) (m : M C A) : Prop :=
  forall e, P e -> P (engineAfter (m e)).



(** The engine in an [Exit]. *)
Definition exitEngine {C A} (x : Exit C A) : Engine C := snd (fst (fst x)).
Definition exitStatus {C A} (x : Exit C A) : Status A := fst (fst (fst x)).
Definition exitLog {C A} (x : Exit C A) : list (Event C) := snd (fst x).
Definition exitBuffer {C A} (x : Exit C A) : AppendBuffer := snd x.

(** *** Subnegotiation parameters *)

(** Section 4.4: the width and the height, clamped to [0, 65535], each as
    two bytes in network order. *)
Definition nawsParams (x y : Z) : QByteArray :=
  let x := clamp x 0 65535 in
  let y := clamp y 0 65535 in
  [to_uint8 (Z.shiftr x 8); to_uint8 x; to_uint8 (Z.shiftr y 8); to_uint8 y].

(** Section 4.3, STATUS: [WILL o] for each [o] with [my_enabled[o]] and
    [DO o] for each [o] with [his_enabled[o]], by ascending option code. *)
Definition statusParams {C} (e : Engine C) : QByteArray :=
  flat_map (fun i => let o := to_uint8 (Z.of_nat i) in
                     (if myOptionState e o then [TN_WILL; o] else []) ++
                     (if hisOptionState e o then [TN_DO; o] else []))
           (seq 0 NUM_OPTS).

(** *** Reachable engines

    What the host and the peer can do to an engine: the operations of
    section 6 and [request_telnet_option] of section 4.4. The subclasses
    request only options the engine knows by name. *)
Inductive HostCall (C : Collaborators) : Type :=
| CallOnRead (fuel : nat) (data : QByteArray)
| CallSubmitPayload (data : QByteArray) (goAhead : bool)
| CallSendWindowSizeChanged (x y : Z)
| CallSendGmcpMessage (msg : GmcpMessage C)
| CallReceiveGmcpModule (m : GmcpModule (GmcpModuleTypeEnum C)) (enabled : bool)
| CallRequestTelnetOption (type option : byte)
| CallReset.
Arguments CallOnRead {C}.
Arguments CallSubmitPayload {C}.
Arguments CallSendWindowSizeChanged {C}.
Arguments CallSendGmcpMessage {C}.
Arguments CallReceiveGmcpModule {C}.
Arguments CallRequestTelnetOption {C}.
Arguments CallReset {C}.

Definition knownOptions : list byte :=
  [OPT_ECHO; OPT_SUPPRESS_GA; OPT_STATUS; OPT_TIMING_MARK; OPT_TERMINAL_TYPE;
   OPT_NAWS; OPT_CHARSET; OPT_COMPRESS2; OPT_GMCP].

Definition allowed {C} (call : HostCall C) : Prop :=
  match call with
  | CallRequestTelnetOption _ option => In option knownOptions
  | _ => True
  end.

Definition run {C} (call : HostCall C) : M C unit :=
  match call with
  | CallOnRead fuel data => onReadInternal fuel data
  | CallSubmitPayload data goAhead => submitOverTelnet data goAhead
  | CallSendWindowSizeChanged x y => sendWindowSizeChanged x y
  | CallSendGmcpMessage msg => sendGmcpMessage msg
  | CallReceiveGmcpModule m enabled => receiveGmcpModule m enabled
  | CallRequestTelnetOption type option => requestTelnetOption type option
  | CallReset => reset
  end.

(** The constructor ends with [reset()]; afterwards the engine is driven by
    calls. (The engine a call leaves behind counts however the call ended.) *)
Inductive reachable {C} : Engine C -> Prop :=
| reachable_constructed e0 : reachable (engineAfter (reset e0))
| reachable_call e call :
    reachable e -> allowed call -> reachable (engineAfter (run call e)).

(** Neither side has option 255 enabled. *)
Definition option255Off {C} (e : Engine C) : Prop :=
  myOptionState e TN_IAC = false /\ hisOptionState e TN_IAC = false.


(** *** Segmentation by go-ahead *)

Definition isFlush {C} (ev : Event C) : bool :=
  match ev with
  | SendToMapper _ _ => true
  | _ => false
  end.

(** [m] never calls [sendToMapper]. *)
Definition quiet {C A} (m : M C A) : Prop :=
  forall e, Forall (fun ev => isFlush ev = false) (logOf (m e)).




(** *** Plain mode *)

(** The reader is not inflating, no start of compression is pending and the
    peer has not been granted COMPRESS2. *)
Definition plainMode {C} (e : Engine C) : Prop :=
  inflateTelnet e = false /\ recvdCompress e = false
  /\ hisOptionState e OPT_COMPRESS2 = false.


(** *** Scenario 4 of section 8 *)

Definition UTF_8 : QByteArray := bytes_of_string "UTF-8".

(** [IAC WILL CHARSET] *)
Definition willCharset : QByteArray := [xff; xfb; x2a].

(** [IAC DO CHARSET] *)
Definition doCharset : QByteArray := [xff; xfd; x2a].

(** [IAC SB CHARSET REQUEST ";" "UTF-8" IAC SE] *)
Definition charsetRequestUTF8 : QByteArray :=
  [xff; xfa; x2a; x01; x3b; x55; x54; x46; x2d; x38; xff; xf0].

(** [IAC SB CHARSET ACCEPTED "UTF-8" IAC SE] *)
Definition charsetAcceptedUTF8 : QByteArray :=
  [xff; xfa; x2a; x02; x55; x54; x46; x2d; x38; xff; xf0].

(** *** Auxiliary predicates *)

(** The call returns or aborts: it neither throws nor is cut off. *)
Definition settles {C A} (m : M C A) : Prop :=
  forall e, (exists a, statusOf (m e) = Ret a) \/ statusOf (m e) = Abort.


(** The fields that belong to the byte state machine. *)
Definition fsmFields {C} (s : TelnetStateEnum) (cb sb : AppendBuffer) (e : Engine C) : Prop :=
  state e = s /\ commandBuffer e = cb /\ subnegBuffer e = sb.

(** *** Concrete engines and inputs

    The engine of [Mock] after some input. *)

(** The engine after [IAC DO NAWS]. *)
Definition afterDoNaws : Engine Mock.collaborators :=
  engineAfter (run (CallOnRead 3 [TN_IAC; TN_DO; OPT_NAWS]) Mock.constructed).

(** The engine after [IAC WILL CHARSET IAC DO CHARSET]. *)
Definition afterWillDoCharset : Engine Mock.collaborators :=
  engineAfter (onReadInternal 6 (willCharset ++ doCharset) Mock.constructed).


(** "hi" IAC GA "bye" *)
Definition hiGoAheadBye : QByteArray := [x68; x69; xff; xf9; x62; x79; x65].

(** [IAC SB NAWS 0 80 0 24 IAC SE] *)
Definition naws80x24 : QByteArray := [xff; xfa; x1f; x00; x50; x00; x18; xff; xf0].

(** *** What a member function leaves alone *)

(** The entries of the four option tables for option [q]. *)
Definition entriesAt {C} (q : byte) (e : Engine C) : bool * bool * bool * bool :=
  (myOptionState e q, hisOptionState e q, announcedState e q, heAnnouncedState e q).

(** The engine without the option tables, the sent-bytes counter and the
    go-ahead flag. *)
Definition besidesNegotiation {C} (e : Engine C) :=
  (m_defaultTermType e, textCodec e, debug e, termType e, state e, commandBuffer e,
   subnegBuffer e, inflateTelnet e, recvdCompress e, stream e, gmcp e, current e).

(** The engine without the codec, the sent-bytes counter and the flag that
    asks the reader to start inflating. *)
Definition besidesSubnegotiation {C} (e : Engine C) :=
  (m_defaultTermType e, debug e, myOptionState e, hisOptionState e, announcedState e,
   heAnnouncedState e, termType e, state e, commandBuffer e, subnegBuffer e,
   recvdGA e, inflateTelnet e, stream e, gmcp e, current e).

(** The engines agree in every field, the option tables entry by entry. *)
Definition agree {C} (e e' : Engine C) : Prop :=
  besidesNegotiation e = besidesNegotiation e'
  /\ sentBytes e = sentBytes e' /\ recvdGA e = recvdGA e'
  /\ forall q, entriesAt q e = entriesAt q e'.

(** The call returns: it neither throws nor aborts. *)
Definition returns {C A} (m : M C A) : Prop :=
  forall e, exists a, statusOf (m e) = Ret a.

(** Every option that is on is one the negotiator accepts: on the peer's
    side one of those accepted on WILL, on this side one of those accepted
    on DO. *)
Definition enabledAreSupported {C} (e : Engine C) : Prop :=
  forall o, (hisOptionState e o = true -> willSupported C o = true)
            /\ (myOptionState e o = true -> doSupported o = true).

(** *** The go-ahead flag *)

(** The go-ahead marks of the [sendToMapper] calls of a log, in order. *)
Fixpoint flagsOf {C} (log : list (Event C)) : list bool :=
  match log with
  | [] => []
  | SendToMapper _ goAhead :: log' => goAhead :: flagsOf log'
  | _ :: log' => flagsOf log'
  end.

(** Between reads: no go-ahead is waiting to be reported, and a request to
    start inflating is only left over when the reader is in inflate mode. *)
Definition goAheadDown {C} (e : Engine C) : Prop :=
  recvdGA e = false /\ (recvdCompress e = true -> inflateTelnet e = true).

(** Inside the inflate loop. *)
Definition inflatingDown {C} (e : Engine C) : Prop :=
  recvdGA e = false /\ inflateTelnet e = true.

(** Every flush of the run [x] is marked as go-ahead, and unless the
    process was aborted the run leaves an engine with [K]. *)
Definition flushedOnGoAhead {C A} (K : Engine C -> Prop) (x : Exit C A) : Prop :=
  Forall (fun goAhead => goAhead = true) (flagsOf (exitLog x))
  /\ (exitStatus x = Abort \/ K (exitEngine x)).

(** The engine after [IAC DO o]. *)
Definition afterDo (o : byte) : Engine Mock.collaborators :=
  engineAfter (onReadInternal 3 [TN_IAC; TN_DO; o] Mock.constructed).

(** The engine after [IAC WILL COMPRESS2]: the peer's COMPRESS2 is on, the
    reader is still in plain mode. *)
Definition afterWillCompress2 : Engine Mock.collaborators :=
  engineAfter (onReadInternal 3 [TN_IAC; TN_WILL; OPT_COMPRESS2] Mock.constructed).

(** "foo" 0xFF "bar" *)
Definition fooIACbar : QByteArray := [x66; x6f; x6f; xff; x62; x61; x72].

(** The GMCP module "Char 1" of the first module type. *)
Definition moduleChar1 : GmcpModule (GmcpModuleTypeEnum Mock.collaborators) :=
  mkGmcpModule "char" 1%N (Some 0).


(** * Properties *)

Section Properties.

Variable C : Collaborators.
Implicit Types (e : Engine C) (c : byte) (cleanData : AppendBuffer).

(** ** Small facts *)

Lemma eqb_neq (a b : byte) : a <> b -> (a =? b) = false.
Proof.
  intros H. destruct (a =? b) eqn:E; [|reflexivity].
  apply Byte.byte_dec_bl in E. contradiction.
Qed.

Ltac tidy_log := rewrite ?app_nil_r, <- ?app_assoc; cbn [app].

(** ** The byte state machine against the transition table *)

Lemma set_state_same e : set_state (state e) e = e.
Proof. destruct e; reflexivity. Qed.

Lemma onReadInternal2_table cleanData c e :
  onReadInternal2 cleanData c e = tableStep cleanData c e.
Proof.
  pose proof (set_state_same e) as Same.
  unfold onReadInternal2, tableStep, lookupRow, bind, get.
  destruct (state e) eqn:St; cbn -[Byte.eqb processTelnetCommand processTelnetSubnegotiation].
  all: unfold isNegotiation.
  all: repeat match goal with
       | |- context [?x =? ?k] =>
           is_var x; destruct (x =? k) eqn:?;
           cbn -[Byte.eqb processTelnetCommand processTelnetSubnegotiation]
       end.
  all: unfold bind, get, modify, ret, set_state_to, commandBuffer_append,
         commandBuffer_clear, subnegBuffer_append, subnegBuffer_clear;
       cbn -[Byte.eqb processTelnetCommand processTelnetSubnegotiation].
  all: rewrite ?Same; try reflexivity.
  all: repeat match goal with
       | |- context [processTelnetCommand ?b ?x] =>
           destruct (processTelnetCommand b x) as [[[] ?] ?]
       | |- context [processTelnetSubnegotiation ?b ?x] =>
           destruct (processTelnetSubnegotiation b x) as [[[] ?] ?]
       end; cbn; tidy_log; try reflexivity.
Qed.

(** ** Proving invariants *)

Section Preserves.
Context {A B : Type} (P : Engine C -> Prop).

Lemma preserves_ret (a : A) : preserves P (ret a).
Proof. intros e H; exact H. Qed.

Lemma preserves_get : preserves P get.
Proof. intros e H; exact H. Qed.

Lemma preserves_emit ev : preserves P (emit ev).
Proof. intros e H; exact H. Qed.

Lemma preserves_throw what : preserves P (throw (A := A) what).
Proof. intros e H; exact H. Qed.

Lemma preserves_abort : preserves P (abort (A := A)).
Proof. intros e H; exact H. Qed.

Lemma preserves_modify f : (forall e, P e -> P (f e)) -> preserves P (modify f).
Proof. intros Hf e H; apply Hf, H. Qed.

Lemma preserves_bind (m : M C A) (k : A -> M C B) :
  preserves P m -> (forall a, preserves P (k a)) -> preserves P (bind m k).
Proof.
  intros Hm Hk e H. unfold bind, engineAfter.
  specialize (Hm e H). unfold engineAfter in Hm.
  destruct (m e) as [[[a| | |] e1] log1]; cbn in *; try exact Hm.
  specialize (Hk a e1 Hm). unfold engineAfter in Hk.
  destruct (k a e1) as [[s e2] log2]; exact Hk.
Qed.

End Preserves.

Create HintDb preserves.

(** Walks through a member function: [tac] has to show that each field
    update keeps the predicate. *)
Ltac preserve_with tac :=
  cbv zeta;
  repeat first
    [ solve [auto with preserves nocore]
    | apply preserves_ret
    | apply preserves_get
    | apply preserves_emit
    | apply preserves_throw
    | apply preserves_abort
    | assumption
    | apply preserves_bind; [|intros ?]
    | apply preserves_modify; intros ? ?; tac
    | match goal with
      | |- preserves _ (if ?b then _ else _) => destruct b eqn:?
      | |- preserves _ (match ?x with _ => _ end) => destruct x eqn:?
      end ].

Ltac unfold_senders :=
  unfold sendAreYouThere, sendTerminalTypeRequest, sendTerminalType,
    sendCharsetAccepted, sendCharsetRejected, sendCharsetRequest,
    sendWindowSizeChanged, sendOptionStatus, sendGmcpMessage, sendTelnetOption,
    sendRawData, sendToMapper, receiveEchoMode, receiveTerminalType,
    receiveWindowSize, receiveGmcpMessage, onGmcpEnabled.

Ltac unfold_negotiator :=
  unfold processTelnetCommand, processWILL, processWONT, processDO, processDONT,
    processTelnetSubnegotiation, subnegCHARSET, subnegCOMPRESS2, subnegGMCP,
    subnegNAWS;
  unfold_senders.

(** *** The negotiator does not touch the state machine's own fields *)

Ltac solve_fields :=
  idtac;
  match goal with
  | H : fsmFields _ _ _ _ |- _ => exact H
  end.

Lemma processTelnetCommand_fsmFields s cb sb command :
  preserves (fsmFields s cb sb) (processTelnetCommand (C := C) command).
Proof. unfold_negotiator. preserve_with solve_fields. Qed.

Lemma processTelnetSubnegotiation_fsmFields s cb sb payload :
  preserves (fsmFields s cb sb) (processTelnetSubnegotiation (C := C) payload).
Proof. unfold_negotiator. preserve_with solve_fields. Qed.

(** *** The command buffer's shape is an invariant of the state machine *)

Lemma fsmFields_after {A} (m : M C A) s cb sb e :
  preserves (fsmFields s cb sb) m ->
  state e = s -> commandBuffer e = cb -> subnegBuffer e = sb ->
  fsmFields s cb sb (engineAfter (m e)).
Proof. intros Hm Hs Hc Hb. apply Hm. repeat split; assumption. Qed.

Lemma bufferShape_reset e : bufferShape (engineAfter (reset e)).
Proof. reflexivity. Qed.

Lemma onReadInternal2_bufferShape cleanData c e cleanData' e' log :
  bufferShape e ->
  onReadInternal2 cleanData c e = (Ret cleanData', e', log) ->
  bufferShape e'.
Proof.
  unfold bufferShape, onReadInternal2, bind, get.
  destruct (state e) eqn:St; cbn -[Byte.eqb processTelnetCommand processTelnetSubnegotiation];
    intros Shape.
  all: repeat match goal with
       | |- context [if ?b then _ else _] => destruct b eqn:?
       end.
  all: unfold bind, get, modify, ret, set_state_to, commandBuffer_append,
         commandBuffer_clear, subnegBuffer_append, subnegBuffer_clear;
       cbn -[Byte.eqb processTelnetCommand processTelnetSubnegotiation].
  all: try (intros [= <- <- <-]; cbn; rewrite ?St; first [assumption | reflexivity]).
  all: try (intros [= <- <- <-]; cbn; rewrite Shape; cbn;
            match goal with H : (_ =? TN_IAC) = true |- _ =>
              apply Byte.byte_dec_bl in H; rewrite H; reflexivity end).
  all: try (intros [= <- <- <-]; cbn; rewrite Shape; cbn;
            eexists; split; [eassumption | reflexivity]).
  all: try match goal with
       | |- context [processTelnetCommand ?b ?x] =>
           pose proof (fsmFields_after (processTelnetCommand b) _ _ _ x
                         (processTelnetCommand_fsmFields _ _ _ b)
                         eq_refl eq_refl eq_refl) as [F1 [F2 F3]];
           destruct (processTelnetCommand b x) as [[[] ?] ?]
       | |- context [processTelnetSubnegotiation ?b ?x] =>
           pose proof (fsmFields_after (processTelnetSubnegotiation b) _ _ _ x
                         (processTelnetSubnegotiation_fsmFields _ _ _ b)
                         eq_refl eq_refl eq_refl) as [F1 [F2 F3]];
           destruct (processTelnetSubnegotiation b x) as [[[] ?] ?]
       end; cbn in *; try discriminate.
  all: intros [= <- <- <-]; cbn; rewrite F1; reflexivity.
Qed.

Lemma lookupRow_total (s : TelnetStateEnum) c : exists r, lookupRow s c = Some r.
Proof.
  unfold lookupRow; destruct s; cbn -[Byte.eqb];
    repeat match goal with
    | |- context [if ?b then _ else _] => destruct b
    end; eexists; reflexivity.
Qed.

Lemma emitted_command_length e c r n :
  bufferShape e -> lookupRow (state e) c = Some r ->
  In (EmitCommand n) (row_actions r) ->
  List.length (commandBuffer e ++ [c]) = n.
Proof.
  unfold bufferShape, lookupRow. intros Shape Row.
  destruct (state e); cbn -[Byte.eqb] in Row;
    repeat match type of Row with
    | context [if ?b then _ else _] => destruct b
    end; injection Row as <-; cbn; intros Hin;
    repeat (destruct Hin as [Hin|Hin]; try discriminate Hin);
    try contradiction; injection Hin as <-.
  all: try (rewrite Shape; reflexivity).
  all: destruct Shape as [verb [_ ->]]; reflexivity.
Qed.

(** C1. For every state of the byte state machine and every input byte,
    [onReadInternal2] does exactly what the row of the specification's
    transition table for that state and byte says: it moves to the row's
    target state and performs the row's buffer actions (append to the clean
    buffer or to the subnegotiation buffer, push to or clear the command
    buffer, hand a command or a subnegotiation to the negotiator). Every
    state and byte has a row. On the engines that occur (the command buffer
    has the shape belonging to the state, which holds after [reset] and is
    kept by every step), a command handed over has the length the table
    gives for it: 2 for [IAC <other>], 3 for [IAC <WILL/WONT/DO/DONT> x],
    inside a subnegotiation as well as outside. *)
Theorem fsm_step_follows_transition_table :
  (forall cleanData c e, onReadInternal2 cleanData c e = tableStep cleanData c e)
  /\ (forall (s : TelnetStateEnum) c, exists r, lookupRow s c = Some r)
  /\ (forall e c r n,
        bufferShape e -> lookupRow (state e) c = Some r ->
        In (EmitCommand n) (row_actions r) ->
        List.length (commandBuffer e ++ [c]) = n)
  /\ (forall e, bufferShape (engineAfter (reset e)))
  /\ (forall cleanData c e cleanData' e' log,
        bufferShape e ->
        onReadInternal2 cleanData c e = (Ret cleanData', e', log) ->
        bufferShape e').
Proof.
  split; [exact onReadInternal2_table|].
  split; [exact lookupRow_total|].
  split; [exact emitted_command_length|].
  split; [exact bufferShape_reset|].
  exact onReadInternal2_bufferShape.
Qed.

(** ** Outbound framer *)

Lemma addEscapedBytes_escapeIAC (s : AppendBuffer) (bytes : QByteArray) :
  addEscapedBytes s bytes = s ++ escapeIAC bytes.
Proof.
  unfold addEscapedBytes. revert s.
  induction bytes as [|b bytes IH]; intros s; cbn -[Byte.eqb].
  - now rewrite app_nil_r.
  - rewrite IH. unfold addEscaped, addRaw.
    destruct (b =? TN_IAC) eqn:E; rewrite <- ?app_assoc; [|reflexivity].
    apply Byte.byte_dec_bl in E; subst b; reflexivity.
Qed.

Lemma escapeIAC_without_IAC (bytes : QByteArray) :
  containsIAC bytes = false -> escapeIAC bytes = bytes.
Proof.
  unfold escapeIAC.
  induction bytes as [|b bytes IH]; cbn -[Byte.eqb]; [reflexivity|].
  destruct (b =? TN_IAC); cbn; [discriminate|].
  intros H. now rewrite IH.
Qed.

Lemma escaped_payload (data : QByteArray) :
  (if containsIAC data then addEscapedBytes [] data else data) = escapeIAC data.
Proof.
  destruct (containsIAC data) eqn:E.
  - apply addEscapedBytes_escapeIAC.
  - symmetry. now apply escapeIAC_without_IAC.
Qed.

(** C5. [submitOverTelnet(B, g)] makes one call of [sendRawData], with [B]
    in which every 0xFF is doubled and every other byte is kept in place,
    followed by [IAC GA] exactly when [g] holds and
    [hisOptionState[OPT_SUPPRESS_GA]] does not; the engine afterwards is the
    engine before with only the sent-bytes counter advanced. *)
Theorem submit_payload_escapes_and_frames (B : QByteArray) (g : bool) e :
  let wire :=
    escapeIAC B ++
    (if g && negb (hisOptionState e OPT_SUPPRESS_GA) then [TN_IAC; TN_GA] else []) in
  submitOverTelnet B g e =
    (Ret tt,
     set_sentBytes (sentBytes e + Z.of_nat (List.length wire)) e,
     [SendRawData wire]).
Proof.
  unfold submitOverTelnet, sendRawData, bind, get, modify, emit; cbn -[Byte.eqb escapeIAC].
  rewrite escaped_payload.
  destruct (g && negb (hisOptionState e OPT_SUPPRESS_GA));
    rewrite <- ?app_assoc, ?app_nil_r; reflexivity.
Qed.

(** ** Escaped payloads through the byte state machine *)

Lemma runFSM_escapeIAC (S : QByteArray) : forall cleanData e,
  state e = NORMAL ->
  runFSM (escapeIAC S) cleanData e =
    (Ret (cleanData ++ S), (if containsIAC S then set_commandBuffer [] e else e), []).
Proof.
  induction S as [|b S IH]; intros cleanData e St.
  - cbn. now rewrite app_nil_r.
  - cbn -[Byte.eqb runFSM onReadInternal2].
    destruct (b =? TN_IAC) eqn:E.
    + apply Byte.byte_dec_bl in E; subst b.
      cbn [app runFSM orb]. unfold bind at 1.
      unfold onReadInternal2 at 1. unfold bind at 1, get at 1. rewrite St.
      cbn -[runFSM onReadInternal2 containsIAC].
      unfold bind at 1. unfold onReadInternal2 at 1.
      cbn -[runFSM onReadInternal2 containsIAC].
      assert (Same : set_commandBuffer [] (set_state NORMAL
                (set_commandBuffer (commandBuffer e ++ [TN_IAC]) (set_state IAC e)))
              = set_commandBuffer [] e).
      { destruct e; cbn in *; subst; reflexivity. }
      unfold set_state_to, commandBuffer_append, commandBuffer_clear, modify, bind, ret.
      cbn -[runFSM onReadInternal2 containsIAC].
      rewrite Same, IH by exact St.
      rewrite <- app_assoc. cbn [app].
      destruct (containsIAC S); reflexivity.
    + cbn [app runFSM orb]. unfold bind at 1.
      unfold onReadInternal2 at 1. unfold bind at 1, get at 1. rewrite St, E.
      cbn -[runFSM onReadInternal2 containsIAC].
      rewrite IH by exact St. rewrite <- app_assoc. reflexivity.
Qed.

Lemma submit_payload_escapes_and_frames_aux (S : QByteArray) (sender : Engine C) :
  exists sender',
    submitOverTelnet S false sender = (Ret tt, sender', [SendRawData (escapeIAC S)]).
Proof.
  eexists. unfold submitOverTelnet, sendRawData, bind, get, modify, emit;
    cbn -[Byte.eqb escapeIAC].
  rewrite escaped_payload. reflexivity.
Qed.

(** C2. For every byte sequence [S]: the outbound framer without go-ahead
    sends [S] with each 0xFF doubled, and the byte state machine, started in
    [NORMAL] on those bytes, ends with a clean buffer equal to [S], calls
    neither the negotiator (no command, no subnegotiation) nor any hook, and
    is in [NORMAL] again; the engine is as before, except that the command
    buffer has been emptied when [S] has a 0xFF. *)
Theorem escaped_payload_round_trip (S : QByteArray) (sender e : Engine C) :
  state e = NORMAL ->
  exists wire sender',
    submitOverTelnet S false sender = (Ret tt, sender', [SendRawData wire])
    /\ wire = escapeIAC S
    /\ runFSM wire [] e =
         (Ret S, (if containsIAC S then set_commandBuffer [] e else e), [])
    /\ state (engineAfter (runFSM wire [] e)) = NORMAL.
Proof.
  intros St.
  pose proof (submit_payload_escapes_and_frames_aux S sender) as Hs.
  destruct Hs as [sender' Hs].
  exists (escapeIAC S), sender'. split; [exact Hs|]. split; [reflexivity|].
  rewrite (runFSM_escapeIAC S [] e St). split; [reflexivity|].
  unfold engineAfter; cbn. destruct (containsIAC S); exact St.
Qed.

(** ** GMCP modules *)

(** C8. Enabling a GMCP module that has no version, by
    [receiveGmcpModule(m, true)], throws [std::runtime_error("missing
    version")] before anything is changed: the engine, and with it the
    module set and the table of supported-module versions, is as before
    the call, and no hook has been called. *)
Theorem enabling_module_without_version_is_rejected
    (m : GmcpModule (GmcpModuleTypeEnum C)) e :
  hasVersion m = false ->
  receiveGmcpModule m true e = (Throw "missing version", e, [])
  /\ modules (gmcp (engineAfter (receiveGmcpModule m true e))) = modules (gmcp e)
  /\ supported (gmcp (engineAfter (receiveGmcpModule m true e))) = supported (gmcp e).
Proof.
  intros H. unfold receiveGmcpModule. rewrite H. cbn. repeat split.
Qed.

(** C10. [isGmcpModuleEnabled(t)] is false whenever
    [myOptionState[OPT_GMCP]] is false, whatever the table of supported
    versions holds; when [myOptionState[OPT_GMCP]] is true it is true
    exactly when the version stored for [t] is not the default version. *)
Theorem gmcp_module_enabled_iff (t : GmcpModuleTypeEnum C) e :
  (myOptionState e OPT_GMCP = false -> isGmcpModuleEnabled t e = false)
  /\ (myOptionState e OPT_GMCP = true ->
      (isGmcpModuleEnabled t e = true <->
       supported (gmcp e) t <> DEFAULT_GMCP_MODULE_VERSION)).
Proof.
  unfold isGmcpModuleEnabled. split; intros ->; cbn; [reflexivity|].
  rewrite negb_true_iff, N.eqb_neq. reflexivity.
Qed.

(** ** DO and the enable side-effects *)

Lemma doSupported_not_TIMING_MARK (o : byte) :
  doSupported o = true -> (o =? OPT_TIMING_MARK) = false.
Proof.
  intros H. destruct (o =? OPT_TIMING_MARK) eqn:E; [|reflexivity].
  apply Byte.byte_dec_bl in E; subst o. discriminate H.
Qed.

Lemma processDO_newly_enabled (o : byte) e :
  doSupported o = true -> myOptionState e o = false ->
  processDO o e = (agreeToEnable o ;; enableSideEffect o) e.
Proof.
  intros Sup Off. pose proof (doSupported_not_TIMING_MARK o Sup) as NotTM.
  unfold processDO, agreeToEnable, enableSideEffect.
  unfold bind at 1. unfold get at 1. rewrite NotTM, Off, Sup. cbn [negb].
  unfold bind, get, modify, sendTelnetOption, sendRawData, emit, ret.
  cbn -[Byte.eqb sendWindowSizeChanged sendCharsetRequest onGmcpEnabled].
  unfold assign at 1 2 3 4.
  destruct (o =? OPT_NAWS) eqn:E1.
  { apply Byte.byte_dec_bl in E1; subst o. reflexivity. }
  rewrite andb_false_r.
  destruct (o =? OPT_CHARSET) eqn:E2.
  { apply Byte.byte_dec_bl in E2; subst o. reflexivity. }
  rewrite andb_false_r.
  destruct (o =? OPT_COMPRESS2) eqn:E3.
  { apply Byte.byte_dec_bl in E3; subst o. discriminate Sup. }
  rewrite andb_false_r. cbn [andb].
  destruct (o =? OPT_GMCP) eqn:E4.
  { apply Byte.byte_dec_bl in E4; subst o. reflexivity. }
  rewrite andb_false_r. reflexivity.
Qed.

Lemma processDO_already_enabled (o : byte) e :
  o <> OPT_TIMING_MARK -> myOptionState e o = true ->
  processDO o e = enableSideEffect o e.
Proof.
  intros NotTM On. apply eqb_neq in NotTM.
  unfold processDO, enableSideEffect.
  unfold bind at 1. unfold get at 1. rewrite NotTM, On. cbn [negb].
  unfold bind, get, ret.
  cbn -[Byte.eqb sendWindowSizeChanged sendCharsetRequest onGmcpEnabled].
  destruct (o =? OPT_NAWS) eqn:E1.
  { apply Byte.byte_dec_bl in E1; subst o. rewrite On. cbn.
    reflexivity. }
  rewrite andb_false_r.
  destruct (o =? OPT_CHARSET) eqn:E2.
  { apply Byte.byte_dec_bl in E2; subst o. rewrite On. cbn.
    reflexivity. }
  rewrite andb_false_r.
  destruct (o =? OPT_COMPRESS2) eqn:E3.
  { apply Byte.byte_dec_bl in E3; subst o. rewrite On. cbn.
    destruct (NO_ZLIB C); cbn; rewrite ?andb_false_r; reflexivity. }
  rewrite andb_false_r. cbn [andb].
  destruct (o =? OPT_GMCP) eqn:E4.
  { apply Byte.byte_dec_bl in E4; subst o. rewrite On. reflexivity. }
  rewrite andb_false_r. reflexivity.
Qed.

(** ** Subnegotiations on the wire *)

Lemma escapeIAC_app (a b : QByteArray) : escapeIAC (a ++ b) = escapeIAC a ++ escapeIAC b.
Proof. apply flat_map_app. Qed.

Lemma addEscaped_escapeIAC (s : AppendBuffer) (b : byte) :
  addEscaped s b = s ++ escapeIAC [b].
Proof. apply (addEscapedBytes_escapeIAC s [b]). Qed.

Lemma sendWindowSizeChanged_framed (x y : Z) :
  sendWindowSizeChanged (C := C) x y = sendRawData (framed OPT_NAWS (nawsParams x y)).
Proof.
  unfold sendWindowSizeChanged, addClampedTwoByteEscaped, addTwoByteEscaped,
    addSubnegEnd, addSubnegBegin, addCommand, addRaw, framed, nawsParams.
  rewrite !addEscaped_escapeIAC.
  cbv zeta.
  change [to_uint8 (Z.shiftr (clamp x 0 65535) 8); to_uint8 (clamp x 0 65535);
          to_uint8 (Z.shiftr (clamp y 0 65535) 8); to_uint8 (clamp y 0 65535)]
    with ([to_uint8 (Z.shiftr (clamp x 0 65535) 8)] ++ [to_uint8 (clamp x 0 65535)] ++
          [to_uint8 (Z.shiftr (clamp y 0 65535) 8)] ++ [to_uint8 (clamp y 0 65535)]).
  rewrite !escapeIAC_app, <- !app_assoc. reflexivity.
Qed.

Lemma charset_list_escaped (l : list QByteArray) : forall s : AppendBuffer,
  fold_left (fun s characterSet =>
               addEscapedBytes (addEscapedBytes s delimeter) characterSet) l s
  = s ++ escapeIAC (flat_map (fun characterSet => delimeter ++ characterSet) l).
Proof.
  induction l as [|cs l IH]; intros s; cbn [fold_left flat_map].
  - cbn. now rewrite app_nil_r.
  - rewrite IH, !addEscapedBytes_escapeIAC, !escapeIAC_app, <- !app_assoc. reflexivity.
Qed.

Lemma sendCharsetRequest_framed (l : list QByteArray) :
  sendCharsetRequest (C := C) l =
  sendRawData (framed OPT_CHARSET
                 (TNSB_REQUEST :: flat_map (fun characterSet => delimeter ++ characterSet) l)).
Proof.
  unfold sendCharsetRequest, addSubnegEnd, addSubnegBegin, addCommand, addRaw, framed.
  rewrite charset_list_escaped.
  change (TNSB_REQUEST :: ?t) with ([TNSB_REQUEST] ++ t).
  rewrite escapeIAC_app, <- !app_assoc. reflexivity.
Qed.

Lemma sendCharsetAccepted_framed (characterSet : QByteArray) :
  sendCharsetAccepted (C := C) characterSet =
  sendRawData (framed OPT_CHARSET (TNSB_ACCEPTED :: characterSet)).
Proof.
  unfold sendCharsetAccepted, addSubnegEnd, addSubnegBegin, addCommand, addRaw, framed.
  rewrite addEscapedBytes_escapeIAC.
  change (TNSB_ACCEPTED :: characterSet) with ([TNSB_ACCEPTED] ++ characterSet).
  rewrite escapeIAC_app, <- !app_assoc. reflexivity.
Qed.

Lemma sendCharsetRejected_framed :
  sendCharsetRejected (C := C) = sendRawData (framed OPT_CHARSET [TNSB_REJECTED]).
Proof. reflexivity. Qed.

Lemma sendTerminalType_framed (terminalType : QByteArray) :
  sendTerminalType (C := C) terminalType =
  sendRawData (framed OPT_TERMINAL_TYPE (TNSB_IS :: terminalType)).
Proof.
  unfold sendTerminalType, addSubnegEnd, addSubnegBegin, addCommand, addRaw, framed.
  rewrite addEscapedBytes_escapeIAC, addEscaped_escapeIAC.
  change (TNSB_IS :: terminalType) with ([TNSB_IS] ++ terminalType).
  rewrite escapeIAC_app, <- !app_assoc. reflexivity.
Qed.

Lemma sendTerminalTypeRequest_framed :
  sendTerminalTypeRequest (C := C) = sendRawData (framed OPT_TERMINAL_TYPE [TNSB_SEND]).
Proof. reflexivity. Qed.

Lemma sendGmcpMessage_framed (msg : GmcpMessage C) :
  sendGmcpMessage msg = sendRawData (framed OPT_GMCP (GmcpMessage_toRawBytes C msg)).
Proof.
  unfold sendGmcpMessage, addSubnegEnd, addSubnegBegin, addCommand, addRaw, framed.
  rewrite addEscapedBytes_escapeIAC, <- !app_assoc. reflexivity.
Qed.

(** The STATUS reply is assembled without the escaping routine. *)
Lemma status_entries (e : Engine C) (l : list nat) : forall s : AppendBuffer,
  fold_left (statusEntry e) l s =
  s ++ flat_map (fun i => let o := to_uint8 (Z.of_nat i) in
                          (if myOptionState e o then [TN_WILL; o] else []) ++
                          (if hisOptionState e o then [TN_DO; o] else [])) l.
Proof.
  induction l as [|i l IH]; intros s; cbn [fold_left flat_map].
  - now rewrite app_nil_r.
  - rewrite IH. unfold statusEntry. cbv zeta.
    destruct (myOptionState e _), (hisOptionState e _);
      rewrite <- ?app_assoc; reflexivity.
Qed.

Lemma sendOptionStatus_raw e :
  sendOptionStatus e =
  sendRawData ([TN_IAC; TN_SB; OPT_STATUS] ++ (TNSB_IS :: statusParams e)
               ++ [TN_IAC; TN_SE]) e.
Proof.
  unfold sendOptionStatus, bind, get. cbv zeta.
  rewrite status_entries. unfold statusParams.
  cbn [app]. rewrite <- !app_assoc. reflexivity.
Qed.

Lemma containsIAC_flat_map {X} (f : X -> QByteArray) (l : list X) :
  (forall x, containsIAC (f x) = false) -> containsIAC (flat_map f l) = false.
Proof.
  intros H. induction l as [|x l IH]; [reflexivity|].
  cbn [flat_map]. unfold containsIAC in *. rewrite existsb_app, H, IH. reflexivity.
Qed.

Lemma statusParams_without_IAC e :
  option255Off e -> containsIAC (statusParams e) = false.
Proof.
  intros [My His]. unfold statusParams. apply containsIAC_flat_map. intros i. cbv zeta.
  unfold containsIAC. rewrite existsb_app.
  generalize (to_uint8 (Z.of_nat i)). intros o.
  destruct (o =? TN_IAC) eqn:E.
  - apply Byte.byte_dec_bl in E. rewrite E, My, His. reflexivity.
  - destruct (myOptionState e o), (hisOptionState e o); cbn -[Byte.eqb];
      rewrite ?E; reflexivity.
Qed.

Lemma sendOptionStatus_framed e :
  option255Off e ->
  sendOptionStatus e = sendRawData (framed OPT_STATUS (TNSB_IS :: statusParams e)) e.
Proof.
  intros Off. rewrite sendOptionStatus_raw. unfold framed.
  change (TNSB_IS :: statusParams e) with ([TNSB_IS] ++ statusParams e).
  rewrite escapeIAC_app, (escapeIAC_without_IAC (statusParams e)); [reflexivity|].
  now apply statusParams_without_IAC.
Qed.

(** ** Option 255 is never enabled *)

Ltac refute_supported :=
  match goal with
  | H : willSupported _ TN_IAC = true |- _ => cbn in H; discriminate H
  | H : doSupported TN_IAC = true |- _ => discriminate H
  end.

Ltac solve_255 :=
  idtac;
  match goal with
  | H : option255Off _ |- _ =>
      let My := fresh "My" in
      let His := fresh "His" in
      destruct H as [My His]; unfold option255Off, assign; cbn -[Byte.eqb];
      split; try assumption;
      match goal with
      | |- (if TN_IAC =? ?o then _ else _) = false =>
          let E := fresh "E" in
          destruct (TN_IAC =? o) eqn:E;
          [ apply Byte.byte_dec_bl in E; subst o;
            first [reflexivity | exfalso; refute_supported]
          | assumption ]
      end
  end.

Lemma processWILL_255 (o : byte) : preserves option255Off (processWILL (C := C) o).
Proof. unfold processWILL. unfold_senders. preserve_with solve_255. Qed.

Lemma processWONT_255 (o : byte) : preserves option255Off (processWONT (C := C) o).
Proof. unfold processWONT. unfold_senders. preserve_with solve_255. Qed.

Lemma processDO_255 (o : byte) : preserves option255Off (processDO (C := C) o).
Proof. unfold processDO. unfold_senders. preserve_with solve_255. Qed.

Lemma processDONT_255 (o : byte) : preserves option255Off (processDONT (C := C) o).
Proof. unfold processDONT. unfold_senders. preserve_with solve_255. Qed.

#[local] Hint Resolve processWILL_255 processWONT_255 processDO_255 processDONT_255
  : preserves.

Lemma processTelnetCommand_255 (command : AppendBuffer) :
  preserves option255Off (processTelnetCommand (C := C) command).
Proof. unfold processTelnetCommand. unfold_senders. preserve_with solve_255. Qed.

Lemma processTelnetSubnegotiation_255 (payload : AppendBuffer) :
  preserves option255Off (processTelnetSubnegotiation (C := C) payload).
Proof. unfold_negotiator. preserve_with solve_255. Qed.

#[local] Hint Resolve processTelnetCommand_255 processTelnetSubnegotiation_255
  : preserves.

Lemma onReadInternal2_255 cleanData c :
  preserves option255Off (onReadInternal2 (C := C) cleanData c).
Proof.
  unfold onReadInternal2, set_state_to, commandBuffer_append, commandBuffer_clear,
    subnegBuffer_append, subnegBuffer_clear.
  preserve_with solve_255.
Qed.

Lemma resetCompress_255 : preserves option255Off (resetCompress (C := C)).
Proof. unfold resetCompress. preserve_with solve_255. Qed.

Lemma initCompress_255 : preserves option255Off (initCompress (C := C)).
Proof. unfold initCompress. preserve_with solve_255. Qed.

Lemma flushOnGA_255 (detectGA : bool) cleanData :
  preserves option255Off (flushOnGA (C := C) detectGA cleanData).
Proof. unfold flushOnGA, sendToMapper. preserve_with solve_255. Qed.

(** *** Invariants of the reader *)

Section ReaderInvariant.

Variable P : Engine C -> Prop.
Hypothesis P_step : forall cleanData c, preserves P (onReadInternal2 cleanData c).
Hypothesis P_flush : forall detectGA cleanData, preserves P (flushOnGA detectGA cleanData).
Hypothesis P_init : preserves P initCompress.
Hypothesis P_resetCompress : preserves P resetCompress.
Hypothesis P_stream : forall v e, P e -> P (set_stream v e).
Hypothesis P_recvdCompress : forall e, P e -> P (set_recvdCompress false e).

Lemma andThen_keeps {A B} (m : Exit C A) (k : A -> AppendBuffer -> Engine C -> Exit C B) :
  P (exitEngine m) ->
  (forall a cleanData e, P e -> P (exitEngine (k a cleanData e))) ->
  P (exitEngine (andThen m k)).
Proof.
  intros Hm Hk. destruct m as [[[[a| | |] e] log] cd]; cbn in *; try exact Hm.
  specialize (Hk a cd e Hm). destruct (k a cd e) as [[[s e'] log'] cd']. exact Hk.
Qed.

Lemma withBuffer_keeps (m : AppendBuffer -> M C AppendBuffer) cleanData e :
  preserves P (m cleanData) -> P e -> P (exitEngine (withBuffer m cleanData e)).
Proof.
  intros Hm He. specialize (Hm e He). unfold withBuffer, engineAfter in *.
  destruct (m cleanData e) as [[[a| | |] e'] log]; exact Hm.
Qed.

Lemma keepBuffer_keeps {A} (m : M C A) cleanData e :
  preserves P m -> P e -> P (exitEngine (keepBuffer m cleanData e)).
Proof.
  intros Hm He. specialize (Hm e He). unfold keepBuffer, engineAfter in *.
  destruct (m e) as [[s e'] log]; exact Hm.
Qed.

Lemma feedInflated_keeps detectGA (out : list byte) : forall cleanData e,
  P e -> P (exitEngine (feedInflated detectGA out cleanData e)).
Proof.
  induction out as [|c out IH]; intros cleanData e He; [exact He|].
  cbn [feedInflated]. apply andThen_keeps.
  - apply withBuffer_keeps; [apply P_step | exact He].
  - intros _ cd1 e1 He1. apply andThen_keeps.
    + apply withBuffer_keeps; [apply P_flush | exact He1].
    + intros _ cd2 e2 He2. apply IH, He2.
Qed.

Lemma inflateRounds_keeps detectGA (fuel : nat) : forall input cleanData e,
  P e -> P (exitEngine (inflateRounds detectGA fuel input cleanData e)).
Proof.
  induction fuel as [|fuel IH]; intros input cleanData e He; [exact He|].
  cbn [inflateRounds]. cbv zeta.
  destruct (Z.eqb _ Z_STREAM_ERROR); [apply P_stream, He|].
  destruct (endsInflate _).
  - apply andThen_keeps.
    + apply keepBuffer_keeps; [apply P_resetCompress|]. do 2 apply P_stream. exact He.
    + intros _ cd1 e1 He1. exact He1.
  - apply andThen_keeps.
    + apply feedInflated_keeps, P_stream, He.
    + intros _ cd1 e1 He1. destruct (Nat.eqb _ 0); [apply IH, He1 | exact He1].
Qed.

Lemma readLoop_keeps detectGA (fuel : nat) : forall data cleanData e,
  P e -> P (exitEngine (readLoop detectGA fuel data cleanData e)).
Proof.
  induction fuel as [|fuel IH]; intros [|c data] cleanData e He; try exact He.
  cbn [readLoop]. destruct (inflateTelnet e).
  - apply andThen_keeps.
    + unfold onReadInternalInflate. destruct (NO_ZLIB C); [exact He|].
      apply inflateRounds_keeps, He.
    + intros remaining cd1 e1 He1. apply IH, He1.
  - apply andThen_keeps.
    + apply withBuffer_keeps; [apply P_step | exact He].
    + intros _ cd1 e1 He1. destruct (recvdCompress e1).
      * apply andThen_keeps.
        -- apply keepBuffer_keeps; [|exact He1].
           apply preserves_bind; [exact P_init|].
           intros _. apply preserves_modify. exact P_recvdCompress.
        -- intros _ cd2 e2 He2. apply IH, He2.
      * apply andThen_keeps.
        -- apply withBuffer_keeps; [apply P_flush | exact He1].
        -- intros _ cd2 e2 He2. apply IH, He2.
Qed.

Lemma onReadWith_keeps detectGA (fuel : nat) (data : QByteArray) :
  preserves P (onReadWith detectGA fuel data).
Proof.
  intros e He. unfold onReadWith, engineAfter.
  destruct data as [|c data]; [exact He|].
  pose proof (readLoop_keeps detectGA fuel (c :: data) [] e He) as H.
  destruct (readLoop detectGA fuel (c :: data) [] e) as [[[[a| | |] e'] log] cd];
    cbn in *; try exact H.
  destruct (negb _); exact H.
Qed.

End ReaderInvariant.

Lemma reachable_option255Off e : reachable e -> option255Off e.
Proof.
  induction 1 as [e0|e call _ IH Allowed].
  - split; reflexivity.
  - destruct call as [fuel data|data goAhead|x y|msg|m enabled|type option|]; cbn [run].
    + unfold onReadInternal.
      apply (onReadWith_keeps option255Off onReadInternal2_255 flushOnGA_255
               initCompress_255 resetCompress_255
               (fun v e1 H1 => H1) (fun e1 H1 => H1) true fuel data e IH).
    + revert e IH. change (preserves option255Off (submitOverTelnet (C := C) data goAhead)).
      unfold submitOverTelnet. unfold_senders. preserve_with solve_255.
    + revert e IH. change (preserves option255Off (sendWindowSizeChanged (C := C) x y)).
      unfold_senders. preserve_with solve_255.
    + revert e IH. change (preserves option255Off (sendGmcpMessage msg)).
      unfold_senders. preserve_with solve_255.
    + revert e IH. change (preserves option255Off (receiveGmcpModule m enabled)).
      unfold receiveGmcpModule, set_supported. preserve_with solve_255.
    + revert e IH.
      change (preserves option255Off (requestTelnetOption (C := C) type option)).
      unfold requestTelnetOption. unfold_senders. cbn in Allowed.
      assert (NotIAC : (TN_IAC =? option) = false).
      { apply eqb_neq. intros <-.
        repeat (destruct Allowed as [Allowed|Allowed]; try discriminate Allowed).
        exact Allowed. }
      preserve_with ltac:(idtac;
        match goal with
        | H : option255Off _ |- _ =>
            destruct H; unfold option255Off, assign; cbn -[Byte.eqb];
            rewrite ?NotIAC; split; assumption
        end).
    + split; reflexivity.
Qed.

(** C9. Every subnegotiation the engine sends is, on the wire,
    [IAC SB <opt>], the parameters with every 0xFF doubled, [IAC SE]: the
    NAWS report, the three CHARSET messages, the two TERMINAL_TYPE messages
    and the GMCP message for all arguments, and the STATUS IS reply (whose
    parameters are [WILL o] for each [o] with [myOptionState[o]] and [DO o]
    for each [o] with [hisOptionState[o]]) on every reachable engine: there
    option 255 is enabled on neither side, so the reply, which is assembled
    without the escaping routine, has no 0xFF among its parameters. *)
Theorem sent_subnegotiations_double_IAC :
  (forall x y : Z,
     sendWindowSizeChanged (C := C) x y =
     sendRawData (framed OPT_NAWS (nawsParams x y)))
  /\ (forall l : list QByteArray,
     sendCharsetRequest (C := C) l =
     sendRawData (framed OPT_CHARSET
                    (TNSB_REQUEST ::
                     flat_map (fun characterSet => delimeter ++ characterSet) l)))
  /\ (forall characterSet : QByteArray,
     sendCharsetAccepted (C := C) characterSet =
     sendRawData (framed OPT_CHARSET (TNSB_ACCEPTED :: characterSet)))
  /\ sendCharsetRejected (C := C) = sendRawData (framed OPT_CHARSET [TNSB_REJECTED])
  /\ (forall terminalType : QByteArray,
     sendTerminalType (C := C) terminalType =
     sendRawData (framed OPT_TERMINAL_TYPE (TNSB_IS :: terminalType)))
  /\ sendTerminalTypeRequest (C := C) = sendRawData (framed OPT_TERMINAL_TYPE [TNSB_SEND])
  /\ (forall msg : GmcpMessage C,
     sendGmcpMessage msg = sendRawData (framed OPT_GMCP (GmcpMessage_toRawBytes C msg)))
  /\ (forall e, reachable e ->
     option255Off e
     /\ containsIAC (statusParams e) = false
     /\ sendOptionStatus e =
        sendRawData (framed OPT_STATUS (TNSB_IS :: statusParams e)) e).
Proof.
  repeat split.
  - exact sendWindowSizeChanged_framed.
  - exact sendCharsetRequest_framed.
  - exact sendCharsetAccepted_framed.
  - exact sendTerminalType_framed.
  - exact sendGmcpMessage_framed.
  - apply (reachable_option255Off e H).
  - apply (reachable_option255Off e H).
  - apply statusParams_without_IAC, reachable_option255Off, H.
  - apply sendOptionStatus_framed, reachable_option255Off, H.
Qed.

(** ** DO: the amended statement *)

Lemma enableSideEffect_keeps_tables (o q : byte) :
  preserves (fun e : Engine C => myOptionState e q = true /\ announcedState e q = true)
            (enableSideEffect o).
Proof.
  unfold enableSideEffect. unfold_senders.
  preserve_with ltac:(idtac; match goal with H : _ /\ _ |- _ => exact H end).
Qed.

Lemma command_DO (o : byte) e :
  processTelnetCommand [TN_IAC; TN_DO; o] e =
  (emit (ProcessTelnetCommand [TN_IAC; TN_DO; o]) ;; processDO o) e.
Proof. reflexivity. Qed.

(** C6, as the code has it. On [DO o] (the command [IAC DO o] goes to
    [processDO o]) for an option [o] of the supported set, which does not
    contain TIMING_MARK, with [myOptionState[o]] false, the engine replies
    [IAC WILL o], sets [myOptionState[o]] and [announcedState[o]] and then
    runs the enable side-effect for [o]. When [myOptionState[o]] is already
    true, the engine sends no reply and changes no table but runs the
    enable side-effect for [o] all the same. The side-effect for NAWS is
    the NAWS subnegotiation with the current window size, the one for
    CHARSET the CHARSET REQUEST with the supported encodings, the one for
    GMCP the hook [onGmcpEnabled]. *)
Theorem do_enables_and_runs_side_effect (o : byte) e :
  processTelnetCommand [TN_IAC; TN_DO; o] e =
    (emit (ProcessTelnetCommand [TN_IAC; TN_DO; o]) ;; processDO o) e
  /\ (doSupported o = true -> myOptionState e o = false ->
      processDO o e = (agreeToEnable o ;; enableSideEffect o) e
      /\ (exists rest,
            logOf (processDO o e) = SendRawData [TN_IAC; TN_WILL; o] :: rest)
      /\ myOptionState (engineAfter (processDO o e)) o = true
      /\ announcedState (engineAfter (processDO o e)) o = true)
  /\ (o <> OPT_TIMING_MARK -> myOptionState e o = true ->
      processDO o e = enableSideEffect o e)
  /\ enableSideEffect OPT_NAWS e =
       sendRawData (framed OPT_NAWS (nawsParams (ws_x (current e)) (ws_y (current e)))) e
  /\ enableSideEffect OPT_CHARSET e =
       sendRawData (framed OPT_CHARSET
                      (TNSB_REQUEST ::
                       flat_map (fun characterSet => delimeter ++ characterSet)
                                (supportedEncodings C (textCodec e)))) e
  /\ enableSideEffect OPT_GMCP e = (Ret tt, e, [OnGmcpEnabled]).
Proof.
  split; [apply command_DO|]. split; [|split; [|repeat split]].
  - intros Sup Off. rewrite (processDO_newly_enabled o e Sup Off).
    split; [reflexivity|].
    set (e1 := engineAfter (agreeToEnable o e)).
    assert (H1 : myOptionState e1 o = true /\ announcedState e1 o = true).
    { unfold e1, engineAfter, agreeToEnable, sendTelnetOption, sendRawData,
        bind, modify, emit, assign; cbn -[Byte.eqb].
      rewrite (Byte.byte_dec_lb (eq_refl o)). split; reflexivity. }
    pose proof (enableSideEffect_keeps_tables o o e1 H1) as H2.
    assert (Agree : agreeToEnable o e =
              (Ret tt, e1, [SendRawData [TN_IAC; TN_WILL; o]])) by reflexivity.
    assert (Both : (agreeToEnable o ;; enableSideEffect o) e =
              (statusOf (enableSideEffect o e1), engineAfter (enableSideEffect o e1),
               SendRawData [TN_IAC; TN_WILL; o] :: logOf (enableSideEffect o e1))).
    { unfold bind at 1. rewrite Agree.
      destruct (enableSideEffect o e1) as [[s e2] log2]. reflexivity. }
    rewrite Both. unfold logOf at 1. unfold engineAfter at 1 3. cbn [fst snd].
    split; [eexists; reflexivity | exact H2].
  - apply processDO_already_enabled.
  - rewrite <- sendWindowSizeChanged_framed.
    unfold enableSideEffect, bind, get. cbn -[sendWindowSizeChanged].
    match goal with
    | |- context [sendWindowSizeChanged ?x ?y ?e] =>
        destruct (sendWindowSizeChanged x y e) as [[? ?] ?]
    end; reflexivity.
  - rewrite <- sendCharsetRequest_framed.
    unfold enableSideEffect, bind, get. cbn -[sendCharsetRequest].
    match goal with
    | |- context [sendCharsetRequest ?l ?e] =>
        destruct (sendCharsetRequest l e) as [[? ?] ?]
    end; reflexivity.
Qed.

(** ** Go-ahead only segments the clean bytes *)

Section Quiet.
Context {A B : Type}.

Lemma quiet_ret (a : A) : quiet (C := C) (ret a).
Proof. intros e; constructor. Qed.

Lemma quiet_get : quiet (C := C) get.
Proof. intros e; constructor. Qed.

Lemma quiet_modify f : quiet (C := C) (modify f).
Proof. intros e; constructor. Qed.

Lemma quiet_throw what : quiet (C := C) (throw (A := A) what).
Proof. intros e; constructor. Qed.

Lemma quiet_abort : quiet (C := C) (abort (A := A)).
Proof. intros e; constructor. Qed.

Lemma quiet_emit (ev : Event C) : isFlush ev = false -> quiet (emit ev).
Proof. intros H e. repeat constructor. exact H. Qed.

Lemma quiet_bind (m : M C A) (k : A -> M C B) :
  quiet m -> (forall a, quiet (k a)) -> quiet (bind m k).
Proof.
  intros Hm Hk e. specialize (Hm e). unfold bind, logOf in *.
  destruct (m e) as [[[a| | |] e1] log1]; cbn in *; try exact Hm.
  specialize (Hk a e1). unfold logOf in Hk.
  destruct (k a e1) as [[s e2] log2]; cbn in *.
  apply Forall_app; split; assumption.
Qed.

End Quiet.

Create HintDb quiet.

Ltac quiet_walk :=
  cbv zeta;
  repeat first
    [ solve [auto with quiet nocore]
    | apply quiet_ret
    | apply quiet_get
    | apply quiet_modify
    | apply quiet_throw
    | apply quiet_abort
    | apply quiet_emit; reflexivity
    | apply quiet_bind; [|intros ?]
    | match goal with
      | |- quiet (if ?b then _ else _) => destruct b
      | |- quiet (match ?x with _ => _ end) => destruct x
      end ].

Lemma processTelnetCommand_quiet (command : AppendBuffer) :
  quiet (processTelnetCommand (C := C) command).
Proof. unfold_negotiator. quiet_walk. Qed.

Lemma processTelnetSubnegotiation_quiet (payload : AppendBuffer) :
  quiet (processTelnetSubnegotiation (C := C) payload).
Proof. unfold_negotiator. quiet_walk. Qed.

#[local] Hint Resolve processTelnetCommand_quiet processTelnetSubnegotiation_quiet : quiet.

Lemma onReadInternal2_quiet cleanData c : quiet (onReadInternal2 (C := C) cleanData c).
Proof.
  unfold onReadInternal2, set_state_to, commandBuffer_append, commandBuffer_clear,
    subnegBuffer_append, subnegBuffer_clear.
  quiet_walk.
Qed.














(** ** Plain mode *)

Ltac solve_plain :=
  idtac;
  match goal with
  | H : plainMode _ |- _ =>
      destruct H as (? & ? & ?); unfold plainMode, assign; cbn -[Byte.eqb];
      repeat split; try assumption;
      match goal with
      | |- (if OPT_COMPRESS2 =? ?o then _ else _) = false =>
          let E := fresh "E" in
          destruct (OPT_COMPRESS2 =? o) eqn:E;
          [ first [reflexivity | apply Byte.byte_dec_bl in E; congruence]
          | assumption ]
      end
  end.

Lemma processWILL_plain (o : byte) :
  o <> OPT_COMPRESS2 -> preserves plainMode (processWILL (C := C) o).
Proof. intros Ho. unfold processWILL. unfold_senders. preserve_with solve_plain. Qed.

Lemma processWONT_plain (o : byte) : preserves plainMode (processWONT (C := C) o).
Proof. unfold processWONT. unfold_senders. preserve_with solve_plain. Qed.

Lemma processDO_plain (o : byte) : preserves plainMode (processDO (C := C) o).
Proof. unfold processDO. unfold_senders. preserve_with solve_plain. Qed.

Lemma processDONT_plain (o : byte) : preserves plainMode (processDONT (C := C) o).
Proof. unfold processDONT. unfold_senders. preserve_with solve_plain. Qed.

Lemma processTelnetCommand_plain (command : AppendBuffer) :
  (List.length command = 3 -> unsigned_at command 2 <> OPT_COMPRESS2) ->
  preserves plainMode (processTelnetCommand (C := C) command).
Proof.
  intros H. unfold processTelnetCommand.
  apply preserves_bind; [apply preserves_emit|]. intros _.
  destruct (Nat.eqb _ 0); [apply preserves_abort|].
  destruct (List.length command) as [|[|[|[|n]]]]; try apply preserves_ret.
  - unfold_senders. preserve_with solve_plain.
  - specialize (H eq_refl).
    pose proof (processWILL_plain _ H).
    pose proof (processWONT_plain (unsigned_at command 2)).
    pose proof (processDO_plain (unsigned_at command 2)).
    pose proof (processDONT_plain (unsigned_at command 2)).
    repeat match goal with
    | |- preserves _ (if ?b then _ else _) => destruct b
    end; first [assumption | apply preserves_ret].
Qed.

Lemma subnegCOMPRESS2_plain : preserves plainMode (subnegCOMPRESS2 (C := C)).
Proof.
  intros e (H1 & H2 & H3). unfold subnegCOMPRESS2, engineAfter.
  destruct (NO_ZLIB C); [repeat split; assumption|].
  unfold bind, get. rewrite H3. repeat split; assumption.
Qed.

#[local] Hint Resolve subnegCOMPRESS2_plain : preserves.

Lemma processTelnetSubnegotiation_plain (payload : AppendBuffer) :
  preserves plainMode (processTelnetSubnegotiation (C := C) payload).
Proof.
  unfold processTelnetSubnegotiation, subnegCHARSET, subnegGMCP, subnegNAWS.
  unfold_senders. preserve_with solve_plain.
Qed.

Lemma last_of_three (cb : AppendBuffer) c :
  List.length (cb ++ [c]) = 3 -> unsigned_at (cb ++ [c]) 2 = c.
Proof.
  rewrite length_app. cbn. intros H.
  destruct cb as [|a [|b [|d cb]]]; cbn in H; try discriminate H; [reflexivity|].
  lia.
Qed.

Lemma onReadInternal2_plain cleanData c :
  c <> OPT_COMPRESS2 -> preserves plainMode (onReadInternal2 (C := C) cleanData c).
Proof.
  intros Hc e HP.
  assert (Cmd : forall cb (x : Engine C), plainMode x ->
            plainMode (engineAfter (processTelnetCommand (cb ++ [c]) x))).
  { intros cb x Hx. apply processTelnetCommand_plain; [|exact Hx].
    intros L. rewrite (last_of_three cb c L). exact Hc. }
  assert (Sub : forall sb (x : Engine C), plainMode x ->
            plainMode (engineAfter (processTelnetSubnegotiation sb x))).
  { intros sb x Hx. apply processTelnetSubnegotiation_plain, Hx. }
  unfold engineAfter in *.
  unfold onReadInternal2, bind, get.
  destruct (state e); cbn -[Byte.eqb processTelnetCommand processTelnetSubnegotiation].
  all: repeat match goal with
       | |- context [if ?b then _ else _] => destruct b
       end.
  all: unfold bind, get, modify, ret, set_state_to, commandBuffer_append,
         commandBuffer_clear, subnegBuffer_append, subnegBuffer_clear;
       cbn -[Byte.eqb processTelnetCommand processTelnetSubnegotiation].
  all: try exact HP.
  all: match goal with
       | |- context [processTelnetCommand (?cb ++ [?c']) ?x] =>
           pose proof (Cmd cb x HP) as K;
           destruct (processTelnetCommand (cb ++ [c']) x) as [[[] ?] ?]
       | |- context [processTelnetSubnegotiation ?b ?x] =>
           pose proof (Sub b x HP) as K;
           destruct (processTelnetSubnegotiation b x) as [[[] ?] ?]
       end; exact K.
Qed.

Lemma flushOnGA_plain (detectGA : bool) cleanData :
  preserves plainMode (flushOnGA (C := C) detectGA cleanData).
Proof. unfold flushOnGA, sendToMapper. preserve_with solve_plain. Qed.

Lemma andThen_congr {A B} (m : Exit C A) (k1 k2 : A -> AppendBuffer -> Engine C -> Exit C B) :
  (forall a e log cd, m = (Ret a, e, log, cd) -> k1 a cd e = k2 a cd e) ->
  andThen m k1 = andThen m k2.
Proof.
  intros H. destruct m as [[[[a| | |] e] log] cd]; cbn; try reflexivity.
  rewrite (H a e log cd eq_refl). reflexivity.
Qed.

Lemma withBuffer_ret_keeps (P : Engine C -> Prop) (m : AppendBuffer -> M C AppendBuffer)
    cleanData e a e' log cd :
  preserves P (m cleanData) -> P e ->
  withBuffer m cleanData e = (Ret a, e', log, cd) -> P e'.
Proof.
  intros Hm He Heq. pose proof (Hm e He) as K. unfold withBuffer, engineAfter in *.
  destruct (m cleanData e) as [[[x| | |] e1] log1]; try discriminate Heq.
  injection Heq as _ <- _ _. exact K.
Qed.

(** In plain mode, on input without the COMPRESS2 option byte, the reader
    never reaches the inflater: each byte goes through the state machine and
    the go-ahead check, and the loop ends after one iteration per byte. *)
Lemma readLoop_plain (detectGA : bool) (data : QByteArray) : forall fuel cleanData e,
  plainMode e -> ~ In OPT_COMPRESS2 data -> List.length data <= fuel ->
  readLoop detectGA fuel data cleanData e = feedInflated detectGA data cleanData e.
Proof.
  induction data as [|c data IH]; intros fuel cleanData e HP Hin Hfuel.
  - destruct fuel; reflexivity.
  - destruct fuel as [|fuel]; [cbn in Hfuel; lia|].
    cbn [readLoop feedInflated].
    destruct HP as (H1 & H2 & H3). rewrite H1.
    assert (HP : plainMode e) by (repeat split; assumption).
    assert (Hc : c <> OPT_COMPRESS2) by (intros ->; apply Hin; left; reflexivity).
    apply andThen_congr. intros [] e1 log1 cd1 Step.
    pose proof (withBuffer_ret_keeps plainMode _ _ _ _ _ _ _
                  (onReadInternal2_plain cleanData c Hc) HP Step) as HP1.
    destruct HP1 as (K1 & K2 & K3). rewrite K2.
    apply andThen_congr. intros [] e2 log2 cd2 Flush.
    apply IH.
    + apply (withBuffer_ret_keeps plainMode _ _ _ _ _ _ _
               (flushOnGA_plain detectGA cd1)
               (conj K1 (conj K2 K3)) Flush).
    + intros Hd. apply Hin. right. exact Hd.
    + cbn in Hfuel. lia.
Qed.

(** *** The plain reader returns (or aborts) *)

Section Settles.
Context {A B : Type}.

Lemma settles_ret (a : A) : settles (C := C) (ret a).
Proof. intros e; left; eexists; reflexivity. Qed.

Lemma settles_get : settles (C := C) get.
Proof. intros e; left; eexists; reflexivity. Qed.

Lemma settles_modify f : settles (C := C) (modify f).
Proof. intros e; left; eexists; reflexivity. Qed.

Lemma settles_emit ev : settles (C := C) (emit ev).
Proof. intros e; left; eexists; reflexivity. Qed.

Lemma settles_abort : settles (C := C) (abort (A := A)).
Proof. intros e; right; reflexivity. Qed.

Lemma settles_bind (m : M C A) (k : A -> M C B) :
  settles m -> (forall a, settles (k a)) -> settles (bind m k).
Proof.
  intros Hm Hk e. specialize (Hm e). unfold bind, statusOf in *.
  destruct (m e) as [[[a| | |] e1] log1]; cbn in *.
  - specialize (Hk a e1). unfold statusOf in Hk.
    destruct (k a e1) as [[s e2] log2]; exact Hk.
  - destruct Hm as [[a Hm]|Hm]; discriminate Hm.
  - right; reflexivity.
  - destruct Hm as [[a Hm]|Hm]; discriminate Hm.
Qed.


End Settles.


Create HintDb settles.

Ltac settles_walk :=
  cbv zeta;
  repeat first
    [ solve [auto with settles nocore]
    | apply settles_ret
    | apply settles_get
    | apply settles_modify
    | apply settles_emit
    | apply settles_abort
    | apply settles_bind; [|intros ?]
    | match goal with
      | |- settles (if ?b then _ else _) => destruct b
      | |- settles (match ?x with _ => _ end) => destruct x
      end ].

Lemma processTelnetCommand_settles (command : AppendBuffer) :
  settles (processTelnetCommand (C := C) command).
Proof. unfold_negotiator. settles_walk. Qed.

Lemma processTelnetSubnegotiation_settles (payload : AppendBuffer) :
  settles (processTelnetSubnegotiation (C := C) payload).
Proof. unfold_negotiator. settles_walk. Qed.

#[local] Hint Resolve processTelnetCommand_settles processTelnetSubnegotiation_settles
  : settles.

Lemma onReadInternal2_settles cleanData c : settles (onReadInternal2 (C := C) cleanData c).
Proof.
  unfold onReadInternal2, set_state_to, commandBuffer_append, commandBuffer_clear,
    subnegBuffer_append, subnegBuffer_clear.
  settles_walk.
Qed.



(** ** Go-ahead segmentation and the end of compression *)






(** ** CHARSET REQUEST *)

Lemma plainMode_reset (e0 : Engine C) : plainMode (engineAfter (reset e0)).
Proof. repeat split. Qed.

Lemma charset_request_needs_my_option (fuel : nat) (e0 : Engine C) :
  List.length (willCharset ++ charsetRequestUTF8) <= fuel ->
  let r := onReadInternal fuel (willCharset ++ charsetRequestUTF8)
             (engineAfter (reset e0)) in
  statusOf r = Ret tt
  /\ rawDataOf (logOf r) = [[xff; xfd; x2a]]
  /\ textCodec (engineAfter r) = textCodec e0
  /\ myOptionState (engineAfter r) OPT_CHARSET = false
  /\ hisOptionState (engineAfter r) OPT_CHARSET = true.
Proof.
  intros Hfuel r. unfold r, onReadInternal, onReadWith.
  cbn [app willCharset charsetRequestUTF8].
  rewrite readLoop_plain; [|apply plainMode_reset| |exact Hfuel].
  2:{ cbn. intros H. repeat (destruct H as [H|H]; try discriminate H). exact H. }
  vm_compute. repeat split.
Qed.


Lemma subnegotiation_charset_request e :
  supports C (textCodec e) UTF_8 = true ->
  myOptionState e OPT_CHARSET = true ->
  processTelnetSubnegotiation [x2a; x01; x3b; x55; x54; x46; x2d; x38] e =
    (Ret tt,
     set_sentBytes (sentBytes e + 11)
       (set_textCodec (setEncodingForName C (textCodec e) UTF_8) e),
     [ProcessTelnetSubnegotiation [x2a; x01; x3b; x55; x54; x46; x2d; x38];
      SendRawData charsetAcceptedUTF8]).
Proof.
  intros Sup My. change UTF_8 with [x55; x54; x46; x2d; x38] in *.
  unfold processTelnetSubnegotiation, subnegCHARSET, bind, get, emit.
  cbn -[supports setEncodingForName Z.add]. rewrite My.
  cbn -[supports setEncodingForName Z.add]. rewrite Sup. reflexivity.
Qed.

Lemma andThen_assoc {A B D} (m : Exit C A)
    (k1 : A -> AppendBuffer -> Engine C -> Exit C B)
    (k2 : B -> AppendBuffer -> Engine C -> Exit C D) :
  andThen (andThen m k1) k2 = andThen m (fun a cd e => andThen (k1 a cd e) k2).
Proof.
  destruct m as [[[[a| | |] e] log] cd]; cbn; try reflexivity.
  destruct (k1 a cd e) as [[[[b| | |] e1] log1] cd1]; cbn; try reflexivity.
  destruct (k2 b cd1 e1) as [[[s e2] log2] cd2]. now rewrite app_assoc.
Qed.

Lemma andThen_ret {A B} (a : A) e cleanData
    (k : A -> AppendBuffer -> Engine C -> Exit C B) :
  andThen (Ret a, e, [], cleanData) k = k a cleanData e.
Proof. cbn. destruct (k a cleanData e) as [[[s e2] log2] cd2]. reflexivity. Qed.

Lemma feedInflated_app (detectGA : bool) (a b : list byte) : forall cleanData e,
  feedInflated detectGA (a ++ b) cleanData e =
  andThen (feedInflated detectGA a cleanData e)
          (fun _ cd e => feedInflated detectGA b cd e).
Proof.
  induction a as [|c a IH]; intros cleanData e.
  - cbn [app feedInflated]. now rewrite andThen_ret.
  - cbn [app feedInflated]. rewrite andThen_assoc.
    apply andThen_congr. intros [] e1 log1 cd1 _.
    rewrite andThen_assoc. apply andThen_congr. intros [] e2 log2 cd2 _.
    apply IH.
Qed.

(** The end of a subnegotiation, [IAC SE], in the reader. *)
Lemma feed_subnegotiation_end (detectGA : bool) cleanData e e2 log2 :
  state e = SUBNEG_IAC ->
  processTelnetSubnegotiation (subnegBuffer e) (set_state NORMAL e) = (Ret tt, e2, log2) ->
  recvdGA e2 = false ->
  feedInflated detectGA [TN_SE] cleanData e =
    (Ret tt, set_subnegBuffer [] (set_commandBuffer [] e2), log2, cleanData).
Proof.
  intros St H Ga.
  assert (Step : onReadInternal2 cleanData TN_SE e =
                 (Ret cleanData, set_subnegBuffer [] (set_commandBuffer [] e2), log2)).
  { unfold onReadInternal2, bind, get. rewrite St.
    cbn -[processTelnetSubnegotiation].
    unfold set_state_to, commandBuffer_clear, subnegBuffer_clear, bind, get, modify, ret.
    rewrite H. cbn. rewrite !app_nil_r. reflexivity. }
  assert (Flush : flushOnGA detectGA cleanData (set_subnegBuffer [] (set_commandBuffer [] e2))
                  = (Ret cleanData, set_subnegBuffer [] (set_commandBuffer [] e2), [])).
  { unfold flushOnGA, bind, get, ret. cbn. rewrite Ga. reflexivity. }
  cbn [feedInflated]. unfold withBuffer. rewrite Step. cbn [andThen].
  rewrite Flush. cbn. rewrite !app_nil_r. reflexivity.
Qed.

Lemma feed_charset_request_head e :
  state e = NORMAL -> subnegBuffer e = [] -> recvdGA e = false ->
  feedInflated true [xff; xfa; x2a; x01; x3b; x55; x54; x46; x2d; x38; xff] [] e =
    (Ret tt,
     set_commandBuffer [TN_IAC]
       (set_state SUBNEG_IAC
          (set_subnegBuffer [x2a; x01; x3b; x55; x54; x46; x2d; x38] e)),
     [], []).
Proof.
  intros St Sb Ga. destruct e; cbn in St, Sb, Ga; subst.
  vm_compute. reflexivity.
Qed.

Lemma charset_request_accepted (fuel : nat) (e : Engine C) :
  supports C (textCodec e) UTF_8 = true ->
  myOptionState e OPT_CHARSET = true ->
  state e = NORMAL -> subnegBuffer e = [] -> recvdGA e = false -> plainMode e ->
  List.length charsetRequestUTF8 <= fuel ->
  let r := onReadInternal fuel charsetRequestUTF8 e in
  statusOf r = Ret tt
  /\ rawDataOf (logOf r) = [charsetAcceptedUTF8]
  /\ textCodec (engineAfter r) = setEncodingForName C (textCodec e) UTF_8.
Proof.
  intros Sup My St Sb Ga Plain Hfuel r. unfold r, onReadInternal, onReadWith.
  rewrite readLoop_plain; [|exact Plain| |exact Hfuel].
  2:{ cbn. intros H. repeat (destruct H as [H|H]; try discriminate H). exact H. }
  change charsetRequestUTF8
    with ([xff; xfa; x2a; x01; x3b; x55; x54; x46; x2d; x38; xff] ++ [TN_SE]).
  rewrite feedInflated_app, (feed_charset_request_head e St Sb Ga), andThen_ret.
  cbv beta.
  set (e11 := set_commandBuffer [TN_IAC]
                 (set_state SUBNEG_IAC
                    (set_subnegBuffer [x2a; x01; x3b; x55; x54; x46; x2d; x38] e))).
  rewrite (feed_subnegotiation_end true [] e11 _ _ eq_refl
             (subnegotiation_charset_request (set_state NORMAL e11) Sup My) Ga).
  repeat split.
Qed.

(** C4, as the code has it. From the engine as constructed, the input
    [IAC WILL CHARSET] followed by [IAC SB CHARSET REQUEST ";" "UTF-8" IAC
    SE] makes the engine send [IAC DO CHARSET] and nothing else: the
    CHARSET handler acts only when [myOptionState[OPT_CHARSET]] is set,
    which the peer's WILL does not do, so the request is dropped and the
    text codec is left as it was. When [myOptionState[OPT_CHARSET]] is set
    (as it is after the peer's [IAC DO CHARSET]) and the codec supports
    "UTF-8", the same request is answered by [IAC SB CHARSET ACCEPTED
    "UTF-8" IAC SE] and the codec is set to "UTF-8". *)
Theorem charset_request_answered_when_my_option_set (fuel : nat) (e0 e : Engine C) :
  (List.length (willCharset ++ charsetRequestUTF8) <= fuel ->
   let r := onReadInternal fuel (willCharset ++ charsetRequestUTF8)
              (engineAfter (reset e0)) in
   statusOf r = Ret tt
   /\ rawDataOf (logOf r) = [[xff; xfd; x2a]]
   /\ textCodec (engineAfter r) = textCodec e0
   /\ myOptionState (engineAfter r) OPT_CHARSET = false
   /\ hisOptionState (engineAfter r) OPT_CHARSET = true)
  /\ (supports C (textCodec e) UTF_8 = true ->
      myOptionState e OPT_CHARSET = true ->
      state e = NORMAL -> subnegBuffer e = [] -> recvdGA e = false -> plainMode e ->
      List.length charsetRequestUTF8 <= fuel ->
      let r := onReadInternal fuel charsetRequestUTF8 e in
      statusOf r = Ret tt
      /\ rawDataOf (logOf r) = [charsetAcceptedUTF8]
      /\ textCodec (engineAfter r) = setEncodingForName C (textCodec e) UTF_8).
Proof.
  split.
  - apply charset_request_needs_my_option.
  - apply charset_request_accepted.
Qed.

(** * Further properties *)

(** ** Reset *)

(** X1. [reset()] puts the engine in its initial state (all four option
    tables false, state machine in [NORMAL] with empty buffers, terminal
    type back to the default, no GMCP module known, counters and flags
    cleared, compression off), calls no hook, keeps what it does not own
    (codec, stream, window size), and a second [reset()] changes nothing. *)
Theorem reset_is_idempotent e :
  reset e = (Ret tt, engineAfter (reset e), [])
  /\ engineAfter (reset (engineAfter (reset e))) = engineAfter (reset e)
  /\ (forall o, myOptionState (engineAfter (reset e)) o = false
                /\ hisOptionState (engineAfter (reset e)) o = false
                /\ announcedState (engineAfter (reset e)) o = false
                /\ heAnnouncedState (engineAfter (reset e)) o = false)
  /\ state (engineAfter (reset e)) = NORMAL
  /\ commandBuffer (engineAfter (reset e)) = []
  /\ subnegBuffer (engineAfter (reset e)) = []
  /\ termType (engineAfter (reset e)) = m_defaultTermType e
  /\ sentBytes (engineAfter (reset e)) = 0%Z
  /\ recvdGA (engineAfter (reset e)) = false
  /\ plainMode (engineAfter (reset e))
  /\ modules (gmcp (engineAfter (reset e))) = []
  /\ (forall t, isGmcpModuleEnabled t (engineAfter (reset e)) = false)
  /\ textCodec (engineAfter (reset e)) = textCodec e
  /\ stream (engineAfter (reset e)) = stream e
  /\ current (engineAfter (reset e)) = current e.
Proof.
  (split; [reflexivity|]).
  (split; [vm_compute; reflexivity|]).
  split.
  { intros o. cbn -[Byte.eqb]. unfold assign, all_false.
    destruct (o =? OPT_COMPRESS2); repeat split. }
  (repeat split).
Qed.

(** ** Subnegotiations through the byte state machine *)

Lemma bind_assoc {A B D} (m : M C A) (f : A -> M C B) (g : B -> M C D) e :
  bind (bind m f) g e = bind m (fun a => bind (f a) g) e.
Proof.
  unfold bind. destruct (m e) as [[[a| | |] e1] log1]; try reflexivity.
  destruct (f a e1) as [[[b| | |] e2] log2]; try reflexivity.
  destruct (g b e2) as [[s e3] log3]. now rewrite app_assoc.
Qed.

Lemma bind_congr {A B} (m : M C A) (f g : A -> M C B) e :
  (forall a e1, f a e1 = g a e1) -> bind m f e = bind m g e.
Proof.
  intros H. unfold bind. destruct (m e) as [[[a| | |] e1] log1]; try reflexivity.
  now rewrite H.
Qed.

Lemma runFSM_app (a b : list byte) : forall cleanData e,
  runFSM (a ++ b) cleanData e = bind (runFSM a cleanData) (fun cd => runFSM b cd) e.
Proof.
  induction a as [|c a IH]; intros cleanData e.
  - cbn [app runFSM]. unfold bind, ret.
    destruct (runFSM b cleanData e) as [[s e2] log2]. reflexivity.
  - cbn [app runFSM]. rewrite bind_assoc. apply bind_congr. intros cd e1. apply IH.
Qed.

(** Escaped parameters, read inside a subnegotiation, arrive in the
    subnegotiation buffer as they were before escaping. *)
Lemma runFSM_subneg_params (params : QByteArray) : forall cleanData e,
  state e = SUBNEG ->
  runFSM (escapeIAC params) cleanData e =
    (Ret cleanData,
     (if containsIAC params
      then set_commandBuffer [] (set_subnegBuffer (subnegBuffer e ++ params) e)
      else set_subnegBuffer (subnegBuffer e ++ params) e),
     []).
Proof.
  induction params as [|b params IH]; intros cleanData e St.
  - cbn. rewrite app_nil_r. destruct e; reflexivity.
  - cbn -[Byte.eqb runFSM onReadInternal2].
    destruct (b =? TN_IAC) eqn:E.
    + apply Byte.byte_dec_bl in E; subst b.
      cbn [app runFSM orb]. unfold bind at 1.
      unfold onReadInternal2 at 1. unfold bind at 1, get at 1. rewrite St.
      cbn -[runFSM onReadInternal2 containsIAC].
      unfold bind at 1. unfold onReadInternal2 at 1.
      cbn -[runFSM onReadInternal2 containsIAC].
      unfold set_state_to, commandBuffer_append, commandBuffer_clear, subnegBuffer_append,
        modify, bind, ret.
      cbn -[runFSM onReadInternal2 containsIAC].
      match goal with
      | |- context [runFSM _ _ ?x] =>
          assert (Same : x = set_commandBuffer []
                               (set_subnegBuffer (subnegBuffer e ++ [TN_IAC]) e))
            by (destruct e; cbn in *; subst; reflexivity);
          rewrite Same
      end.
      rewrite IH by exact St. cbn [subnegBuffer set_commandBuffer set_subnegBuffer].
      rewrite <- app_assoc. cbn [app]. unfold containsIAC.
      destruct (existsb _ params); reflexivity.
    + cbn [app runFSM orb]. unfold bind at 1.
      unfold onReadInternal2 at 1. unfold bind at 1, get at 1. rewrite St, E.
      unfold subnegBuffer_append, modify, bind, ret.
      cbn -[runFSM onReadInternal2 containsIAC].
      rewrite IH by exact St. cbn [subnegBuffer set_subnegBuffer].
      rewrite <- app_assoc. cbn [app]. unfold containsIAC.
      destruct (existsb _ params); reflexivity.
Qed.

Lemma runFSM_subneg_begin (opt : byte) cleanData e :
  opt <> TN_IAC -> state e = NORMAL ->
  runFSM [TN_IAC; TN_SB; opt] cleanData e =
    (Ret cleanData,
     set_subnegBuffer (subnegBuffer e ++ [opt])
       (set_commandBuffer [] (set_state SUBNEG e)), []).
Proof.
  intros Ho St. apply eqb_neq in Ho.
  cbn [runFSM]. unfold bind at 1. unfold onReadInternal2 at 1.
  unfold bind at 1, get at 1. rewrite St.
  cbn -[Byte.eqb runFSM onReadInternal2].
  unfold bind at 1. unfold onReadInternal2 at 1.
  cbn -[Byte.eqb runFSM onReadInternal2].
  unfold bind at 1. unfold onReadInternal2 at 1.
  cbn -[Byte.eqb runFSM onReadInternal2]. rewrite Ho.
  destruct e; reflexivity.
Qed.

Lemma runFSM_subneg_end cleanData e :
  state e = SUBNEG ->
  runFSM [TN_IAC; TN_SE] cleanData e =
    (processTelnetSubnegotiation (subnegBuffer e) ;;
     modify (set_commandBuffer []) ;; modify (set_subnegBuffer []) ;; ret cleanData)
      (set_commandBuffer (commandBuffer e ++ [TN_IAC]) (set_state NORMAL e)).
Proof.
  intros St. destruct e; cbn in St; subst.
  cbn [runFSM]. unfold bind at 1. unfold onReadInternal2 at 1.
  unfold bind at 1, get at 1.
  cbn -[Byte.eqb runFSM onReadInternal2 processTelnetSubnegotiation].
  unfold bind at 1. unfold onReadInternal2 at 1.
  cbn -[runFSM onReadInternal2 processTelnetSubnegotiation].
  unfold set_state_to, commandBuffer_clear, subnegBuffer_clear, bind, get, modify, ret,
    set_commandBuffer, set_subnegBuffer, set_state.
  cbn -[processTelnetSubnegotiation].
  match goal with
  | |- context [processTelnetSubnegotiation ?p ?x] =>
      destruct (processTelnetSubnegotiation p x) as [[[[]| | |] e2] log2]
  end; cbn -[processTelnetSubnegotiation]; rewrite ?app_nil_r; reflexivity.
Qed.

Lemma bind_modify {A} (f : Engine C -> Engine C) (m : M C A) e :
  (modify f ;; m) e = m (f e).
Proof.
  unfold bind, modify. destruct (m (f e)) as [[s e2] log2]. reflexivity.
Qed.

(** The byte state machine on a framed subnegotiation. *)
Lemma runFSM_framed (opt : byte) (params : QByteArray)
    cleanData e :
  opt <> TN_IAC -> state e = NORMAL -> subnegBuffer e = [] ->
  runFSM (framed opt params) cleanData e =
    (modify (set_subnegBuffer (opt :: params)) ;;
     modify (set_commandBuffer [TN_IAC]) ;;
     processTelnetSubnegotiation (opt :: params) ;;
     modify (set_commandBuffer []) ;; modify (set_subnegBuffer []) ;;
     ret cleanData) e.
Proof.
  intros Ho St Sb. unfold framed.
  rewrite runFSM_app. unfold bind at 1.
  rewrite (runFSM_subneg_begin opt cleanData e Ho St).
  rewrite runFSM_app. unfold bind at 1.
  rewrite runFSM_subneg_params by reflexivity.
  assert (Tail : forall x : Engine C, state x = SUBNEG -> commandBuffer x = [] ->
            subnegBuffer x = opt :: params ->
            set_commandBuffer [TN_IAC] (set_state NORMAL x) =
              set_commandBuffer [TN_IAC] (set_subnegBuffer (opt :: params) e) ->
            runFSM [TN_IAC; TN_SE] cleanData x =
            (modify (set_subnegBuffer (opt :: params)) ;;
             modify (set_commandBuffer [TN_IAC]) ;;
             processTelnetSubnegotiation (opt :: params) ;;
             modify (set_commandBuffer []) ;; modify (set_subnegBuffer []) ;;
             ret cleanData) e).
  { intros x Sx Cx Bx Ex. rewrite (runFSM_subneg_end cleanData x Sx), Cx, Bx.
    rewrite 2 bind_modify.
    cbn [app]. rewrite Ex. reflexivity. }
  rewrite Sb. cbn [app].
  match goal with
  | |- context [runFSM _ _ ?x] => rewrite (Tail x)
  end.
  - destruct (bind _ _ e) as [[s e2] log2]; reflexivity.
  - destruct (containsIAC params); reflexivity.
  - destruct (containsIAC params); reflexivity.
  - destruct (containsIAC params); reflexivity.
  - destruct e; cbn in St; subst; destruct (containsIAC params); reflexivity.
Qed.

(** X2. A subnegotiation as the framing routine writes it
    ([IAC SB opt], the parameters with every 0xFF doubled, [IAC SE]), read
    by the byte state machine in [NORMAL] with an empty subnegotiation
    buffer, hands the handler exactly the option byte followed by the
    parameters as they were before escaping, adds nothing to the clean
    buffer, and leaves the machine in [NORMAL] with both buffers empty. *)
Theorem framed_subnegotiation_reaches_handler (opt : byte) (params : QByteArray)
    cleanData e :
  opt <> TN_IAC -> state e = NORMAL -> subnegBuffer e = [] ->
  runFSM (framed opt params) cleanData e =
    (modify (set_subnegBuffer (opt :: params)) ;;
     modify (set_commandBuffer [TN_IAC]) ;;
     processTelnetSubnegotiation (opt :: params) ;;
     modify (set_commandBuffer []) ;; modify (set_subnegBuffer []) ;;
     ret cleanData) e.
Proof. apply runFSM_framed. Qed.

(** What the receiver does with a framed subnegotiation when the handler
    returns. *)
Lemma runFSM_framed_handled (opt : byte) (params : QByteArray) cleanData e e' log :
  opt <> TN_IAC -> state e = NORMAL -> subnegBuffer e = [] ->
  processTelnetSubnegotiation (opt :: params)
    (set_commandBuffer [TN_IAC] (set_subnegBuffer (opt :: params) e)) = (Ret tt, e', log) ->
  runFSM (framed opt params) cleanData e =
    (Ret cleanData, set_subnegBuffer [] (set_commandBuffer [] e'), log).
Proof.
  intros Ho St Sb Handler.
  rewrite (runFSM_framed opt params cleanData e Ho St Sb).
  rewrite 2 bind_modify. unfold bind at 1. rewrite Handler.
  unfold bind, modify, ret. cbn [app]. rewrite app_nil_r. reflexivity.
Qed.

Lemma uint8_value (z : Z) : Z.of_N (Byte.to_N (to_uint8 z)) = (z mod 256)%Z.
Proof.
  unfold to_uint8.
  destruct (Byte.of_N (Z.to_N (z mod 256))) as [b|] eqn:E.
  - apply Byte.to_of_N in E. rewrite E. apply Z2N.id.
    apply Z.mod_pos_bound. lia.
  - apply Byte.of_N_None_iff in E.
    pose proof (Z.mod_pos_bound z 256 ltac:(lia)). lia.
Qed.

Lemma two_bytes_value (n : Z) :
  (0 <= n <= 65535)%Z ->
  ((Z.shiftl (Z.of_N (Byte.to_N (to_uint8 (Z.shiftr n 8)))) 8
    + Z.of_N (Byte.to_N (to_uint8 n))) mod 65536)%Z = n.
Proof.
  intros Range. rewrite !uint8_value, Z.shiftr_div_pow2, Z.shiftl_mul_pow2 by lia.
  change (2 ^ 8)%Z with 256%Z.
  assert (0 <= n / 256 < 256)%Z as Hi.
  { split; [apply Z.div_pos; lia | apply Z.div_lt_upper_bound; lia]. }
  rewrite (Z.mod_small (n / 256) 256) by exact Hi.
  pose proof (Z.div_mod n 256 ltac:(lia)) as Split.
  rewrite Z.mod_small; lia.
Qed.

Lemma clamp_range (n lo hi : Z) : (lo <= hi)%Z -> (lo <= clamp n lo hi <= hi)%Z.
Proof.
  intros Le. unfold clamp.
  destruct (n <? lo)%Z eqn:A; [lia|].
  destruct (hi <? n)%Z eqn:B; lia.
Qed.

(** X3. The window size survives the wire: what [sendWindowSizeChanged]
    sends for any two integers, read by an engine in [NORMAL] whose NAWS
    option is on, reaches [receiveWindowSize] as the two integers clamped to
    0..65535, whether or not a byte of the size is 0xFF; the clean buffer
    gets nothing and the receiver is left as it was, with empty buffers. *)
Theorem window_size_round_trip (x y : Z) (sender receiver : Engine C) cleanData :
  state receiver = NORMAL -> subnegBuffer receiver = [] ->
  myOptionState receiver OPT_NAWS = true ->
  exists wire,
    sendWindowSizeChanged x y sender =
      (Ret tt, set_sentBytes (sentBytes sender + Z.of_nat (List.length wire)) sender,
       [SendRawData wire])
    /\ runFSM wire cleanData receiver =
         (Ret cleanData, set_commandBuffer [] receiver,
          [ProcessTelnetSubnegotiation (OPT_NAWS :: nawsParams x y);
           ReceiveWindowSize (clamp x 0 65535) (clamp y 0 65535)]).
Proof.
  intros St Sb My. exists (framed OPT_NAWS (nawsParams x y)). split.
  - rewrite sendWindowSizeChanged_framed. reflexivity.
  - rewrite (runFSM_framed_handled OPT_NAWS (nawsParams x y) cleanData receiver
               (set_commandBuffer [TN_IAC] (set_subnegBuffer (OPT_NAWS :: nawsParams x y) receiver))
               [ProcessTelnetSubnegotiation (OPT_NAWS :: nawsParams x y);
                ReceiveWindowSize (clamp x 0 65535) (clamp y 0 65535)]
               ltac:(discriminate) St Sb).
    + destruct receiver; cbn in Sb; subst; reflexivity.
    + unfold processTelnetSubnegotiation, subnegNAWS, receiveWindowSize, nawsParams,
        bind, get, emit.
      cbn -[to_uint8 clamp Z.shiftl Z.shiftr Z.modulo Z.add].
      replace (myOptionState _ OPT_NAWS) with true
        by (symmetry; destruct receiver; exact My).
      rewrite !two_bytes_value by (apply clamp_range; lia).
      reflexivity.
Qed.

(** X4. The terminal-type exchange between two engines in [NORMAL] that
    both have the TERMINAL-TYPE option on: the request one sends makes the
    other answer with its terminal type, any bytes, and the answer read by
    the first reaches [receiveTerminalType] as exactly that terminal
    type. *)
Theorem terminal_type_exchange (asker answerer : Engine C) cleanData cleanData' :
  state asker = NORMAL -> subnegBuffer asker = [] ->
  myOptionState asker OPT_TERMINAL_TYPE = true ->
  state answerer = NORMAL -> subnegBuffer answerer = [] ->
  myOptionState answerer OPT_TERMINAL_TYPE = true ->
  exists request answer asker' answerer',
    sendTerminalTypeRequest asker = (Ret tt, asker', [SendRawData request])
    /\ runFSM request cleanData' answerer =
         (Ret cleanData', answerer',
          [ProcessTelnetSubnegotiation [OPT_TERMINAL_TYPE; TNSB_SEND];
           SendRawData answer])
    /\ runFSM answer cleanData asker' =
         (Ret cleanData, set_commandBuffer [] asker',
          [ProcessTelnetSubnegotiation (OPT_TERMINAL_TYPE :: TNSB_IS :: termType answerer);
           ReceiveTerminalType (termType answerer)]).
Proof.
  intros St Sb My St' Sb' My'.
  exists (framed OPT_TERMINAL_TYPE [TNSB_SEND]),
         (framed OPT_TERMINAL_TYPE (TNSB_IS :: termType answerer)).
  eexists.
  exists (set_commandBuffer []
            (set_sentBytes
               (sentBytes answerer
                + Z.of_nat (List.length (framed OPT_TERMINAL_TYPE (TNSB_IS :: termType answerer))))
               answerer)).
  split; [|split].
  - rewrite sendTerminalTypeRequest_framed. reflexivity.
  - rewrite (runFSM_framed_handled OPT_TERMINAL_TYPE [TNSB_SEND] cleanData' answerer
               (set_sentBytes
                  (sentBytes answerer
                   + Z.of_nat (List.length (framed OPT_TERMINAL_TYPE (TNSB_IS :: termType answerer))))
                  (set_commandBuffer [TN_IAC]
                     (set_subnegBuffer [OPT_TERMINAL_TYPE; TNSB_SEND] answerer)))
               [ProcessTelnetSubnegotiation [OPT_TERMINAL_TYPE; TNSB_SEND];
                SendRawData (framed OPT_TERMINAL_TYPE (TNSB_IS :: termType answerer))]
               ltac:(discriminate) St' Sb').
    + destruct answerer; cbn in Sb'; subst; reflexivity.
    + destruct answerer; cbn in My'.
      unfold processTelnetSubnegotiation, bind, get, emit.
      cbn -[sendTerminalType]. rewrite My'.
      rewrite sendTerminalType_framed. reflexivity.
  - rewrite (runFSM_framed_handled OPT_TERMINAL_TYPE (TNSB_IS :: termType answerer) cleanData _
               (set_commandBuffer [TN_IAC]
                  (set_subnegBuffer (OPT_TERMINAL_TYPE :: TNSB_IS :: termType answerer)
                     (set_sentBytes (sentBytes asker
                        + Z.of_nat (List.length (framed OPT_TERMINAL_TYPE [TNSB_SEND]))) asker)))
               [ProcessTelnetSubnegotiation (OPT_TERMINAL_TYPE :: TNSB_IS :: termType answerer);
                ReceiveTerminalType (termType answerer)]
               ltac:(discriminate)).
    + destruct asker; cbn in Sb; subst; reflexivity.
    + destruct asker; exact St.
    + destruct asker; exact Sb.
    + unfold processTelnetSubnegotiation, receiveTerminalType, bind, get, emit.
      cbn -[sendTerminalType].
      replace (myOptionState _ OPT_TERMINAL_TYPE) with true
        by (symmetry; destruct asker; exact My).
      reflexivity.
Qed.

(** X5. A GMCP message survives the wire when its raw bytes are not empty
    and parse back: what [sendGmcpMessage] sends, read by an engine in
    [NORMAL] whose GMCP option is on, reaches [receiveGmcpMessage] as the
    message the parser makes of the raw bytes, 0xFF bytes included. With
    empty raw bytes the subnegotiation is dropped as invalid. *)
Theorem gmcp_message_round_trip (msg msg' : GmcpMessage C) (sender receiver : Engine C)
    cleanData :
  state receiver = NORMAL -> subnegBuffer receiver = [] ->
  myOptionState receiver OPT_GMCP = true ->
  GmcpMessage_fromRawBytes C (GmcpMessage_toRawBytes C msg) = Some msg' ->
  exists wire sender',
    sendGmcpMessage msg sender = (Ret tt, sender', [SendRawData wire])
    /\ runFSM wire cleanData receiver =
         (Ret cleanData, set_commandBuffer [] receiver,
          ProcessTelnetSubnegotiation (OPT_GMCP :: GmcpMessage_toRawBytes C msg)
          :: (if Nat.eqb (List.length (GmcpMessage_toRawBytes C msg)) 0 then []
              else [ReceiveGmcpMessage msg'])).
Proof.
  intros St Sb My Parse.
  exists (framed OPT_GMCP (GmcpMessage_toRawBytes C msg)). eexists. split.
  - rewrite sendGmcpMessage_framed. reflexivity.
  - rewrite (runFSM_framed_handled OPT_GMCP (GmcpMessage_toRawBytes C msg) cleanData receiver
               (set_commandBuffer [TN_IAC]
                  (set_subnegBuffer (OPT_GMCP :: GmcpMessage_toRawBytes C msg) receiver))
               (ProcessTelnetSubnegotiation (OPT_GMCP :: GmcpMessage_toRawBytes C msg)
                :: (if Nat.eqb (List.length (GmcpMessage_toRawBytes C msg)) 0 then []
                    else [ReceiveGmcpMessage msg']))
               ltac:(discriminate) St Sb).
    + destruct receiver; cbn in Sb; subst; reflexivity.
    + unfold processTelnetSubnegotiation, subnegGMCP, receiveGmcpMessage, bind, get, emit.
      cbn -[Nat.leb].
      replace (myOptionState _ OPT_GMCP) with true
        by (symmetry; destruct receiver; exact My).
      unfold mid. cbn [skipn]. rewrite Parse.
      destruct (GmcpMessage_toRawBytes C msg); reflexivity.
Qed.

(** ** The option negotiator's frame *)




(** X7. A subnegotiation changes nothing but the codec, the sent-bytes
    counter and the flag that asks the reader to start inflating: no option
    table, no buffer, not the go-ahead flag, the terminal type, the GMCP
    modules or the window size, whatever the payload. *)
Theorem subnegotiation_touches_no_option (payload : AppendBuffer) e :
  besidesSubnegotiation (engineAfter (processTelnetSubnegotiation payload e))
  = besidesSubnegotiation e.
Proof.
  assert (Keeps : preserves (fun e' => besidesSubnegotiation e' = besidesSubnegotiation e)
                    (processTelnetSubnegotiation payload)).
  { unfold_negotiator. preserve_with ltac:(idtac; assumption). }
  apply Keeps. reflexivity.
Qed.

(** ** How the negotiator can end *)

Section Returns.
Context {A B : Type}.

Lemma returns_ret (a : A) : returns (C := C) (ret a).
Proof. intros e; eexists; reflexivity. Qed.

Lemma returns_get : returns (C := C) get.
Proof. intros e; eexists; reflexivity. Qed.

Lemma returns_modify f : returns (C := C) (modify f).
Proof. intros e; eexists; reflexivity. Qed.

Lemma returns_emit ev : returns (C := C) (emit ev).
Proof. intros e; eexists; reflexivity. Qed.

Lemma returns_bind (m : M C A) (k : A -> M C B) :
  returns m -> (forall a, returns (k a)) -> returns (bind m k).
Proof.
  intros Hm Hk e. destruct (Hm e) as [a Ha]. unfold bind, statusOf in *.
  destruct (m e) as [[s e1] log1]; cbn in Ha; subst s.
  destruct (Hk a e1) as [b Hb]. unfold statusOf in Hb.
  destruct (k a e1) as [[s e2] log2]; cbn in Hb; subst s.
  exists b; reflexivity.
Qed.

End Returns.

Ltac returns_walk :=
  cbv zeta;
  repeat first
    [ assumption
    | apply returns_ret
    | apply returns_get
    | apply returns_modify
    | apply returns_emit
    | apply returns_bind; [|intros ?]
    | match goal with
      | |- returns (if ?b then _ else _) => destruct b
      | |- returns (match ?x with _ => _ end) => destruct x
      end ].

Lemma bind_get {A} (k : Engine C -> M C A) e : (e0 <- get ;; k e0) e = k e e.
Proof.
  unfold bind, get. destruct (k e e) as [[s e2] log2]. reflexivity.
Qed.

Lemma processTelnetCommand_returns (command : AppendBuffer) :
  command <> [] -> returns (processTelnetCommand (C := C) command).
Proof.
  intros Ne. unfold_negotiator.
  destruct command as [|c0 command]; [contradiction|].
  cbn [List.length Nat.eqb].
  returns_walk.
Qed.

(** X8. How the two entry points of the negotiator end, in a build with
    zlib: neither throws; a telnet command (a non-empty command buffer)
    always returns; a subnegotiation returns except for CHARSET TTABLE-IS
    while CHARSET is on for this side, where the process is aborted. *)
Theorem negotiator_ends (command payload : AppendBuffer) e :
  command <> [] -> NO_ZLIB C = false ->
  statusOf (processTelnetCommand command e) = Ret tt
  /\ statusOf (processTelnetSubnegotiation payload e)
     = if (unsigned_at payload 0 =? OPT_CHARSET) && myOptionState e OPT_CHARSET
          && (unsigned_at payload 1 =? TNSB_TTABLE_IS)
       then Abort else Ret tt.
Proof.
  intros Ne Zlib. split.
  - destruct (processTelnetCommand_returns command Ne e) as [[] Ha].
    exact Ha.
  - assert (Sends : forall (m : M C unit), returns m -> forall e1, statusOf (m e1) = Ret tt).
    { intros m Hm e1. destruct (Hm e1) as [[] Ha]. exact Ha. }
    unfold processTelnetSubnegotiation.
    set (o := unsigned_at payload 0). set (verb := unsigned_at payload 1).
    unfold bind at 1, emit at 1. 
    match goal with
    | |- statusOf (let (p, log2) := ?m e in _) = ?rhs =>
        assert (Inner : statusOf (m e) = rhs);
        [| unfold statusOf in *; destruct (m e) as [[[[]| | |] e2] log2];
           cbn in *; exact Inner ]
    end.
    destruct (o =? OPT_STATUS) eqn:E1.
    { apply Byte.byte_dec_bl in E1. rewrite E1. cbn [Byte.eqb andb orb].
      change (OPT_STATUS =? OPT_CHARSET) with false. cbn [andb orb].
      apply Sends. unfold_senders. returns_walk. }
    destruct (o =? OPT_TERMINAL_TYPE) eqn:E2.
    { apply Byte.byte_dec_bl in E2. rewrite E2.
      change (OPT_TERMINAL_TYPE =? OPT_CHARSET) with false. cbn [andb orb].
      apply Sends. unfold_senders. returns_walk. }
    destruct (o =? OPT_CHARSET) eqn:E3.
    { cbn [andb orb].
      unfold subnegCHARSET. rewrite bind_get. fold verb.
      destruct (myOptionState e OPT_CHARSET); [|reflexivity]. cbn [andb].
      destruct (verb =? TNSB_REQUEST) eqn:V1.
      { apply Byte.byte_dec_bl in V1. rewrite V1.
        change (TNSB_REQUEST =? TNSB_TTABLE_IS) with false.
        apply Sends. unfold_senders. returns_walk. }
      destruct (verb =? TNSB_ACCEPTED) eqn:V2.
      { apply Byte.byte_dec_bl in V2. rewrite V2.
        change (TNSB_ACCEPTED =? TNSB_TTABLE_IS) with false.
        apply Sends. returns_walk. }
      destruct (verb =? TNSB_REJECTED) eqn:V3.
      { apply Byte.byte_dec_bl in V3. rewrite V3. reflexivity. }
      destruct (verb =? TNSB_TTABLE_IS); reflexivity. }
    destruct (o =? OPT_COMPRESS2) eqn:E4.
    { cbn [andb orb]. unfold subnegCOMPRESS2. rewrite Zlib.
      apply Sends. returns_walk. }
    cbn [andb orb].
    destruct (o =? OPT_GMCP).
    { apply Sends. unfold subnegGMCP. unfold_senders. returns_walk. }
    destruct (o =? OPT_NAWS).
    { apply Sends. unfold subnegNAWS. unfold_senders. returns_walk. }
    reflexivity.
Qed.

(** ** Refusals and repeated offers *)

Lemma byte_eqb_refl (a : byte) : (a =? a) = true.
Proof. apply Byte.byte_dec_lb. reflexivity. Qed.

Ltac run_negotiation :=
  unfold processWILL, processWONT, processDO, processDONT, sendTelnetOption, sendRawData,
    receiveEchoMode, bind, get, modify, emit, ret, engineAfter, logOf;
  cbn -[Byte.eqb willSupported doSupported Z.add Z.of_nat];
  unfold assign; rewrite ?byte_eqb_refl;
  cbn -[Byte.eqb willSupported doSupported Z.add Z.of_nat].

Ltac agree_tables o :=
  unfold agree, besidesNegotiation, entriesAt;
  cbn -[Byte.eqb Z.add Z.of_nat];
  repeat split; intros q; unfold assign;
  destruct (q =? o) eqn:Q;
  [ apply Byte.byte_dec_bl in Q; subst q;
    repeat match goal with H : _ = _ |- _ => rewrite H end;
    reflexivity
  | reflexivity ].

Lemma processWONT_twice (o : byte) e :
  let e1 := engineAfter (processWONT o e) in
  logOf (processWONT o e1) = [] /\ agree e1 (engineAfter (processWONT o e1)).
Proof.
  destruct e. cbv zeta.
  destruct (myOptionState0 o) eqn:My, (hisOptionState0 o) eqn:His,
    (heAnnouncedState0 o) eqn:He.
  all: run_negotiation; rewrite ?My, ?His, ?He;
       cbn -[Byte.eqb willSupported doSupported Z.add Z.of_nat].
  all: try (destruct (o =? OPT_ECHO));
       cbn -[Byte.eqb willSupported doSupported Z.add Z.of_nat];
       rewrite ?byte_eqb_refl, ?My, ?His, ?He;
       cbn -[Byte.eqb willSupported doSupported Z.add Z.of_nat].
  all: (split; [reflexivity | agree_tables o]).
Qed.

Lemma processDONT_twice (o : byte) e :
  let e1 := engineAfter (processDONT o e) in
  logOf (processDONT o e1) = [] /\ agree e1 (engineAfter (processDONT o e1)).
Proof.
  destruct e. cbv zeta.
  destruct (myOptionState0 o) eqn:My, (announcedState0 o) eqn:Ann.
  all: run_negotiation; rewrite ?My, ?Ann;
       cbn -[Byte.eqb willSupported doSupported Z.add Z.of_nat];
       rewrite ?byte_eqb_refl, ?My, ?Ann;
       cbn -[Byte.eqb willSupported doSupported Z.add Z.of_nat].
  all: (split; [reflexivity | agree_tables o]).
Qed.

Lemma processWILL_twice (o : byte) e :
  willSupported C o = true -> myOptionState e o = false ->
  let e1 := engineAfter (processWILL o e) in
  logOf (processWILL o e1) = [] /\ agree e1 (engineAfter (processWILL o e1)).
Proof.
  destruct e. cbn [myOptionState]. intros Sup My. cbv zeta.
  destruct (hisOptionState0 o) eqn:His.
  all: run_negotiation; rewrite ?My, ?His, ?Sup;
       cbn -[Byte.eqb willSupported doSupported Z.add Z.of_nat].
  all: try (destruct (o =? OPT_ECHO));
       cbn -[Byte.eqb willSupported doSupported Z.add Z.of_nat];
       rewrite ?byte_eqb_refl, ?My, ?His, ?Sup;
       cbn -[Byte.eqb willSupported doSupported Z.add Z.of_nat].
  all: (split; [reflexivity | agree_tables o]).
Qed.

Lemma command_negotiation (v o : byte) e :
  processTelnetCommand [TN_IAC; v; o] e =
    (emit (ProcessTelnetCommand [TN_IAC; v; o]) ;;
     if v =? TN_WILL then processWILL o
     else if v =? TN_WONT then processWONT o
     else if v =? TN_DO then processDO o
     else if v =? TN_DONT then processDONT o
     else ret tt) e.
Proof. reflexivity. Qed.

Lemma bind_emit {A} (ev : Event C) (m : M C A) e :
  (emit ev ;; m) e = (statusOf (m e), engineAfter (m e), ev :: logOf (m e)).
Proof.
  unfold bind, emit, statusOf, engineAfter, logOf.
  destruct (m e) as [[s e2] log2]. reflexivity.
Qed.

Lemma announced_twice (ev : Event C) (m : M C unit) e :
  (let e1 := engineAfter (m e) in
   logOf (m e1) = [] /\ agree e1 (engineAfter (m e1))) ->
  let e1 := engineAfter ((emit ev ;; m) e) in
  logOf ((emit ev ;; m) e1) = [ev] /\ agree e1 (engineAfter ((emit ev ;; m) e1)).
Proof.
  cbv zeta. rewrite !bind_emit. unfold engineAfter, logOf. cbn [fst snd].
  intros [Log Same]. rewrite Log. split; [reflexivity | exact Same].
Qed.

(** X9. Loop prevention. A refusal is answered at most once: whatever the
    engine, [IAC WONT o] received directly after [IAC WONT o], and
    [IAC DONT o] directly after [IAC DONT o], sends nothing, calls no hook
    and leaves every field and table entry as it was. The same holds for a
    repeated [IAC WILL o] when [o] is an option the engine accepts and has
    not enabled on its own side. *)
Theorem repeated_negotiation_is_not_answered (v o : byte) e :
  v = TN_WONT \/ v = TN_DONT
  \/ (v = TN_WILL /\ willSupported C o = true /\ myOptionState e o = false) ->
  let e1 := engineAfter (processTelnetCommand [TN_IAC; v; o] e) in
  logOf (processTelnetCommand [TN_IAC; v; o] e1) = [ProcessTelnetCommand [TN_IAC; v; o]]
  /\ agree e1 (engineAfter (processTelnetCommand [TN_IAC; v; o] e1)).
Proof.
  intros Which. cbv zeta. rewrite !command_negotiation.
  destruct Which as [V|[V|(V & Sup & My)]]; subst v.
  - apply (announced_twice _ (processWONT o) e), processWONT_twice.
  - apply (announced_twice _ (processDONT o) e), processDONT_twice.
  - apply (announced_twice _ (processWILL o) e), processWILL_twice; assumption.
Qed.

(** ** Commands inside a subnegotiation *)

Lemma runFSM_subneg_rest (params : QByteArray) cleanData (x : Engine C) :
  state x = SUBNEG -> commandBuffer x = [] ->
  runFSM (escapeIAC params ++ [TN_IAC; TN_SE]) cleanData x =
    (modify (set_state NORMAL) ;;
     modify (set_subnegBuffer (subnegBuffer x ++ params)) ;;
     modify (set_commandBuffer [TN_IAC]) ;;
     processTelnetSubnegotiation (subnegBuffer x ++ params) ;;
     modify (set_commandBuffer []) ;; modify (set_subnegBuffer []) ;;
     ret cleanData) x.
Proof.
  intros St Cb. rewrite runFSM_app. unfold bind at 1.
  rewrite runFSM_subneg_params by exact St.
  rewrite 3 bind_modify.
  match goal with
  | |- context [runFSM _ _ ?y] =>
      rewrite (runFSM_subneg_end cleanData y)
        by (destruct (containsIAC params); exact St)
  end.
  replace (subnegBuffer (if containsIAC params then _ else _))
    with (subnegBuffer x ++ params) by (destruct (containsIAC params); reflexivity).
  match goal with
  | |- (let (_, _) := ?m ?a in _) = ?m' ?b =>
      replace a with b; [destruct (m b) as [[s e2] log2]; reflexivity|]
  end.
  destruct x; cbn in St, Cb; subst; destruct (containsIAC params); reflexivity.
Qed.

Lemma step_in_subneg_IAC cleanData (x : Engine C) :
  state x = SUBNEG ->
  onReadInternal2 cleanData TN_IAC x =
    (Ret cleanData, set_commandBuffer (commandBuffer x ++ [TN_IAC]) (set_state SUBNEG_IAC x), []).
Proof.
  intros St. unfold onReadInternal2. rewrite bind_get, St. cbv iota.
  change (TN_IAC =? TN_IAC) with true. cbv iota.
  unfold set_state_to, commandBuffer_append. rewrite 2 bind_modify. reflexivity.
Qed.

Lemma step_in_subneg_negotiation (v : byte) cleanData (x : Engine C) :
  state x = SUBNEG_IAC -> isNegotiation v = true ->
  onReadInternal2 cleanData v x =
    (Ret cleanData, set_commandBuffer (commandBuffer x ++ [v]) (set_state SUBNEG_COMMAND x), []).
Proof.
  intros St Neg.
  assert (NotIAC : (v =? TN_IAC) = false).
  { destruct (v =? TN_IAC) eqn:E; [|reflexivity].
    apply Byte.byte_dec_bl in E. subst v. discriminate Neg. }
  unfold onReadInternal2. rewrite bind_get, St. cbv iota.
  rewrite NotIAC, Neg.
  unfold set_state_to, commandBuffer_append. rewrite 2 bind_modify. reflexivity.
Qed.

Lemma step_in_subneg_option (o : byte) cleanData (x : Engine C) :
  state x = SUBNEG_COMMAND ->
  onReadInternal2 cleanData o x =
    (processTelnetCommand (commandBuffer x ++ [o]) ;;
     modify (set_commandBuffer []) ;; ret cleanData)
      (set_commandBuffer (commandBuffer x ++ [o]) (set_state SUBNEG x)).
Proof.
  intros St. unfold onReadInternal2. rewrite bind_get, St. cbv iota.
  unfold set_state_to, commandBuffer_append. rewrite 2 bind_modify, bind_get.
  reflexivity.
Qed.

Lemma runFSM_subneg_command (v o : byte) cleanData (x : Engine C) :
  state x = SUBNEG -> commandBuffer x = [] -> isNegotiation v = true ->
  runFSM [TN_IAC; v; o] cleanData x =
    (modify (set_commandBuffer [TN_IAC; v; o]) ;;
     processTelnetCommand [TN_IAC; v; o] ;;
     modify (set_commandBuffer []) ;; ret cleanData) x.
Proof.
  intros St Cb Neg.
  cbn [runFSM]. unfold bind at 1. rewrite (step_in_subneg_IAC cleanData x St).
  cbv iota beta. unfold bind at 1.
  match goal with
  | |- context [onReadInternal2 _ v ?y] =>
      rewrite (step_in_subneg_negotiation v cleanData y eq_refl Neg)
  end.
  cbv iota beta. unfold bind at 1.
  match goal with
  | |- context [onReadInternal2 _ o ?y] =>
      rewrite (step_in_subneg_option o cleanData y eq_refl)
  end.
  rewrite bind_modify.
  replace (commandBuffer _ ++ [o]) with [TN_IAC; v; o]
    by (destruct x; cbn in Cb; subst; reflexivity).
  match goal with
  | |- context [bind (processTelnetCommand ?p) ?k ?a] =>
      replace a with (set_commandBuffer [TN_IAC; v; o] x)
        by (destruct x; cbn in St, Cb; subst; reflexivity)
  end.
  destruct (bind _ _ (set_commandBuffer [TN_IAC; v; o] x)) as [[[a| | |] e2] log2];
    unfold ret; cbn [app]; rewrite ?app_nil_r; reflexivity.
Qed.

Lemma runFSM_subneg_open cleanData e :
  state e = NORMAL ->
  runFSM [TN_IAC; TN_SB] cleanData e =
    (Ret cleanData, set_commandBuffer [] (set_state SUBNEG e), []).
Proof.
  intros St. destruct e; cbn in St; subst. reflexivity.
Qed.

Lemma bind_ret {A B} (a : A) (k : A -> M C B) e : bind (ret a) k e = k a e.
Proof.
  unfold bind, ret. destruct (k a e) as [[s e2] log2]. reflexivity.
Qed.

Lemma bind_congr_first {A B} (m m' : M C A) (k : A -> M C B) e :
  m e = m' e -> bind m k e = bind m' k e.
Proof. intros H. unfold bind. rewrite H. reflexivity. Qed.

Lemma bind_returned {A B} (m : M C A) (k k' : A -> M C B) e :
  (forall a e1 log1, m e = (Ret a, e1, log1) -> k a e1 = k' a e1) ->
  bind m k e = bind m k' e.
Proof.
  intros H. unfold bind. destruct (m e) as [[[a| | |] e1] log1]; try reflexivity.
  rewrite (H a e1 log1 eq_refl). reflexivity.
Qed.

Lemma log_nil {A} (r : Status A * Engine C * list (Event C)) :
  (let (p, log2) := r in let (s, e2) := p in (s, e2, [] ++ log2)) = r.
Proof. destruct r as [[s e2] log2]. reflexivity. Qed.

(** X10. A negotiation inside a subnegotiation is processed at once and the
    subnegotiation goes on: from [NORMAL], [IAC SB], parameters, [IAC v o]
    with [v] one of WILL, WONT, DO, DONT, more parameters and [IAC SE]
    (parameters with 0xFF doubled) is read as the command [IAC v o],
    processed while the parameters before it wait in the buffer, followed
    by the subnegotiation whose payload is the parameters before and after
    the command, joined. *)
Theorem command_inside_subnegotiation (v o : byte) (before after : QByteArray)
    cleanData e :
  state e = NORMAL -> subnegBuffer e = [] -> isNegotiation v = true ->
  runFSM ([TN_IAC; TN_SB] ++ escapeIAC before ++ [TN_IAC; v; o]
          ++ escapeIAC after ++ [TN_IAC; TN_SE]) cleanData e =
    (modify (set_state SUBNEG) ;;
     modify (set_subnegBuffer before) ;;
     modify (set_commandBuffer [TN_IAC; v; o]) ;;
     processTelnetCommand [TN_IAC; v; o] ;;
     modify (set_state NORMAL) ;;
     modify (set_subnegBuffer (before ++ after)) ;;
     modify (set_commandBuffer [TN_IAC]) ;;
     processTelnetSubnegotiation (before ++ after) ;;
     modify (set_commandBuffer []) ;; modify (set_subnegBuffer []) ;;
     ret cleanData) e.
Proof.
  intros St Sb Neg.
  rewrite runFSM_app. unfold bind at 1. rewrite (runFSM_subneg_open cleanData e St).
  cbv iota beta. rewrite log_nil.
  rewrite runFSM_app. unfold bind at 1.
  rewrite runFSM_subneg_params by reflexivity.
  cbv iota beta. rewrite log_nil.
  rewrite runFSM_app.
  match goal with
  | |- bind _ _ ?y = _ =>
      rewrite (bind_congr_first _ _ _ y (runFSM_subneg_command v o cleanData y
                 ltac:(destruct (containsIAC before); reflexivity)
                 ltac:(destruct (containsIAC before); reflexivity) Neg))
  end.
  rewrite bind_assoc, bind_modify, bind_assoc.
  rewrite 3 bind_modify.
  match goal with
  | |- bind _ _ ?a = bind _ _ ?b =>
      replace a with b
        by (destruct e; cbn in Sb; subst; destruct (containsIAC before); reflexivity)
  end.
  apply bind_returned. intros [] e4 log4 Command.
  pose proof (processTelnetCommand_fsmFields SUBNEG [TN_IAC; v; o] before [TN_IAC; v; o]
                (set_commandBuffer [TN_IAC; v; o]
                   (set_subnegBuffer before (set_state SUBNEG e)))
                (conj eq_refl (conj eq_refl eq_refl))) as Fields.
  rewrite Command in Fields. destruct Fields as (St4 & Cb4 & Sb4). cbn in St4, Cb4, Sb4.
  rewrite bind_assoc, bind_modify, bind_ret.
  rewrite (runFSM_subneg_rest after cleanData (set_commandBuffer [] e4))
    by (destruct e4; (exact St4 || reflexivity)).
  replace (subnegBuffer (set_commandBuffer [] e4)) with before
    by (destruct e4; symmetry; exact Sb4).
  rewrite !bind_modify.
  match goal with
  | |- bind _ _ ?a = bind _ _ ?b => replace a with b by (destruct e4; reflexivity)
  end.
  reflexivity.
Qed.

(** ** Only supported options are ever on *)

Ltac solve_supported :=
  idtac;
  match goal with
  | H : enabledAreSupported _ |- enabledAreSupported _ =>
      let q := fresh "q" in
      let Q := fresh "Q" in
      intros q; specialize (H q); destruct H;
      cbn -[Byte.eqb willSupported doSupported]; unfold assign;
      first
        [ solve [split; assumption]
        | destruct (q =? _) eqn:Q;
          [ apply Byte.byte_dec_bl in Q; subst q | ];
          split; intros; try discriminate; auto ]
  end.

Lemma processWILL_supported (o : byte) :
  preserves enabledAreSupported (processWILL (C := C) o).
Proof. unfold processWILL. unfold_senders. preserve_with solve_supported. Qed.

Lemma processWONT_supported (o : byte) :
  preserves enabledAreSupported (processWONT (C := C) o).
Proof. unfold processWONT. unfold_senders. preserve_with solve_supported. Qed.

Lemma processDO_supported (o : byte) :
  preserves enabledAreSupported (processDO (C := C) o).
Proof. unfold processDO. unfold_senders. preserve_with solve_supported. Qed.

Lemma processDONT_supported (o : byte) :
  preserves enabledAreSupported (processDONT (C := C) o).
Proof. unfold processDONT. unfold_senders. preserve_with solve_supported. Qed.

Lemma processTelnetCommand_supported (command : AppendBuffer) :
  preserves enabledAreSupported (processTelnetCommand (C := C) command).
Proof.
  pose proof processWILL_supported. pose proof processWONT_supported.
  pose proof processDO_supported. pose proof processDONT_supported.
  unfold processTelnetCommand. unfold_senders. preserve_with solve_supported.
Qed.

Lemma processTelnetSubnegotiation_supported (payload : AppendBuffer) :
  preserves enabledAreSupported (processTelnetSubnegotiation (C := C) payload).
Proof. unfold_negotiator. preserve_with solve_supported. Qed.

Lemma onReadInternal2_supported cleanData c :
  preserves enabledAreSupported (onReadInternal2 (C := C) cleanData c).
Proof.
  pose proof processTelnetCommand_supported.
  pose proof processTelnetSubnegotiation_supported.
  unfold onReadInternal2, set_state_to, commandBuffer_append, commandBuffer_clear,
    subnegBuffer_append, subnegBuffer_clear.
  preserve_with solve_supported.
Qed.

(** X11. The reader turns on only options the negotiator accepts. If every
    option that is on is a supported one (as after [reset], where none is
    on), the same holds after [onReadInternal] on any input, however the
    call ends: whatever the peer sends, no other option is ever on, on
    either side; this side's COMPRESS2, for one, stays off. *)
Theorem reader_enables_only_supported_options (fuel : nat) (data : QByteArray) e :
  enabledAreSupported e ->
  enabledAreSupported (engineAfter (onReadInternal fuel data e))
  /\ myOptionState (engineAfter (onReadInternal fuel data e)) OPT_COMPRESS2 = false.
Proof.
  intros He.
  assert (After : enabledAreSupported (engineAfter (onReadInternal fuel data e))).
  { unfold onReadInternal.
    apply (onReadWith_keeps enabledAreSupported); try exact He.
    - exact onReadInternal2_supported.
    - intros detectGA cleanData. unfold flushOnGA, sendToMapper.
      preserve_with solve_supported.
    - unfold initCompress. preserve_with solve_supported.
    - unfold resetCompress. preserve_with solve_supported.
    - intros v e1 H1. exact H1.
    - intros e1 H1. exact H1. }
  split; [exact After|].
  destruct (After OPT_COMPRESS2) as [_ Mine].
  destruct (myOptionState _ OPT_COMPRESS2); [|reflexivity].
  discriminate (Mine eq_refl).
Qed.

(** ** Option handlers *)

(** X12. A subnegotiation for an unknown option, or for an option that is
    off, is dropped. When the option byte is none of STATUS, TERMINAL-TYPE,
    CHARSET, COMPRESS2, GMCP and NAWS (whatever the option tables say), or
    is TERMINAL-TYPE, CHARSET, GMCP or NAWS while that option is off on
    this side, or is COMPRESS2 (in a build with zlib) while the peer's
    COMPRESS2 is off, the handler sends nothing, calls no hook and leaves
    the engine as it is, whatever the payload. *)
Theorem subnegotiation_for_disabled_option_is_dropped (payload : AppendBuffer) e :
  unsigned_at payload 0 <> OPT_STATUS ->
  (unsigned_at payload 0 = OPT_COMPRESS2 ->
   NO_ZLIB C = false /\ hisOptionState e OPT_COMPRESS2 = false) ->
  (unsigned_at payload 0 = OPT_TERMINAL_TYPE \/ unsigned_at payload 0 = OPT_CHARSET
   \/ unsigned_at payload 0 = OPT_GMCP \/ unsigned_at payload 0 = OPT_NAWS ->
   myOptionState e (unsigned_at payload 0) = false) ->
  processTelnetSubnegotiation payload e =
    (Ret tt, e, [ProcessTelnetSubnegotiation payload]).
Proof.
  intros NotStatus Compress Guarded.
  unfold processTelnetSubnegotiation. rewrite bind_emit.
  set (o := unsigned_at payload 0) in *.
  rewrite (eqb_neq _ _ NotStatus).
  assert (Dropped : forall r : Status unit * Engine C * list (Event C),
            r = (Ret tt, e, []) ->
            (statusOf r, engineAfter r, ProcessTelnetSubnegotiation payload :: logOf r)
            = (Ret tt, e, [ProcessTelnetSubnegotiation payload])).
  { intros r ->. reflexivity. }
  apply Dropped.
  destruct (o =? OPT_TERMINAL_TYPE) eqn:E1.
  { apply Byte.byte_dec_bl in E1. rewrite bind_get.
    rewrite E1 in Guarded. rewrite Guarded by (left; reflexivity). reflexivity. }
  destruct (o =? OPT_CHARSET) eqn:E2.
  { apply Byte.byte_dec_bl in E2. unfold subnegCHARSET. rewrite bind_get.
    rewrite E2 in Guarded. rewrite Guarded by (right; left; reflexivity). reflexivity. }
  destruct (o =? OPT_COMPRESS2) eqn:E3.
  { apply Byte.byte_dec_bl in E3. destruct (Compress E3) as [Zlib His].
    unfold subnegCOMPRESS2. rewrite Zlib, bind_get, His. reflexivity. }
  destruct (o =? OPT_GMCP) eqn:E4.
  { apply Byte.byte_dec_bl in E4. unfold subnegGMCP. rewrite bind_get.
    rewrite E4 in Guarded. rewrite Guarded by (right; right; left; reflexivity).
    reflexivity. }
  destruct (o =? OPT_NAWS) eqn:E5.
  { apply Byte.byte_dec_bl in E5. unfold subnegNAWS. rewrite bind_get.
    rewrite E5 in Guarded. rewrite Guarded by (right; right; right; reflexivity).
    reflexivity. }
  reflexivity.
Qed.

(** X13. With CHARSET on for this side, every CHARSET REQUEST gets exactly
    one answer. It is ACCEPTED with a character set that was offered and
    that the codec supports, and then the codec is switched to it; or it is
    REJECTED and the codec is left alone, which happens when the request is
    shorter than four bytes, or opens with the TTABLE marker "[", or every
    offered character set is unsupported. *)
Theorem charset_request_gets_one_answer (payload : AppendBuffer) e :
  unsigned_at payload 0 = OPT_CHARSET -> unsigned_at payload 1 = TNSB_REQUEST ->
  myOptionState e OPT_CHARSET = true ->
  let r := processTelnetSubnegotiation payload e in
  let offered := split (unsigned_at payload 2) (mid payload 3) in
  statusOf r = Ret tt
  /\ ((exists characterSet,
         In characterSet offered /\ supports C (textCodec e) characterSet = true
         /\ Nat.leb 4 (List.length payload) = true /\ unsigned_at payload 2 <> "["%byte
         /\ rawDataOf (logOf r) = [framed OPT_CHARSET (TNSB_ACCEPTED :: characterSet)]
         /\ textCodec (engineAfter r)
            = setEncodingForName C (textCodec e) characterSet)
      \/ (rawDataOf (logOf r) = [framed OPT_CHARSET [TNSB_REJECTED]]
          /\ textCodec (engineAfter r) = textCodec e
          /\ (Nat.leb 4 (List.length payload) = false \/ unsigned_at payload 2 = "["%byte
              \/ forall characterSet, In characterSet offered ->
                   supports C (textCodec e) characterSet = false))).
Proof.
  intros Opt Verb My. cbv zeta.
  unfold processTelnetSubnegotiation. rewrite bind_emit, Opt.
  change (OPT_CHARSET =? OPT_STATUS) with false.
  change (OPT_CHARSET =? OPT_TERMINAL_TYPE) with false.
  change (OPT_CHARSET =? OPT_CHARSET) with true. cbv iota.
  unfold subnegCHARSET. rewrite bind_get, My, Verb.
  change (TNSB_REQUEST =? TNSB_REQUEST) with true. cbv iota.
  destruct (Nat.leb 4 (List.length payload)) eqn:Len; cbn [andb].
  - destruct (unsigned_at payload 2 =? "[") eqn:Table; cbn [negb].
    + apply Byte.byte_dec_bl in Table.
      split; [reflexivity|]. right. repeat split. right; left. exact Table.
    + destruct (find _ _) as [characterSet|] eqn:Found.
      * apply find_some in Found. destruct Found as [Offered Supported].
        rewrite bind_modify, sendCharsetAccepted_framed.
        split; [reflexivity|]. left. exists characterSet.
        repeat split; try assumption.
        intros Eq. rewrite Eq in Table. discriminate Table.
      * split; [reflexivity|]. right. repeat split. right; right.
        intros characterSet Offered. exact (find_none _ _ Found _ Offered).
  - split; [reflexivity|]. right. repeat split. left. reflexivity.
Qed.

Lemma modules_erase_absent {T} (m : GmcpModule T) (s : list (GmcpModule T)) :
  existsb (sameModule m) (modules_erase m s) = false.
Proof.
  unfold modules_erase. induction s as [|x s IH]; [reflexivity|].
  cbn [filter]. destruct (sameModule m x) eqn:Same; cbn [negb existsb]; [exact IH|].
  rewrite Same, IH. reflexivity.
Qed.

Lemma modules_insert_present {T} (m : GmcpModule T) (s : list (GmcpModule T)) :
  existsb (sameModule m) (modules_insert m s) = true.
Proof.
  unfold modules_insert. destruct (existsb (sameModule m) s) eqn:Already; [exact Already|].
  rewrite existsb_app. cbn [existsb]. unfold sameModule at 2.
  rewrite String.eqb_refl. rewrite orb_true_r. reflexivity.
Qed.

(** X14. Enabling and disabling a GMCP module. After a module with a
    version and a recognised type is enabled, the module is in the set and
    [isGmcpModuleEnabled] of its type is true exactly when GMCP is on for
    this side; after it is disabled again the module is out of the set and
    [isGmcpModuleEnabled] of its type is false. (The type's equality test
    has to hold of the type and itself.) *)
Theorem gmcp_module_enable_then_disable
    (module : GmcpModule (GmcpModuleTypeEnum C)) (type : GmcpModuleTypeEnum C) e :
  moduleType module = Some type -> hasVersion module = true ->
  GmcpModuleTypeEnum_eqb C type type = true ->
  let on := engineAfter (receiveGmcpModule module true e) in
  let off := engineAfter (receiveGmcpModule module false on) in
  statusOf (receiveGmcpModule module true e) = Ret tt
  /\ existsb (sameModule module) (modules (gmcp on)) = true
  /\ isGmcpModuleEnabled type on = myOptionState e OPT_GMCP
  /\ statusOf (receiveGmcpModule module false on) = Ret tt
  /\ existsb (sameModule module) (modules (gmcp off)) = false
  /\ isGmcpModuleEnabled type off = false.
Proof.
  intros Ty Version Refl. cbv zeta.
  unfold receiveGmcpModule, isSupported, set_supported, getVersion.
  rewrite Version, Ty. cbn [negb].
  rewrite !bind_modify. unfold modify, statusOf, engineAfter. cbn [fst snd].
  unfold isGmcpModuleEnabled, supported_assign.
  cbn [gmcp set_gmcp supported modules myOptionState].
  rewrite Refl, modules_insert_present, modules_erase_absent.
  unfold hasVersion in Version.
  destruct (myOptionState e OPT_GMCP); cbn [negb]; rewrite ?Version; cbn;
    repeat split; reflexivity.
Qed.

(** ** The switch to compressed input *)

Lemma step_normal_IAC cleanData (x : Engine C) :
  state x = NORMAL ->
  onReadInternal2 cleanData TN_IAC x =
    (Ret cleanData, set_commandBuffer (commandBuffer x ++ [TN_IAC]) (set_state IAC x), []).
Proof.
  intros St. unfold onReadInternal2. rewrite bind_get, St. cbv iota.
  change (TN_IAC =? TN_IAC) with true. cbv iota.
  unfold set_state_to, commandBuffer_append. rewrite 2 bind_modify. reflexivity.
Qed.

Lemma step_IAC_SB cleanData (x : Engine C) :
  state x = IAC ->
  onReadInternal2 cleanData TN_SB x =
    (Ret cleanData, set_commandBuffer [] (set_state SUBNEG x), []).
Proof.
  intros St. unfold onReadInternal2. rewrite bind_get, St. cbv iota.
  change (TN_SB =? TN_IAC) with false. change (isNegotiation TN_SB) with false.
  change (TN_SB =? TN_SB) with true. cbv iota.
  unfold set_state_to, commandBuffer_clear. rewrite 2 bind_modify. reflexivity.
Qed.

Lemma step_in_subneg_byte (c : byte) cleanData (x : Engine C) :
  state x = SUBNEG -> c <> TN_IAC ->
  onReadInternal2 cleanData c x =
    (Ret cleanData, set_subnegBuffer (subnegBuffer x ++ [c]) x, []).
Proof.
  intros St Ne. unfold onReadInternal2. rewrite bind_get, St. cbv iota.
  rewrite (eqb_neq _ _ Ne).
  unfold subnegBuffer_append. rewrite bind_modify. reflexivity.
Qed.

(** An iteration of the reader's loop in plain mode after which neither
    flag is up. *)
Lemma readLoop_plain_step (detectGA : bool) (fuel : nat) c (data : QByteArray)
    cleanData e cleanData' e' log :
  inflateTelnet e = false ->
  onReadInternal2 cleanData c e = (Ret cleanData', e', log) ->
  recvdCompress e' = false -> recvdGA e' = false ->
  readLoop detectGA (S fuel) (c :: data) cleanData e =
    andThen (Ret tt, e', log, cleanData')
      (fun _ cd e1 => readLoop detectGA fuel data cd e1).
Proof.
  intros It Step Rc Ga. cbn [readLoop]. rewrite It. unfold withBuffer at 1.
  rewrite Step. cbn [andThen]. rewrite Rc.
  unfold withBuffer, flushOnGA. rewrite bind_get, Ga. unfold ret. rewrite andThen_ret.
  reflexivity.
Qed.

Lemma read_compress_head (detectGA : bool) (fuel : nat) (data : QByteArray) cleanData e :
  state e = NORMAL -> subnegBuffer e = [] -> recvdGA e = false ->
  inflateTelnet e = false -> recvdCompress e = false ->
  readLoop detectGA (4 + fuel) (TN_IAC :: TN_SB :: OPT_COMPRESS2 :: TN_IAC :: data) cleanData e =
  readLoop detectGA fuel data cleanData
    (set_commandBuffer [TN_IAC] (set_state SUBNEG_IAC (set_subnegBuffer [OPT_COMPRESS2] e))).
Proof.
  intros St Sb Ga It Rc. cbn [Nat.add].
  set (e1 := set_commandBuffer (commandBuffer e ++ [TN_IAC]) (set_state IAC e)).
  set (e2 := set_commandBuffer [] (set_state SUBNEG e1)).
  set (e3 := set_subnegBuffer (subnegBuffer e2 ++ [OPT_COMPRESS2]) e2).
  set (e4 := set_commandBuffer (commandBuffer e3 ++ [TN_IAC]) (set_state SUBNEG_IAC e3)).
  rewrite (readLoop_plain_step detectGA _ _ _ cleanData e cleanData e1 [] It
             (step_normal_IAC cleanData e St) Rc Ga).
  rewrite andThen_ret.
  rewrite (readLoop_plain_step detectGA _ _ _ cleanData e1 cleanData e2 [] It
             (step_IAC_SB cleanData e1 eq_refl) Rc Ga).
  rewrite andThen_ret.
  rewrite (readLoop_plain_step detectGA _ _ _ cleanData e2 cleanData e3 [] It
             (step_in_subneg_byte OPT_COMPRESS2 cleanData e2 eq_refl ltac:(discriminate))
             Rc Ga).
  rewrite andThen_ret.
  rewrite (readLoop_plain_step detectGA _ _ _ cleanData e3 cleanData e4 [] It
             (step_in_subneg_IAC cleanData e3 eq_refl) Rc Ga).
  rewrite andThen_ret.
  f_equal. subst e1 e2 e3 e4. destruct e; cbn in St, Sb; subst; reflexivity.
Qed.

(** X15. Compression starts at the next byte. In a build with zlib, while
    the peer's COMPRESS2 is on and the reader is in plain mode,
    [IAC SB COMPRESS2 IAC SE] in the input makes the reader initialise the
    inflater; when that succeeds the bytes that follow in the same read are
    handed to the inflater, the first of them included, and none reaches
    the state machine undecoded. When the initialisation fails the read
    throws, with the inflate flag and the request flag both left up. *)
Theorem compression_starts_at_next_byte (detectGA : bool) (fuel : nat) c (rest : QByteArray)
    cleanData e (r : Z) (strm : z_stream C) :
  NO_ZLIB C = false ->
  state e = NORMAL -> subnegBuffer e = [] -> recvdGA e = false ->
  inflateTelnet e = false -> recvdCompress e = false ->
  hisOptionState e OPT_COMPRESS2 = true ->
  inflateInit C (stream e) = (r, strm) ->
  let started := set_stream strm (set_inflateTelnet true (set_commandBuffer [] e)) in
  readLoop detectGA (6 + fuel)
    ([TN_IAC; TN_SB; OPT_COMPRESS2; TN_IAC; TN_SE] ++ c :: rest) cleanData e =
    if Z.eqb r Z_OK then
      andThen (Ret tt, started, [ProcessTelnetSubnegotiation [OPT_COMPRESS2]], cleanData)
        (fun _ cd e1 =>
           andThen (onReadInternalInflate detectGA fuel (c :: rest) cd e1)
             (fun remaining cd e2 =>
                readLoop detectGA fuel
                  (skipn (List.length (c :: rest) - remaining) (c :: rest)) cd e2))
    else
      (Throw "Unable to initialize zlib", set_recvdCompress true started,
       [ProcessTelnetSubnegotiation [OPT_COMPRESS2]], cleanData).
Proof.
  intros Zlib St Sb Ga It Rc His Init started.
  change (6 + fuel) with (4 + S (S fuel)). cbn [app].
  rewrite (read_compress_head detectGA (S (S fuel)) _ cleanData e St Sb Ga It Rc).
  set (e4 := set_commandBuffer [TN_IAC]
               (set_state SUBNEG_IAC (set_subnegBuffer [OPT_COMPRESS2] e))).
  assert (Step : onReadInternal2 cleanData TN_SE e4 =
                 (Ret cleanData, set_recvdCompress true (set_commandBuffer [] e),
                  [ProcessTelnetSubnegotiation [OPT_COMPRESS2]])).
  { unfold onReadInternal2. rewrite bind_get. change (state e4) with SUBNEG_IAC. cbv iota.
    change (TN_SE =? TN_IAC) with false. change (isNegotiation TN_SE) with false.
    change (TN_SE =? TN_SE) with true. cbv iota.
    unfold set_state_to. rewrite bind_modify, bind_get.
    change (subnegBuffer (set_state NORMAL e4)) with [OPT_COMPRESS2].
    unfold processTelnetSubnegotiation, subnegCOMPRESS2.
    change (unsigned_at [OPT_COMPRESS2] 0) with OPT_COMPRESS2.
    cbn [Byte.eqb]. change (OPT_COMPRESS2 =? OPT_STATUS) with false.
    change (OPT_COMPRESS2 =? OPT_TERMINAL_TYPE) with false.
    change (OPT_COMPRESS2 =? OPT_CHARSET) with false.
    change (OPT_COMPRESS2 =? OPT_COMPRESS2) with true. cbv iota.
    rewrite Zlib.
    unfold commandBuffer_clear, subnegBuffer_clear, bind, get, emit, modify, ret.
    change (hisOptionState (set_state NORMAL e4) OPT_COMPRESS2)
      with (hisOptionState e OPT_COMPRESS2).
    change (inflateTelnet (set_state NORMAL e4)) with (inflateTelnet e).
    rewrite His, It, andb_false_r. cbn [app].
    f_equal. f_equal. subst e4. destruct e; cbn in St, Sb; subst; reflexivity. }
  cbn [readLoop]. change (inflateTelnet e4) with (inflateTelnet e). rewrite It.
  unfold withBuffer at 1. rewrite Step. cbn [andThen].
  change (recvdCompress (set_recvdCompress true (set_commandBuffer [] e))) with true.
  cbv iota.
  unfold keepBuffer, initCompress. rewrite Zlib.
  rewrite bind_assoc, bind_modify, bind_assoc, bind_get.
  change (stream (set_inflateTelnet true (set_recvdCompress true (set_commandBuffer [] e))))
    with (stream e).
  rewrite Init. rewrite bind_assoc, bind_modify.
  destruct (Z.eqb r Z_OK); cbn [negb].
  - rewrite bind_ret. unfold modify.
    change (inflateTelnet
              (set_recvdCompress false
                 (set_stream strm
                    (set_inflateTelnet true
                       (set_recvdCompress true (set_commandBuffer [] e)))))) with true.
    cbn [andThen].
    replace (set_recvdCompress false
               (set_stream strm
                  (set_inflateTelnet true
                     (set_recvdCompress true (set_commandBuffer [] e)))))
      with started
      by (subst started; destruct e; cbn in Rc; subst; reflexivity).
    change (inflateTelnet started) with true. cbv iota.
    destruct (andThen _ _) as [[[s e6] log6] cd6]. reflexivity.
  - unfold bind, throw. cbn [andThen app].
    subst started. destruct e; reflexivity.
Qed.

(** ** The go-ahead flag *)

Lemma flagsOf_app (a b : list (Event C)) : flagsOf (a ++ b) = flagsOf a ++ flagsOf b.
Proof.
  induction a as [|ev a IH]; [reflexivity|].
  destruct ev; cbn; rewrite IH; reflexivity.
Qed.

Lemma flagsOf_quiet (log : list (Event C)) :
  Forall (fun ev => isFlush ev = false) log -> flagsOf log = [].
Proof.
  induction 1 as [|ev log Hev _ IH]; [reflexivity|].
  destruct ev; cbn in *; try discriminate Hev; exact IH.
Qed.

Lemma flushedOnGoAhead_andThen {A B} (K1 K2 : Engine C -> Prop) (m : Exit C A)
    (k : A -> AppendBuffer -> Engine C -> Exit C B) :
  flushedOnGoAhead K1 m ->
  ((exists what, exitStatus m = Throw what) \/ exitStatus m = Unfinished ->
   forall e, K1 e -> K2 e) ->
  (forall a cd e, K1 e -> flushedOnGoAhead K2 (k a cd e)) ->
  flushedOnGoAhead K2 (andThen m k).
Proof.
  intros [Flags Ends] Weaken Hk. unfold flushedOnGoAhead, exitLog, exitStatus, exitEngine in *.
  destruct m as [[[[a| | |] e] log] cd]; cbn [andThen fst snd] in *.
  - destruct Ends as [Ends|Ends]; [discriminate Ends|].
    destruct (Hk a cd e Ends) as [Flags' Ends'].
    destruct (k a cd e) as [[[s e'] log'] cd']. cbn [fst snd] in *.
    rewrite flagsOf_app. split; [apply Forall_app; split; assumption | exact Ends'].
  - split; [exact Flags|]. destruct Ends as [Ends|Ends]; [discriminate Ends|].
    right. apply Weaken; [left; eexists; reflexivity | exact Ends].
  - split; [exact Flags|]. left. reflexivity.
  - split; [exact Flags|]. destruct Ends as [Ends|Ends]; [discriminate Ends|].
    right. apply Weaken; [right; reflexivity | exact Ends].
Qed.

Ltac solve_flags :=
  idtac;
  match goal with
  | H : _ = _ /\ _ = _ |- _ => exact H
  end.

Lemma processTelnetCommand_compress_flags (it rc : bool) (command : AppendBuffer) :
  preserves (fun e => inflateTelnet e = it /\ recvdCompress e = rc)
    (processTelnetCommand (C := C) command).
Proof. unfold_negotiator. preserve_with solve_flags. Qed.

Lemma processTelnetSubnegotiation_go_ahead_flag (it ga : bool) (payload : AppendBuffer) :
  preserves (fun e => inflateTelnet e = it /\ recvdGA e = ga)
    (processTelnetSubnegotiation (C := C) payload).
Proof. unfold_negotiator. preserve_with solve_flags. Qed.

(** A byte either goes to the command handler, which leaves the request to
    inflate alone, or to the subnegotiation handler, which leaves the
    go-ahead flag alone, or to neither. *)
Lemma onReadInternal2_flags cleanData c e :
  recvdGA e = false ->
  let e' := engineAfter (onReadInternal2 cleanData c e) in
  inflateTelnet e' = inflateTelnet e
  /\ (recvdGA e' = false \/ recvdCompress e' = recvdCompress e).
Proof.
  intros Ga. cbv zeta.
  pose proof (processTelnetCommand_compress_flags (inflateTelnet e) (recvdCompress e))
    as Command.
  pose proof (processTelnetSubnegotiation_go_ahead_flag (inflateTelnet e) false)
    as Subnegotiation.
  assert (ByCommand : forall m : M C AppendBuffer,
            preserves (fun e' => inflateTelnet e' = inflateTelnet e
                                 /\ recvdCompress e' = recvdCompress e) m ->
            inflateTelnet (engineAfter (m e)) = inflateTelnet e
            /\ (recvdGA (engineAfter (m e)) = false
                \/ recvdCompress (engineAfter (m e)) = recvdCompress e)).
  { intros m Hm. destruct (Hm e (conj eq_refl eq_refl)) as [It Rc].
    split; [exact It | right; exact Rc]. }
  assert (BySubnegotiation : forall m : M C AppendBuffer,
            preserves (fun e' => inflateTelnet e' = inflateTelnet e
                                 /\ recvdGA e' = false) m ->
            inflateTelnet (engineAfter (m e)) = inflateTelnet e
            /\ (recvdGA (engineAfter (m e)) = false
                \/ recvdCompress (engineAfter (m e)) = recvdCompress e)).
  { intros m Hm. destruct (Hm e (conj eq_refl Ga)) as [It Ga'].
    split; [exact It | left; exact Ga']. }
  unfold onReadInternal2. rewrite bind_get.
  destruct (state e);
    repeat match goal with
           | |- context [if ?b then _ else _] => destruct b
           end.
  all: unfold set_state_to, commandBuffer_append, commandBuffer_clear,
         subnegBuffer_append, subnegBuffer_clear.
  all: first [ solve [apply ByCommand; preserve_with solve_flags]
             | solve [apply BySubnegotiation; preserve_with solve_flags] ].
Qed.

Lemma step_go_ahead cleanData c e :
  recvdGA e = false ->
  let x := withBuffer (fun cd => onReadInternal2 cd c) cleanData e in
  flushedOnGoAhead
    (fun e' => inflateTelnet e' = inflateTelnet e
               /\ (recvdGA e' = false \/ recvdCompress e' = recvdCompress e)) x
  /\ ((exists a, exitStatus x = Ret a) \/ exitStatus x = Abort).
Proof.
  intros Ga. cbv zeta.
  pose proof (onReadInternal2_flags cleanData c e Ga) as Flags.
  pose proof (onReadInternal2_quiet cleanData c e) as Quiet.
  pose proof (onReadInternal2_settles cleanData c e) as Settles.
  apply flagsOf_quiet in Quiet.
  unfold flushedOnGoAhead, withBuffer, exitLog, exitStatus, exitEngine, engineAfter, logOf,
    statusOf in *.
  cbv zeta in Flags.
  destruct (onReadInternal2 cleanData c e) as [[[a| | |] e'] log]; cbn [fst snd] in *.
  - rewrite Quiet. split; [split; [constructor | right; exact Flags]|].
    left; eexists; reflexivity.
  - destruct Settles as [[a Eq]|Eq]; discriminate Eq.
  - rewrite Quiet. split; [split; [constructor | left; reflexivity]|].
    right; reflexivity.
  - destruct Settles as [[a Eq]|Eq]; discriminate Eq.
Qed.

Lemma flush_go_ahead cleanData e :
  flushedOnGoAhead
    (fun e' => recvdGA e' = false /\ inflateTelnet e' = inflateTelnet e
               /\ recvdCompress e' = recvdCompress e)
    (withBuffer (flushOnGA true) cleanData e)
  /\ exists a, exitStatus (withBuffer (flushOnGA true) cleanData e) = Ret a.
Proof.
  unfold withBuffer, flushOnGA. rewrite bind_get.
  destruct (recvdGA e) eqn:Ga.
  - unfold sendToMapper. rewrite bind_emit, bind_modify. cbn.
    split; [split; [repeat constructor | right; repeat split]|]. eexists; reflexivity.
  - cbn. split; [split; [constructor | right; repeat split; exact Ga]|].
    eexists; reflexivity.
Qed.

Lemma feedInflated_go_ahead (out : list byte) : forall cleanData e,
  inflatingDown e -> flushedOnGoAhead inflatingDown (feedInflated true out cleanData e).
Proof.
  induction out as [|c out IH]; intros cleanData e [Ga It].
  - split; [constructor | right; split; assumption].
  - cbn [feedInflated].
    destruct (step_go_ahead cleanData c e Ga) as [Step Settles].
    eapply flushedOnGoAhead_andThen; [exact Step | |].
    + intros [[what Eq]|Eq]; destruct Settles as [[a Eq']|Eq']; congruence.
    + intros _ cd1 e1 [It1 _].
      destruct (flush_go_ahead cd1 e1) as [Flush [a Returns]].
      eapply flushedOnGoAhead_andThen; [exact Flush | |].
      * intros [[what Eq]|Eq]; congruence.
      * intros _ cd2 e2 (Ga2 & It2 & _). apply IH. split; congruence.
Qed.

Lemma inflatingDown_goAheadDown e : inflatingDown e -> goAheadDown e.
Proof. intros [Ga It]. split; [exact Ga | intros _; exact It]. Qed.

Lemma inflateRounds_go_ahead (fuel : nat) : forall input cleanData e,
  inflatingDown e -> flushedOnGoAhead goAheadDown (inflateRounds true fuel input cleanData e).
Proof.
  induction fuel as [|fuel IH]; intros input cleanData e Down.
  - split; [constructor | right; apply inflatingDown_goAheadDown, Down].
  - cbn [inflateRounds]. cbv zeta.
    destruct (Z.eqb _ Z_STREAM_ERROR); [split; [constructor | left; reflexivity]|].
    destruct (endsInflate _).
    + unfold keepBuffer, resetCompress. destruct Down as [Ga It].
      cbn. split; [constructor | right]. split; [exact Ga | discriminate].
    + eapply flushedOnGoAhead_andThen.
      * apply feedInflated_go_ahead. exact Down.
      * intros _ e1. apply inflatingDown_goAheadDown.
      * intros _ cd1 e1 Down1. destruct (Nat.eqb _ 0); [apply IH, Down1|].
        split; [constructor | right; apply inflatingDown_goAheadDown, Down1].
Qed.

Lemma start_inflating_go_ahead cleanData e :
  recvdGA e = false ->
  flushedOnGoAhead goAheadDown
    (keepBuffer (initCompress ;; modify (set_recvdCompress false)) cleanData e).
Proof.
  intros Ga. unfold keepBuffer, initCompress.
  destruct (NO_ZLIB C); [split; [constructor | left; reflexivity]|].
  rewrite bind_assoc, bind_modify, bind_assoc, bind_get.
  destruct (inflateInit C _) as [r strm]. rewrite bind_assoc, bind_modify.
  destruct (negb _); cbn.
  - split; [constructor | right]. split; [exact Ga | reflexivity].
  - split; [constructor | right]. split; [exact Ga | discriminate].
Qed.

Lemma readLoop_go_ahead (fuel : nat) : forall data cleanData e,
  goAheadDown e -> flushedOnGoAhead goAheadDown (readLoop true fuel data cleanData e).
Proof.
  induction fuel as [|fuel IH]; intros [|c data] cleanData e Down;
    try (split; [constructor | right; exact Down]).
  cbn [readLoop]. destruct (inflateTelnet e) eqn:It.
  - eapply flushedOnGoAhead_andThen with (K1 := goAheadDown).
    + unfold onReadInternalInflate.
      destruct (NO_ZLIB C); [split; [constructor | left; reflexivity]|].
      apply inflateRounds_go_ahead. split; [apply Down | exact It].
    + intros _ e1 Down1. exact Down1.
    + intros remaining cd1 e1 Down1. apply IH, Down1.
  - destruct Down as [Ga Rc].
    assert (Rc0 : recvdCompress e = false).
    { destruct (recvdCompress e); [|reflexivity]. rewrite (Rc eq_refl) in It.
      discriminate It. }
    destruct (step_go_ahead cleanData c e Ga) as [Step Settles].
    eapply flushedOnGoAhead_andThen; [exact Step | |].
    + intros [[what Eq]|Eq]; destruct Settles as [[a Eq']|Eq']; congruence.
    + intros _ cd1 e1 [It1 Flags]. rewrite It in It1. rewrite Rc0 in Flags.
      destruct (recvdCompress e1) eqn:Rc1.
      * assert (Ga1 : recvdGA e1 = false).
        { destruct Flags as [Ga1|Rc1']; [exact Ga1 | discriminate Rc1']. }
        eapply flushedOnGoAhead_andThen with (K1 := goAheadDown).
        -- apply start_inflating_go_ahead, Ga1.
        -- intros _ e2 Down2. exact Down2.
        -- intros _ cd2 e2 Down2. apply IH, Down2.
      * destruct (flush_go_ahead cd1 e1) as [Flush [a Returns]].
        eapply flushedOnGoAhead_andThen; [exact Flush | |].
        -- intros [[what Eq]|Eq]; congruence.
        -- intros _ cd2 e2 (Ga2 & It2 & Rc2). apply IH.
           split; [exact Ga2 | intros Up; congruence].
Qed.

Lemma all_true_repeat (l : list bool) :
  Forall (fun goAhead => goAhead = true) l -> l = repeat true (List.length l).
Proof.
  induction 1 as [|b l Hb _ IH]; [reflexivity|].
  cbn. rewrite Hb. f_equal. exact IH.
Qed.

(** X16. The go-ahead flag is down between reads, and flushes are marked as
    the comments in [onReadInternal] say. If no go-ahead is waiting when
    [onReadInternal] is called (and a request to start inflating is only
    left over in inflate mode), then the same holds when the call returns
    or throws, on any input. Every [sendToMapper] call made inside the loop
    is marked "with go-ahead". What the call logs is what the loop logs,
    followed, when the loop returns with bytes left in the buffer, by
    exactly one [sendToMapper] call with those bytes marked "without
    go-ahead", and by nothing otherwise. So the marks are some number of
    "with" and then at most one "without". *)
Theorem go_ahead_flag_is_down_between_reads (fuel : nat) (data : QByteArray) e :
  goAheadDown e ->
  let r := onReadInternal fuel data e in
  let loop := readLoop true fuel data [] e in
  (statusOf r = Abort \/ goAheadDown (engineAfter r))
  /\ (exists n, flagsOf (exitLog loop) = repeat true n)
  /\ logOf r = exitLog loop ++
                match exitStatus loop with
                | Ret _ => if Nat.eqb (List.length (exitBuffer loop)) 0 then []
                           else [SendToMapper (exitBuffer loop) false]
                | _ => []
                end
  /\ exists n, flagsOf (logOf r) = repeat true n
               \/ flagsOf (logOf r) = repeat true n ++ [false].
Proof.
  intros Down. cbv zeta. unfold onReadInternal, onReadWith.
  destruct data as [|c data].
  { destruct fuel; cbn.
    all: split; [right; exact Down|]; split; [exists 0; reflexivity|];
         split; [reflexivity | exists 0; left; reflexivity]. }
  destruct (readLoop_go_ahead fuel (c :: data) [] e Down) as [Flags Ends].
  unfold exitLog, exitStatus, exitEngine, exitBuffer in *.
  destruct (readLoop true fuel (c :: data) [] e) as [[[[a| | |] e'] log] cd];
    cbn [fst snd] in *.
  - destruct Ends as [Ends|Ends]; [discriminate Ends|].
    destruct (Nat.eqb (List.length cd) 0); cbn [negb statusOf engineAfter logOf fst snd].
    + split; [right; exact Ends|].
      split; [exists (List.length (flagsOf log)); apply all_true_repeat, Flags|].
      split; [symmetry; apply app_nil_r|].
      exists (List.length (flagsOf log)). left. apply all_true_repeat, Flags.
    + split; [right; exact Ends|].
      split; [exists (List.length (flagsOf log)); apply all_true_repeat, Flags|].
      destruct Ends as [Ga _]. rewrite Ga. split; [reflexivity|].
      exists (List.length (flagsOf log)). right.
      rewrite flagsOf_app. cbn [flagsOf].
      rewrite <- (all_true_repeat _ Flags). reflexivity.
  - cbn [statusOf engineAfter logOf fst snd].
    split; [destruct Ends as [Ends|Ends]; [discriminate Ends | right; exact Ends]|].
    split; [exists (List.length (flagsOf log)); apply all_true_repeat, Flags|].
    split; [symmetry; apply app_nil_r|].
    exists (List.length (flagsOf log)). left. apply all_true_repeat, Flags.
  - cbn [statusOf engineAfter logOf fst snd].
    split; [left; reflexivity|].
    split; [exists (List.length (flagsOf log)); apply all_true_repeat, Flags|].
    split; [symmetry; apply app_nil_r|].
    exists (List.length (flagsOf log)). left. apply all_true_repeat, Flags.
  - cbn [statusOf engineAfter logOf fst snd].
    split; [destruct Ends as [Ends|Ends]; [discriminate Ends | right; exact Ends]|].
    split; [exists (List.length (flagsOf log)); apply all_true_repeat, Flags|].
    split; [symmetry; apply app_nil_r|].
    exists (List.length (flagsOf log)). left. apply all_true_repeat, Flags.
Qed.

(** ** A payload with go-ahead, end to end *)

Lemma step_normal_byte (c : byte) cleanData (x : Engine C) :
  state x = NORMAL -> c <> TN_IAC ->
  onReadInternal2 cleanData c x = (Ret (cleanData ++ [c]), x, []).
Proof.
  intros St Ne. unfold onReadInternal2. rewrite bind_get, St. cbv iota.
  rewrite (eqb_neq _ _ Ne). reflexivity.
Qed.

Lemma step_IAC_IAC cleanData (x : Engine C) :
  state x = IAC ->
  onReadInternal2 cleanData TN_IAC x =
    (Ret (cleanData ++ [TN_IAC]), set_commandBuffer [] (set_state NORMAL x), []).
Proof.
  intros St. unfold onReadInternal2. rewrite bind_get, St. cbv iota.
  change (TN_IAC =? TN_IAC) with true. cbv iota.
  unfold set_state_to, commandBuffer_clear. rewrite 2 bind_modify. reflexivity.
Qed.

Lemma step_IAC_GA cleanData (x : Engine C) :
  state x = IAC -> commandBuffer x = [TN_IAC] ->
  onReadInternal2 cleanData TN_GA x =
    (Ret cleanData, set_commandBuffer [] (set_recvdGA true (set_state NORMAL x)),
     [ProcessTelnetCommand [TN_IAC; TN_GA]]).
Proof.
  intros St Cb. unfold onReadInternal2. rewrite bind_get, St. cbv iota.
  change (TN_GA =? TN_IAC) with false. change (isNegotiation TN_GA) with false.
  change (TN_GA =? TN_SB) with false. change (TN_GA =? TN_SE) with false. cbv iota.
  unfold set_state_to, commandBuffer_append, commandBuffer_clear.
  rewrite 2 bind_modify, bind_get.
  change (commandBuffer (set_commandBuffer _ _)) with (commandBuffer x ++ [TN_GA]).
  rewrite Cb. cbn [app].
  unfold processTelnetCommand. cbn [List.length Nat.eqb unsigned_at nth].
  change (TN_GA =? TN_AYT) with false. change (TN_GA =? TN_GA) with true. cbv iota.
  rewrite bind_assoc, bind_emit, bind_modify, bind_modify.
  cbn. destruct x; cbn in Cb; subst; reflexivity.
Qed.

(** The reader in plain mode on an escaped payload: the payload is appended
    to the clean buffer, one iteration per byte on the wire. *)
Lemma readLoop_payload (data : QByteArray) : forall (fuel : nat) (rest : QByteArray) cleanData e,
  state e = NORMAL -> commandBuffer e = [] ->
  inflateTelnet e = false -> recvdCompress e = false -> recvdGA e = false ->
  readLoop true (List.length (escapeIAC data) + fuel) (escapeIAC data ++ rest) cleanData e =
  readLoop true fuel rest (cleanData ++ data) e.
Proof.
  induction data as [|c data IH]; intros fuel rest cleanData e St Cb It Rc Ga.
  - cbn. rewrite app_nil_r. reflexivity.
  - change (c :: data) with ([c] ++ data).
    rewrite escapeIAC_app, <- app_assoc, length_app, <- Nat.add_assoc, app_assoc.
    cbn [escapeIAC flat_map app].
    destruct (c =? TN_IAC) eqn:E.
    + apply Byte.byte_dec_bl in E. subst c. cbn [app List.length Nat.add].
      set (e1 := set_commandBuffer (commandBuffer e ++ [TN_IAC]) (set_state IAC e)).
      rewrite (readLoop_plain_step true _ _ _ cleanData e cleanData e1 [] It
                 (step_normal_IAC cleanData e St) Rc Ga).
      rewrite andThen_ret.
      rewrite (readLoop_plain_step true _ _ _ cleanData e1 (cleanData ++ [TN_IAC])
                 (set_commandBuffer [] (set_state NORMAL e1)) [] It
                 (step_IAC_IAC cleanData e1 eq_refl) Rc Ga).
      rewrite andThen_ret.
      replace (set_commandBuffer [] (set_state NORMAL e1)) with e
        by (subst e1; destruct e; cbn in St, Cb; subst; reflexivity).
      rewrite IH by assumption. rewrite <- app_assoc. reflexivity.
    + cbn [app List.length Nat.add].
      assert (Ne : c <> TN_IAC).
      { intros ->. rewrite byte_eqb_refl in E. discriminate E. }
      rewrite (readLoop_plain_step true _ _ _ cleanData e (cleanData ++ [c]) e [] It
                 (step_normal_byte c cleanData e St Ne) Rc Ga).
      rewrite andThen_ret. rewrite IH by assumption. rewrite <- app_assoc. reflexivity.
Qed.

(** X17. A payload submitted with go-ahead reaches the mapper as one
    flush marked with go-ahead. When the sender's peer has not suppressed
    go-aheads, what [submitOverTelnet] sends for any payload, read by
    [onReadInternal] on an engine in plain mode in [NORMAL] with no go-ahead
    waiting, is handed to [sendToMapper] once, as the payload itself (0xFF
    bytes included) with the go-ahead mark; the reader's engine is as it
    was, and the loop needs one iteration per byte on the wire. *)
Theorem payload_with_go_ahead_round_trip (data : QByteArray) (extra : nat)
    (sender receiver : Engine C) :
  hisOptionState sender OPT_SUPPRESS_GA = false ->
  state receiver = NORMAL -> commandBuffer receiver = [] ->
  inflateTelnet receiver = false -> recvdCompress receiver = false ->
  recvdGA receiver = false ->
  exists wire sender',
    submitOverTelnet data true sender = (Ret tt, sender', [SendRawData wire])
    /\ onReadInternal (List.length wire + extra) wire receiver =
         (Ret tt, receiver,
          [ProcessTelnetCommand [TN_IAC; TN_GA]; SendToMapper data true]).
Proof.
  intros Sga St Cb It Rc Ga.
  exists (escapeIAC data ++ [TN_IAC; TN_GA]). eexists. split.
  - unfold submitOverTelnet. rewrite bind_get, Sga. cbn [andb negb].
    rewrite escaped_payload, <- app_assoc. cbn [app].
    unfold sendRawData. rewrite bind_modify. reflexivity.
  - unfold onReadInternal, onReadWith.
    destruct (escapeIAC data ++ [TN_IAC; TN_GA]) as [|w wire] eqn:Wire.
    { destruct (escapeIAC data); discriminate Wire. }
    rewrite <- Wire. rewrite length_app, <- Nat.add_assoc.
    rewrite (readLoop_payload data _ _ [] receiver St Cb It Rc Ga).
    cbn [List.length Nat.add app].
    set (e1 := set_commandBuffer (commandBuffer receiver ++ [TN_IAC]) (set_state IAC receiver)).
    rewrite (readLoop_plain_step true _ _ _ data receiver data e1 [] It
               (step_normal_IAC data receiver St) Rc Ga).
    rewrite andThen_ret.
    cbn [readLoop]. change (inflateTelnet e1) with (inflateTelnet receiver). rewrite It.
    unfold withBuffer at 1.
    rewrite (step_IAC_GA data e1 eq_refl
               ltac:(subst e1; destruct receiver; cbn in Cb; subst; reflexivity)).
    cbn [andThen].
    change (recvdCompress (set_commandBuffer [] (set_recvdGA true (set_state NORMAL e1))))
      with (recvdCompress receiver).
    rewrite Rc. unfold withBuffer, flushOnGA, sendToMapper.
    rewrite bind_get.
    change (recvdGA (set_commandBuffer [] (set_recvdGA true (set_state NORMAL e1))))
      with true.
    cbv iota. rewrite bind_emit, bind_modify.
    cbn. destruct extra; cbn.
    all: f_equal; f_equal; subst e1; destruct receiver; cbn in St, Cb, Ga; subst; reflexivity.
Qed.

(** ** Refused and requested options *)

Lemma doSupported_willSupported (o : byte) :
  doSupported o = true -> willSupported C o = true.
Proof.
  unfold doSupported, willSupported. intros H.
  repeat match type of H with
         | (_ || _) = true => apply orb_prop in H; destruct H as [H|H]
         end;
    rewrite H; rewrite ?orb_true_r; reflexivity.
Qed.

(** X18. An option the engine does not support is refused every time. On
    an engine where only supported options are on (as after [reset] and any
    input), for an option [o] that is not accepted on WILL: [IAC WILL o] is
    answered with exactly [IAC DONT o] and [IAC DO o] (other than for
    TIMING-MARK) with exactly [IAC WONT o], and the option stays off on
    both sides. *)
Theorem unsupported_option_is_refused (o : byte) e :
  enabledAreSupported e -> willSupported C o = false -> o <> OPT_TIMING_MARK ->
  let offered := processTelnetCommand [TN_IAC; TN_WILL; o] e in
  let asked := processTelnetCommand [TN_IAC; TN_DO; o] e in
  rawDataOf (logOf offered) = [[TN_IAC; TN_DONT; o]]
  /\ hisOptionState (engineAfter offered) o = false
  /\ myOptionState (engineAfter offered) o = false
  /\ rawDataOf (logOf asked) = [[TN_IAC; TN_WONT; o]]
  /\ hisOptionState (engineAfter asked) o = false
  /\ myOptionState (engineAfter asked) o = false.
Proof.
  intros Supported Will NotTM. cbv zeta.
  assert (Do : doSupported o = false).
  { destruct (doSupported o) eqn:E; [|reflexivity].
    apply doSupported_willSupported in E. congruence. }
  destruct (Supported o) as [His My].
  assert (HisOff : hisOptionState e o = false).
  { destruct (hisOptionState e o); [|reflexivity]. rewrite (His eq_refl) in Will.
    discriminate Will. }
  assert (MyOff : myOptionState e o = false).
  { destruct (myOptionState e o); [|reflexivity]. rewrite (My eq_refl) in Do.
    discriminate Do. }
  apply eqb_neq in NotTM.
  pose proof Do as Each. unfold doSupported in Each.
  repeat match type of Each with
         | (_ || _) = false => apply orb_false_elim in Each; destruct Each as [Each ?]
         end.
  rewrite !command_negotiation, !bind_emit.
  change (TN_WILL =? TN_WILL) with true. change (TN_DO =? TN_WILL) with false.
  change (TN_DO =? TN_WONT) with false. change (TN_DO =? TN_DO) with true. cbv iota.
  destruct e. cbn in HisOff, MyOff.
  destruct (o =? OPT_COMPRESS2) eqn:Compress;
    [apply Byte.byte_dec_bl in Compress; subst o|].
  all: unfold processWILL, processDO, sendTelnetOption, sendRawData, bind, get, modify,
         emit, ret, engineAfter, logOf.
  all: cbn -[Byte.eqb willSupported doSupported Z.add Z.of_nat].
  all: unfold assign; rewrite ?byte_eqb_refl.
  all: repeat match goal with
              | H : (_ =? _) = false |- _ => rewrite !H
              end.
  all: rewrite ?HisOff, ?MyOff, ?Will, ?Do.
  all: cbn -[Byte.eqb willSupported doSupported Z.add Z.of_nat].
  all: rewrite ?byte_eqb_refl, ?HisOff, ?MyOff, ?andb_false_r.
  all: cbn -[Byte.eqb willSupported doSupported Z.add Z.of_nat].
  all: rewrite ?byte_eqb_refl, ?HisOff, ?MyOff.
  all: repeat split.
Qed.

(** X19. An option the engine has requested itself. After
    [requestTelnetOption(v, o)], which sends [IAC v o] and marks the option
    as on for this side, the peer's [IAC DO o] (other than for TIMING-MARK)
    is not answered with another WILL: the engine only runs the enable
    side-effect of [o]. The peer's [IAC DONT o] is answered with exactly
    [IAC WONT o] and turns the option off again. *)
Theorem requested_option_is_not_announced_twice (v o : byte) e :
  o <> OPT_TIMING_MARK ->
  let requested := engineAfter (requestTelnetOption v o e) in
  rawDataOf (logOf (requestTelnetOption v o e)) = [[TN_IAC; v; o]]
  /\ myOptionState requested o = true
  /\ processTelnetCommand [TN_IAC; TN_DO; o] requested =
       (emit (ProcessTelnetCommand [TN_IAC; TN_DO; o]) ;; enableSideEffect o) requested
  /\ rawDataOf (logOf (processTelnetCommand [TN_IAC; TN_DONT; o] requested))
     = [[TN_IAC; TN_WONT; o]]
  /\ myOptionState (engineAfter (processTelnetCommand [TN_IAC; TN_DONT; o] requested)) o
     = false.
Proof.
  intros NotTM. cbv zeta.
  assert (On : myOptionState (engineAfter (requestTelnetOption v o e)) o = true).
  { unfold requestTelnetOption. rewrite 2 bind_modify.
    unfold sendTelnetOption, sendRawData. rewrite bind_modify.
    cbn. unfold assign. rewrite byte_eqb_refl. reflexivity. }
  split; [reflexivity|]. split; [exact On|]. split; [|split].
  - rewrite command_negotiation.
    change (TN_DO =? TN_WILL) with false. change (TN_DO =? TN_WONT) with false.
    change (TN_DO =? TN_DO) with true. cbv iota.
    rewrite !bind_emit. rewrite (processDO_already_enabled o _ NotTM On). reflexivity.
  - rewrite command_negotiation, bind_emit.
    change (TN_DONT =? TN_WILL) with false. change (TN_DONT =? TN_WONT) with false.
    change (TN_DONT =? TN_DO) with false. change (TN_DONT =? TN_DONT) with true. cbv iota.
    unfold processDONT. rewrite bind_get, On. cbn [orb].
    generalize (engineAfter (requestTelnetOption v o e)). intros e1.
    unfold sendTelnetOption, sendRawData, bind, modify, emit, ret. reflexivity.
  - rewrite command_negotiation, bind_emit.
    change (TN_DONT =? TN_WILL) with false. change (TN_DONT =? TN_WONT) with false.
    change (TN_DONT =? TN_DO) with false. change (TN_DONT =? TN_DONT) with true. cbv iota.
    unfold processDONT. rewrite bind_get, On. cbn [orb].
    generalize (engineAfter (requestTelnetOption v o e)). intros e1.
    unfold sendTelnetOption, sendRawData, bind, modify, emit, ret.
    cbn. unfold assign. rewrite byte_eqb_refl. reflexivity.
Qed.

End Properties.

(** * The statements on concrete engines *)

(** After [IAC], the command [IAC GA] is handed over with length 2. *)
Lemma fsm_step_follows_transition_table_witness :
  let e := engineAfter (onReadInternal2 [] TN_IAC Mock.constructed) in
  bufferShape e /\ List.length (commandBuffer e ++ [TN_GA]) = 2.
Proof.
  split; [reflexivity|].
  apply (proj1 (proj2 (proj2 (fsm_step_follows_transition_table Mock.collaborators)))
           _ TN_GA (mkRow IAC OnOther NORMAL [PushCommand; EmitCommand 2]) 2).
  - reflexivity.
  - reflexivity.
  - right; left; reflexivity.
Defined.

(** "a" 0xFF "b" through the framer and back. *)
Lemma escaped_payload_round_trip_witness :
  state Mock.constructed = NORMAL
  /\ exists wire sender',
       submitOverTelnet [x61; xff; x62] false Mock.constructed
         = (Ret tt, sender', [SendRawData wire])
       /\ wire = escapeIAC [x61; xff; x62]
       /\ runFSM wire [] Mock.constructed =
            (Ret [x61; xff; x62],
             (if containsIAC [x61; xff; x62]
              then set_commandBuffer [] Mock.constructed else Mock.constructed), [])
       /\ state (engineAfter (runFSM wire [] Mock.constructed)) = NORMAL.
Proof.
  split; [reflexivity|].
  apply (escaped_payload_round_trip Mock.collaborators [x61; xff; x62]
           Mock.constructed Mock.constructed).
  reflexivity.
Defined.



(** With a codec that supports "UTF-8", [IAC WILL CHARSET] and the CHARSET
    REQUEST for "UTF-8" do not lead to [IAC DO CHARSET] followed by CHARSET
    ACCEPTED and the codec on "UTF-8": only [IAC DO CHARSET] is sent and the
    codec stays on Latin-1. *)
Lemma charset_request_after_will_is_dropped :
  let r := onReadInternal 15 (willCharset ++ charsetRequestUTF8) Mock.constructed in
  supports Mock.collaborators (textCodec Mock.constructed) UTF_8 = true
  /\ ~ (rawDataOf (logOf r) = [[xff; xfd; x2a]; charsetAcceptedUTF8]
        /\ textCodec (engineAfter r) = UTF_8).
Proof.
  split; [reflexivity|].
  vm_compute. intros [H _]. discriminate H.
Defined.

(** The same request after [IAC WILL CHARSET IAC DO CHARSET]. *)
Lemma charset_request_answered_when_my_option_set_witness :
  rawDataOf (logOf (onReadInternal 15 (willCharset ++ charsetRequestUTF8)
                      (engineAfter (reset Mock.constructed)))) = [[xff; xfd; x2a]]
  /\ myOptionState afterWillDoCharset OPT_CHARSET = true
  /\ rawDataOf (logOf (onReadInternal 12 charsetRequestUTF8 afterWillDoCharset))
     = [charsetAcceptedUTF8]
  /\ textCodec (engineAfter (onReadInternal 12 charsetRequestUTF8 afterWillDoCharset))
     = UTF_8.
Proof.
  pose proof (charset_request_answered_when_my_option_set Mock.collaborators 15
                Mock.constructed afterWillDoCharset) as [Dropped Answered].
  split.
  - apply Dropped. vm_compute. lia.
  - split; [reflexivity|].
    pose proof (charset_request_answered_when_my_option_set Mock.collaborators 12
                  Mock.constructed afterWillDoCharset) as [_ Answered12].
    assert (Hyp : List.length charsetRequestUTF8 <= 12) by (vm_compute; lia).
    specialize (Answered12 eq_refl eq_refl eq_refl eq_refl eq_refl
                  (conj eq_refl (conj eq_refl eq_refl)) Hyp).
    destruct Answered12 as (_ & Sent & Codec).
    split; [exact Sent | exact Codec].
Defined.

(** It is not so that [DO o], for a supported [o] that is already enabled,
    sends nothing: [IAC DO NAWS] after [IAC DO NAWS] sends the window size
    again. *)
Lemma do_on_enabled_option_repeats_side_effect :
  ~ (forall (e : Engine Mock.collaborators) (o : byte),
       doSupported o = true -> o <> OPT_TIMING_MARK -> myOptionState e o = true ->
       rawDataOf (logOf (processTelnetCommand [TN_IAC; TN_DO; o] e)) = []).
Proof.
  intros Silent.
  assert (NotTM : OPT_NAWS <> OPT_TIMING_MARK) by discriminate.
  specialize (Silent afterDoNaws OPT_NAWS eq_refl NotTM eq_refl).
  vm_compute in Silent. discriminate Silent.
Defined.

(** [DO NAWS] on the engine as constructed, and once more. *)
Lemma do_enables_and_runs_side_effect_witness :
  (myOptionState Mock.constructed OPT_NAWS = false
   /\ rawDataOf (logOf (processDO OPT_NAWS Mock.constructed))
      = [[TN_IAC; TN_WILL; OPT_NAWS]; naws80x24]
   /\ myOptionState (engineAfter (processDO OPT_NAWS Mock.constructed)) OPT_NAWS = true
   /\ announcedState (engineAfter (processDO OPT_NAWS Mock.constructed)) OPT_NAWS = true)
  /\ (myOptionState afterDoNaws OPT_NAWS = true
      /\ processDO OPT_NAWS afterDoNaws = enableSideEffect OPT_NAWS afterDoNaws
      /\ rawDataOf (logOf (processDO OPT_NAWS afterDoNaws)) = [naws80x24]).
Proof.
  split.
  - pose proof (do_enables_and_runs_side_effect Mock.collaborators OPT_NAWS
                  Mock.constructed) as (_ & Fresh & _).
    specialize (Fresh eq_refl eq_refl). destruct Fresh as (_ & _ & My & Announced).
    split; [reflexivity|]. split; [vm_compute; reflexivity|].
    split; [exact My | exact Announced].
  - pose proof (do_enables_and_runs_side_effect Mock.collaborators OPT_NAWS
                  afterDoNaws) as (_ & _ & Again & _).
    assert (NotTM : OPT_NAWS <> OPT_TIMING_MARK) by discriminate.
    specialize (Again NotTM eq_refl).
    split; [vm_compute; reflexivity|]. split; [exact Again | vm_compute; reflexivity].
Defined.


(** The module "Char" without a version. *)
Lemma enabling_module_without_version_is_rejected_witness :
  receiveGmcpModule (C := Mock.collaborators) (mkGmcpModule "Char" 0%N (Some 0)) true Mock.constructed
  = (Throw "missing version", Mock.constructed, []).
Proof.
  apply (proj1 (enabling_module_without_version_is_rejected Mock.collaborators
                  (mkGmcpModule "Char" 0%N (Some 0)) Mock.constructed eq_refl)).
Defined.

(** The STATUS reply of the engine that has NAWS enabled. *)
Lemma sent_subnegotiations_double_IAC_witness :
  reachable afterDoNaws
  /\ sendOptionStatus afterDoNaws
     = sendRawData (framed OPT_STATUS (TNSB_IS :: statusParams afterDoNaws)) afterDoNaws.
Proof.
  assert (R : reachable afterDoNaws).
  { unfold afterDoNaws. apply reachable_call; [|exact I].
    apply (reachable_constructed
             (mkEngine (C := Mock.collaborators) (bytes_of_string "unknown") Mock.LATIN1
                false all_false all_false all_false all_false [] NORMAL [] [] 0
                false false false [] (mkGmcpData (C := Mock.collaborators) (fun _ => 0%N) [])
                (mkWindowSize 80 24))). }
  split; [exact R|].
  apply (proj2 (proj2 (proj2 (proj2 (proj2 (proj2 (proj2
           (sent_subnegotiations_double_IAC Mock.collaborators))))))) afterDoNaws R).
Defined.

(** No module is enabled on the engine as constructed. *)
Lemma gmcp_module_enabled_iff_witness :
  myOptionState Mock.constructed OPT_GMCP = false
  /\ isGmcpModuleEnabled (C := Mock.collaborators) 0 Mock.constructed = false.
Proof.
  split; [reflexivity|].
  apply (proj1 (gmcp_module_enabled_iff Mock.collaborators 0 Mock.constructed)).
  reflexivity.
Defined.

(** After [reset] no option is on. *)
Lemma constructed_enabledAreSupported : enabledAreSupported Mock.constructed.
Proof.
  intros o. split; intros On; exfalso; revert On; cbn -[Byte.eqb];
    unfold assign, all_false; destruct (Byte.eqb o OPT_COMPRESS2); discriminate.
Qed.

(** A NAWS subnegotiation for 255 x 24, with its 0xFF doubled on the wire. *)
Lemma framed_subnegotiation_reaches_handler_witness :
  OPT_NAWS <> TN_IAC
  /\ state Mock.constructed = NORMAL /\ subnegBuffer Mock.constructed = []
  /\ runFSM (framed OPT_NAWS [x00; xff; x00; x18]) [] Mock.constructed =
       (modify (set_subnegBuffer [OPT_NAWS; x00; xff; x00; x18]) ;;
        modify (set_commandBuffer [TN_IAC]) ;;
        processTelnetSubnegotiation [OPT_NAWS; x00; xff; x00; x18] ;;
        modify (set_commandBuffer []) ;; modify (set_subnegBuffer []) ;;
        ret []) Mock.constructed.
Proof.
  split; [discriminate|]. split; [reflexivity|]. split; [reflexivity|].
  apply (framed_subnegotiation_reaches_handler Mock.collaborators OPT_NAWS
           [x00; xff; x00; x18] [] Mock.constructed).
  - discriminate.
  - reflexivity.
  - reflexivity.
Defined.

(** A window of 255 x 70000 arrives as 255 x 65535. *)
Lemma window_size_round_trip_witness :
  state (afterDo OPT_NAWS) = NORMAL /\ subnegBuffer (afterDo OPT_NAWS) = []
  /\ myOptionState (afterDo OPT_NAWS) OPT_NAWS = true
  /\ exists wire,
       sendWindowSizeChanged 255 70000 Mock.constructed =
         (Ret tt,
          set_sentBytes (sentBytes Mock.constructed + Z.of_nat (List.length wire))
            Mock.constructed,
          [SendRawData wire])
       /\ runFSM wire [] (afterDo OPT_NAWS) =
            (Ret [], set_commandBuffer [] (afterDo OPT_NAWS),
             [ProcessTelnetSubnegotiation (OPT_NAWS :: nawsParams 255 70000);
              ReceiveWindowSize (clamp 255 0 65535) (clamp 70000 0 65535)]).
Proof.
  split; [vm_compute; reflexivity|]. split; [vm_compute; reflexivity|].
  split; [vm_compute; reflexivity|].
  apply (window_size_round_trip Mock.collaborators 255 70000 Mock.constructed
           (afterDo OPT_NAWS) []).
  - vm_compute; reflexivity.
  - vm_compute; reflexivity.
  - vm_compute; reflexivity.
Defined.

(** Two engines that have agreed to TERMINAL-TYPE: the answer is "unknown". *)
Lemma terminal_type_exchange_witness :
  state (afterDo OPT_TERMINAL_TYPE) = NORMAL
  /\ subnegBuffer (afterDo OPT_TERMINAL_TYPE) = []
  /\ myOptionState (afterDo OPT_TERMINAL_TYPE) OPT_TERMINAL_TYPE = true
  /\ exists request answer asker' answerer',
       sendTerminalTypeRequest (afterDo OPT_TERMINAL_TYPE)
         = (Ret tt, asker', [SendRawData request])
       /\ runFSM request [] (afterDo OPT_TERMINAL_TYPE) =
            (Ret [], answerer',
             [ProcessTelnetSubnegotiation [OPT_TERMINAL_TYPE; TNSB_SEND];
              SendRawData answer])
       /\ runFSM answer [] asker' =
            (Ret [], set_commandBuffer [] asker',
             [ProcessTelnetSubnegotiation
                (OPT_TERMINAL_TYPE :: TNSB_IS :: termType (afterDo OPT_TERMINAL_TYPE));
              ReceiveTerminalType (termType (afterDo OPT_TERMINAL_TYPE))]).
Proof.
  split; [vm_compute; reflexivity|]. split; [vm_compute; reflexivity|].
  split; [vm_compute; reflexivity|].
  apply (terminal_type_exchange Mock.collaborators (afterDo OPT_TERMINAL_TYPE)
           (afterDo OPT_TERMINAL_TYPE) [] []).
  all: vm_compute; reflexivity.
Defined.

(** The GMCP message "foo" 0xFF "bar". *)
Lemma gmcp_message_round_trip_witness :
  state (afterDo OPT_GMCP) = NORMAL /\ subnegBuffer (afterDo OPT_GMCP) = []
  /\ myOptionState (afterDo OPT_GMCP) OPT_GMCP = true
  /\ GmcpMessage_fromRawBytes Mock.collaborators
       (GmcpMessage_toRawBytes Mock.collaborators fooIACbar) = Some fooIACbar
  /\ exists wire sender',
       sendGmcpMessage (C := Mock.collaborators) fooIACbar Mock.constructed
         = (Ret tt, sender', [SendRawData wire])
       /\ runFSM wire [] (afterDo OPT_GMCP) =
            (Ret [], set_commandBuffer [] (afterDo OPT_GMCP),
             ProcessTelnetSubnegotiation
               (OPT_GMCP :: GmcpMessage_toRawBytes Mock.collaborators fooIACbar)
             :: (if Nat.eqb (List.length
                               (GmcpMessage_toRawBytes Mock.collaborators fooIACbar)) 0
                 then [] else [ReceiveGmcpMessage (C := Mock.collaborators) fooIACbar])).
Proof.
  split; [vm_compute; reflexivity|]. split; [vm_compute; reflexivity|].
  split; [vm_compute; reflexivity|]. split; [reflexivity|].
  apply (gmcp_message_round_trip Mock.collaborators fooIACbar fooIACbar Mock.constructed
           (afterDo OPT_GMCP) []).
  - vm_compute; reflexivity.
  - vm_compute; reflexivity.
  - vm_compute; reflexivity.
  - reflexivity.
Defined.


(** [IAC GA] returns; CHARSET TTABLE-IS with CHARSET on aborts. *)
Lemma negotiator_ends_witness :
  [TN_IAC; TN_GA] <> [] /\ NO_ZLIB Mock.collaborators = false
  /\ statusOf (processTelnetCommand [TN_IAC; TN_GA] afterWillDoCharset) = Ret tt
  /\ statusOf (processTelnetSubnegotiation [OPT_CHARSET; TNSB_TTABLE_IS] afterWillDoCharset)
     = Abort.
Proof.
  split; [discriminate|]. split; [reflexivity|].
  destruct (negotiator_ends Mock.collaborators [TN_IAC; TN_GA]
              [OPT_CHARSET; TNSB_TTABLE_IS] afterWillDoCharset) as [Command Subnegotiation].
  - discriminate.
  - reflexivity.
  - split; [exact Command|]. rewrite Subnegotiation. vm_compute. reflexivity.
Defined.

(** [IAC WONT ECHO] twice. *)
Lemma repeated_negotiation_is_not_answered_witness :
  (TN_WONT = TN_WONT \/ TN_WONT = TN_DONT
   \/ (TN_WONT = TN_WILL /\ willSupported Mock.collaborators OPT_ECHO = true
       /\ myOptionState Mock.constructed OPT_ECHO = false))
  /\ logOf (processTelnetCommand [TN_IAC; TN_WONT; OPT_ECHO]
              (engineAfter
                 (processTelnetCommand [TN_IAC; TN_WONT; OPT_ECHO] Mock.constructed)))
     = [ProcessTelnetCommand [TN_IAC; TN_WONT; OPT_ECHO]].
Proof.
  split; [left; reflexivity|].
  apply (proj1 (repeated_negotiation_is_not_answered Mock.collaborators TN_WONT OPT_ECHO
                  Mock.constructed (or_introl eq_refl))).
Defined.

(** The example of the comment above [onReadInternal2]:
    [IAC SB IAC WILL ECHO f o o IAC IAC b a r IAC SE]. *)
Lemma command_inside_subnegotiation_witness :
  state Mock.constructed = NORMAL /\ subnegBuffer Mock.constructed = []
  /\ isNegotiation TN_WILL = true
  /\ runFSM ([TN_IAC; TN_SB] ++ escapeIAC [] ++ [TN_IAC; TN_WILL; OPT_ECHO]
             ++ escapeIAC fooIACbar ++ [TN_IAC; TN_SE]) [] Mock.constructed =
       (modify (set_state SUBNEG) ;;
        modify (set_subnegBuffer []) ;;
        modify (set_commandBuffer [TN_IAC; TN_WILL; OPT_ECHO]) ;;
        processTelnetCommand [TN_IAC; TN_WILL; OPT_ECHO] ;;
        modify (set_state NORMAL) ;;
        modify (set_subnegBuffer ([] ++ fooIACbar)) ;;
        modify (set_commandBuffer [TN_IAC]) ;;
        processTelnetSubnegotiation ([] ++ fooIACbar) ;;
        modify (set_commandBuffer []) ;; modify (set_subnegBuffer []) ;;
        ret []) Mock.constructed.
Proof.
  split; [reflexivity|]. split; [reflexivity|]. split; [reflexivity|].
  apply (command_inside_subnegotiation Mock.collaborators TN_WILL OPT_ECHO [] fooIACbar []
           Mock.constructed).
  - reflexivity.
  - reflexivity.
  - reflexivity.
Defined.

(** After [IAC WILL 7 IAC DO 7], options nobody supports. *)
Lemma reader_enables_only_supported_options_witness :
  enabledAreSupported Mock.constructed
  /\ myOptionState
       (engineAfter (onReadInternal 6 [xff; xfb; x07; xff; xfd; x07] Mock.constructed))
       OPT_COMPRESS2 = false.
Proof.
  split; [exact constructed_enabledAreSupported|].
  apply (proj2 (reader_enables_only_supported_options Mock.collaborators 6
                  [xff; xfb; x07; xff; xfd; x07] Mock.constructed
                  constructed_enabledAreSupported)).
Defined.

(** An ECHO subnegotiation after [IAC DO ECHO]: ECHO is on for this side,
    and the subnegotiation is dropped all the same. *)
Lemma subnegotiation_for_disabled_option_is_dropped_witness :
  myOptionState (afterDo OPT_ECHO) OPT_ECHO = true
  /\ unsigned_at [OPT_ECHO; x00] 0 <> OPT_STATUS
  /\ processTelnetSubnegotiation [OPT_ECHO; x00] (afterDo OPT_ECHO) =
       (Ret tt, afterDo OPT_ECHO, [ProcessTelnetSubnegotiation [OPT_ECHO; x00]]).
Proof.
  split; [vm_compute; reflexivity|]. split; [discriminate|].
  apply (subnegotiation_for_disabled_option_is_dropped Mock.collaborators
           [OPT_ECHO; x00] (afterDo OPT_ECHO)).
  - discriminate.
  - intros Eq. discriminate Eq.
  - intros [Eq|[Eq|[Eq|Eq]]]; discriminate Eq.
Defined.

(** CHARSET REQUEST ";UTF-8" with CHARSET on. *)
Lemma charset_request_gets_one_answer_witness :
  unsigned_at [x2a; x01; x3b; x55; x54; x46; x2d; x38] 0 = OPT_CHARSET
  /\ unsigned_at [x2a; x01; x3b; x55; x54; x46; x2d; x38] 1 = TNSB_REQUEST
  /\ myOptionState afterWillDoCharset OPT_CHARSET = true
  /\ statusOf (processTelnetSubnegotiation [x2a; x01; x3b; x55; x54; x46; x2d; x38]
                 afterWillDoCharset) = Ret tt.
Proof.
  split; [reflexivity|]. split; [reflexivity|]. split; [vm_compute; reflexivity|].
  assert (On : myOptionState afterWillDoCharset OPT_CHARSET = true)
    by (vm_compute; reflexivity).
  apply (proj1 (charset_request_gets_one_answer Mock.collaborators
                  [x2a; x01; x3b; x55; x54; x46; x2d; x38] afterWillDoCharset
                  eq_refl eq_refl On)).
Defined.

(** The module "char 1" on an engine with GMCP on. *)
Lemma gmcp_module_enable_then_disable_witness :
  moduleType moduleChar1 = Some 0 /\ hasVersion moduleChar1 = true
  /\ GmcpModuleTypeEnum_eqb Mock.collaborators 0 0 = true
  /\ isGmcpModuleEnabled (C := Mock.collaborators) 0
       (engineAfter (receiveGmcpModule moduleChar1 true (afterDo OPT_GMCP)))
     = myOptionState (afterDo OPT_GMCP) OPT_GMCP.
Proof.
  split; [reflexivity|]. split; [reflexivity|]. split; [reflexivity|].
  destruct (gmcp_module_enable_then_disable Mock.collaborators moduleChar1 0
              (afterDo OPT_GMCP) eq_refl eq_refl eq_refl) as (_ & _ & Enabled & _).
  exact Enabled.
Defined.

(** [IAC SB COMPRESS2 IAC SE] "hi" after [IAC WILL COMPRESS2]: "hi" goes to
    the inflater. *)
Lemma compression_starts_at_next_byte_witness :
  NO_ZLIB Mock.collaborators = false
  /\ hisOptionState afterWillCompress2 OPT_COMPRESS2 = true
  /\ inflateTelnet afterWillCompress2 = false
  /\ inflateInit Mock.collaborators (stream afterWillCompress2) = (Z_OK, [])
  /\ exitStatus
       (readLoop true (6 + 3) ([TN_IAC; TN_SB; OPT_COMPRESS2; TN_IAC; TN_SE] ++ [x68; x69]) []
          afterWillCompress2) = Ret tt.
Proof.
  split; [reflexivity|]. split; [vm_compute; reflexivity|].
  split; [vm_compute; reflexivity|]. split; [reflexivity|].
  rewrite (compression_starts_at_next_byte Mock.collaborators true 3 x68 [x69] []
             afterWillCompress2 Z_OK []).
  - vm_compute. reflexivity.
  - reflexivity.
  - vm_compute; reflexivity.
  - vm_compute; reflexivity.
  - vm_compute; reflexivity.
  - vm_compute; reflexivity.
  - vm_compute; reflexivity.
  - vm_compute; reflexivity.
  - reflexivity.
Defined.

(** "hi" [IAC GA] "bye": one flush with go-ahead, one without. *)
Lemma go_ahead_flag_is_down_between_reads_witness :
  goAheadDown Mock.constructed
  /\ flagsOf (logOf (onReadInternal 7 hiGoAheadBye Mock.constructed)) = [true; false]
  /\ logOf (onReadInternal 7 hiGoAheadBye Mock.constructed) =
       exitLog (readLoop true 7 hiGoAheadBye [] Mock.constructed) ++
       match exitStatus (readLoop true 7 hiGoAheadBye [] Mock.constructed) with
       | Ret _ =>
           if Nat.eqb (List.length
                         (exitBuffer (readLoop true 7 hiGoAheadBye [] Mock.constructed))) 0
           then []
           else [SendToMapper
                   (exitBuffer (readLoop true 7 hiGoAheadBye [] Mock.constructed)) false]
       | _ => []
       end.
Proof.
  assert (Down : goAheadDown Mock.constructed).
  { split; [reflexivity | intros Up; discriminate Up]. }
  split; [exact Down|]. split; [vm_compute; reflexivity|].
  destruct (go_ahead_flag_is_down_between_reads Mock.collaborators 7 hiGoAheadBye
              Mock.constructed Down) as (_ & _ & Log & _).
  exact Log.
Defined.

(** "a" 0xFF "b" submitted with go-ahead. *)
Lemma payload_with_go_ahead_round_trip_witness :
  hisOptionState Mock.constructed OPT_SUPPRESS_GA = false
  /\ state Mock.constructed = NORMAL /\ commandBuffer Mock.constructed = []
  /\ exists wire sender',
       submitOverTelnet [x61; xff; x62] true Mock.constructed
         = (Ret tt, sender', [SendRawData wire])
       /\ onReadInternal (List.length wire + 0) wire Mock.constructed =
            (Ret tt, Mock.constructed,
             [ProcessTelnetCommand [TN_IAC; TN_GA]; SendToMapper [x61; xff; x62] true]).
Proof.
  split; [reflexivity|]. split; [reflexivity|]. split; [reflexivity|].
  apply (payload_with_go_ahead_round_trip Mock.collaborators [x61; xff; x62] 0
           Mock.constructed Mock.constructed).
  all: reflexivity.
Defined.

(** Option 7 is offered and asked for. *)
Lemma unsupported_option_is_refused_witness :
  willSupported Mock.collaborators x07 = false /\ x07 <> OPT_TIMING_MARK
  /\ rawDataOf (logOf (processTelnetCommand [TN_IAC; TN_WILL; x07] Mock.constructed))
     = [[TN_IAC; TN_DONT; x07]].
Proof.
  split; [reflexivity|]. split; [discriminate|].
  assert (NotTM : x07 <> OPT_TIMING_MARK) by discriminate.
  apply (proj1 (unsupported_option_is_refused Mock.collaborators x07 Mock.constructed
                  constructed_enabledAreSupported eq_refl NotTM)).
Defined.

(** The engine requests NAWS itself. *)
Lemma requested_option_is_not_announced_twice_witness :
  OPT_NAWS <> OPT_TIMING_MARK
  /\ rawDataOf (logOf (requestTelnetOption TN_WILL OPT_NAWS Mock.constructed))
     = [[TN_IAC; TN_WILL; OPT_NAWS]].
Proof.
  split; [discriminate|].
  assert (NotTM : OPT_NAWS <> OPT_TIMING_MARK) by discriminate.
  apply (proj1 (requested_option_is_not_announced_twice Mock.collaborators TN_WILL OPT_NAWS
                  Mock.constructed NotTM)).
Defined.
